(** * VandyVisor: extraction and normalisation logic

    A shallow embedding of the scraping and requirement-normalisation
    scripts of VandyVisor:
    - [src/config/mappings] (the code lookup tables),
    - [src/scripts/course_scraping/scrape_class_sections.py],
    - [src/scripts/course_scraping/scrape_course_catalog.py],
    - [src/scripts/mapping_extraction/extract_html_subjects.py],
    - [src/scripts/user_data_processing/convert_requirements_to_csv.py],
    - [src/scripts/user_data_processing/extract_requirement_structure.py].

    Python strings are lists of ASCII characters; Python dicts are
    association lists with insertion order (assigning an existing key
    updates it in place); JSON values are the inductive [pyval]; the
    regular expressions of the scripts are run by a small backtracking
    matcher that follows Python's [re] search order. *)

From Stdlib Require Import Ascii String List ZArith Bool Arith Lia Permutation Sorted.
Import ListNotations.

Open Scope list_scope.

(* ------------------------------------------------------------------ *)
(** ** Python strings *)

Definition str := list ascii.

(** A Python string literal. *)
Definition py (s : string) : str := list_ascii_of_string s.

Fixpoint str_eqb (a b : str) : bool :=
  match a, b with
  | [], [] => true
  | x :: a', y :: b' => Ascii.eqb x y && str_eqb a' b'
  | _, _ => false
  end.

(* ------------------------------------------------------------------ *)
(** ** Python dicts *)

(** A dict with string keys: insertion-ordered, each key at most once. *)
Definition pydict (V : Type) := list (str * V).

Section Dict.
Context {V : Type}.

(** [d.get(k)]: [None] when [k] is not a key. *)
Fixpoint dict_get (d : pydict V) (k : str) : option V :=
  match d with
  | [] => None
  | (k', v) :: d' => if str_eqb k k' then Some v else dict_get d' k
  end.

(** [d[k] = v]: an existing key keeps its position. *)
Fixpoint dict_set (d : pydict V) (k : str) (v : V) : pydict V :=
  match d with
  | [] => [(k, v)]
  | (k', v') :: d' =>
      if str_eqb k k' then (k', v) :: d' else (k', v') :: dict_set d' k v
  end.

(** [{**d, k1: v1, k2: v2, ...}]; a dict literal is [dict_update [] ...]. *)
Definition dict_update (d : pydict V) (kvs : list (str * V)) : pydict V :=
  fold_left (fun acc kv => dict_set acc (fst kv) (snd kv)) kvs d.

End Dict.

(* ------------------------------------------------------------------ *)
(** ** JSON values as Python sees them after [json.load] *)

#[warnings="-register-all"]
Inductive pyval : Type :=
| PNone
| PBool (b : bool)
| PInt (z : Z)
| PStr (s : str)
| PList (l : list pyval)
| PDict (d : list (str * pyval)).

(** [bool(v)]. *)
Definition py_truthy (v : pyval) : bool :=
  match v with
  | PNone => false
  | PBool b => b
  | PInt z => negb (Z.eqb z 0)
  | PStr s => negb (Nat.eqb (length s) 0)
  | PList l => negb (Nat.eqb (length l) 0)
  | PDict d => negb (Nat.eqb (length d) 0)
  end.

(** [obj.get(k, default)]. *)
Definition get_or (obj : pydict pyval) (k : str) (default : pyval) : pyval :=
  match dict_get obj k with Some v => v | None => default end.

(** [obj.get(k)]. *)
Definition get (obj : pydict pyval) (k : str) : pyval := get_or obj k PNone.

(* ------------------------------------------------------------------ *)
(** ** Requirement documents
    ([convert_requirements_to_csv.py], [extract_requirement_structure.py])

    The nesting levels are lists; every other field of an object stays in
    its dict ([..._obj]) and is read with [get]/[get_or] as the scripts do.
    [coursesUsedToSatisfy] is [None] when the key is absent or [null]: the
    script reads it with [line.get("coursesUsedToSatisfy", [])] and only
    tests its truth value, so both behave as an empty list. *)

Record Line := mkLine {
  line_obj : pydict pyval;
  coursesUsedToSatisfy : option (list (pydict pyval))
}.

Record Requirement := mkRequirement {
  requirement_obj : pydict pyval;
  requirementLines : list Line
}.

Record ReqGroup := mkReqGroup {
  group_obj : pydict pyval;
  requirements : list Requirement
}.

Record TopLevel := mkTopLevel {
  requirementGroups : list ReqGroup
}.

(** The ten course columns and the course keys they are read from. *)
Definition course_columns : list (str * str) :=
  [(py "term_taken", py "termTaken");
   (py "course_id", py "courseId");
   (py "units_earned", py "unitsEarned");
   (py "units_taken", py "unitsTaken");
   (py "long_title", py "longTitle");
   (py "grade", py "grade");
   (py "sequence", py "sequence");
   (py "subject", py "subject");
   (py "catalog_number", py "catalogNumber");
   (py "display_name", py "displayName")].

(** [base_row_data] of [process_requirement_line]. *)
Definition base_row_data (shared_data : pydict pyval) (line : Line) : pydict pyval :=
  dict_update shared_data
    [(py "description", get (line_obj line) (py "description"));
     (py "status", get (line_obj line) (py "status"));
     (py "units_required", get (line_obj line) (py "unitsRequired"));
     (py "units_used", get (line_obj line) (py "unitsUsed"));
     (py "units_needed", get (line_obj line) (py "unitsNeeded"))].

(** [course_row] of [process_requirement_line]. *)
Definition course_row (base : pydict pyval) (course : pydict pyval) : pydict pyval :=
  dict_update base
    (map (fun col => (fst col, get course (snd col))) course_columns).

(** [empty_course_row] of [process_requirement_line]. *)
Definition empty_course_row (base : pydict pyval) : pydict pyval :=
  dict_update base (map (fun col => (fst col, PNone)) course_columns).

(** [process_requirement_line(shared_data, line)]: [if courses:] is true
    for a non-empty list only. *)
Definition process_requirement_line (shared_data : pydict pyval) (line : Line)
    : list (pydict pyval) :=
  let base := base_row_data shared_data line in
  match coursesUsedToSatisfy line with
  | Some ((_ :: _) as courses) => map (course_row base) courses
  | _ => [empty_course_row base]
  end.

(** [is_main_requirement = bool(req_group.get("plan"))]. *)
Definition is_main_requirement (req_group : ReqGroup) : pyval :=
  PBool (py_truthy (get (group_obj req_group) (py "plan"))).

Definition group_name (req_group : ReqGroup) : pyval :=
  get_or (group_obj req_group) (py "name") (PStr (py "Unnamed Requirement Group")).

(** [shared_data] of [convert_requirements_to_csv]. *)
Definition shared_data (req_group : ReqGroup) (requirement : Requirement)
    : pydict pyval :=
  dict_update []
    [(py "group_name", group_name req_group);
     (py "is_main_requirement", is_main_requirement req_group);
     (py "requirement_name", get (requirement_obj requirement) (py "name"))].

(** [convert_requirements_to_csv(json_data)] (detail mode). *)
Definition convert_requirements_to_csv (json_data : list TopLevel)
    : list (pydict pyval) :=
  flat_map (fun requirement_group =>
    flat_map (fun req_group =>
      flat_map (fun requirement =>
        flat_map (fun line =>
          process_requirement_line (shared_data req_group requirement) line)
          (requirementLines requirement))
        (requirements req_group))
      (requirementGroups requirement_group))
    json_data.

(** The row of [extract_requirement_structure] for one line. *)
Definition structure_row (req_group : ReqGroup) (requirement : Requirement)
    (line : Line) : pydict pyval :=
  dict_update []
    [(py "requirement_group_number",
        get (group_obj req_group) (py "requirementGroupNumber"));
     (py "entry_sequence", get (group_obj req_group) (py "entrySequence"));
     (py "requirement_number",
        get (requirement_obj requirement) (py "requirementNumber"));
     (py "requirement_entry_sequence",
        get (requirement_obj requirement) (py "entrySequence"));
     (py "group_name", group_name req_group);
     (py "is_main_requirement", is_main_requirement req_group);
     (py "line_name", get (line_obj line) (py "name"));
     (py "description", get (line_obj line) (py "description"));
     (py "status", get (line_obj line) (py "status"));
     (py "units_required", get (line_obj line) (py "unitsRequired"));
     (py "units_used", get (line_obj line) (py "unitsUsed"));
     (py "units_needed", get (line_obj line) (py "unitsNeeded"))].

(** [extract_requirement_structure(json_data)] (structure mode). *)
Definition extract_requirement_structure (json_data : list TopLevel)
    : list (pydict pyval) :=
  flat_map (fun requirement_group =>
    flat_map (fun req_group =>
      flat_map (fun requirement =>
        map (structure_row req_group requirement) (requirementLines requirement))
        (requirements req_group))
      (requirementGroups requirement_group))
    json_data.

(** The requirement lines of a document, in the order the scripts visit
    them, each with its group and requirement. *)
Definition document_lines (json_data : list TopLevel)
    : list (ReqGroup * Requirement * Line) :=
  flat_map (fun top =>
    flat_map (fun g =>
      flat_map (fun r => map (fun l => (g, r, l)) (requirementLines r))
        (requirements g))
      (requirementGroups top))
    json_data.

(** Number of satisfying courses of a line. *)
Definition n_courses (line : Line) : nat :=
  match coursesUsedToSatisfy line with Some cs => List.length cs | None => 0 end.

(** The metadata columns shared by all rows of one line. *)
Definition metadata_columns : list str :=
  [py "group_name"; py "is_main_requirement"; py "requirement_name";
   py "description"; py "status"; py "units_required"; py "units_used";
   py "units_needed"].

(** "The requirement group carries a non-empty [plan] field": the key is
    present and its value is not [null], an empty string, list or object,
    [false] or [0]. *)
Definition plan_nonempty (req_group : ReqGroup) : Prop :=
  match dict_get (group_obj req_group) (py "plan") with
  | None | Some PNone => False
  | Some (PBool b) => b = true
  | Some (PInt z) => z <> 0%Z
  | Some (PStr s) => s <> []
  | Some (PList xs) => xs <> []
  | Some (PDict d) => d <> []
  end.

(* ------------------------------------------------------------------ *)
(** ** Python character classes and string methods (ASCII part) *)

Definition char_between (lo hi : ascii) (c : ascii) : bool :=
  (nat_of_ascii lo <=? nat_of_ascii c) && (nat_of_ascii c <=? nat_of_ascii hi).

(** [[A-Z]] *)
Definition is_upper (c : ascii) : bool := char_between "A" "Z" c.

(** [\d] *)
Definition is_digit (c : ascii) : bool := char_between "0" "9" c.

(** [[A-Z\d]] *)
Definition is_upper_or_digit (c : ascii) : bool := is_upper c || is_digit c.

(** [.] without DOTALL: anything but a newline. *)
Definition is_not_newline (c : ascii) : bool := negb (Ascii.eqb c "010"%char).

(** [\s] and [str.isspace]: tab, newline, vertical tab, form feed,
    carriage return, the separators 28 to 31 and space. *)
Definition is_space (c : ascii) : bool :=
  char_between "009" "013" c || char_between "028" "032" c.

Fixpoint lstrip_by (p : ascii -> bool) (s : str) : str :=
  match s with
  | c :: s' => if p c then lstrip_by p s' else s
  | [] => []
  end.

Definition strip_by (p : ascii -> bool) (s : str) : str :=
  rev (lstrip_by p (rev (lstrip_by p s))).

(** [s.strip()] *)
Definition py_strip (s : str) : str := strip_by is_space s.

(** [s.strip(chars)] *)
Definition py_strip_chars (chars : str) (s : str) : str :=
  strip_by (fun c => existsb (Ascii.eqb c) chars) s.

(* ------------------------------------------------------------------ *)
(** ** Regular expressions

    The patterns of the scripts are sequences of literals, the end anchor
    [$] and repeated character classes (greedy [{m,n}], [*], [+] or lazy
    [*?]). [rx_match ps s] follows Python's backtracking order: a greedy
    repetition tries the longest run first, a lazy one the shortest; the
    result is the captured groups of the first match and the unread rest. *)

Inductive piece : Type :=
| Lit (c : ascii)
| EndAnchor
| Greedy (capture : bool) (cls : ascii -> bool) (lo : nat) (hi : option nat)
| Lazy (capture : bool) (cls : ascii -> bool) (lo : nat) (hi : option nat).

Definition lits (s : string) : list piece := map Lit (list_ascii_of_string s).

(** Length of the longest prefix of [s] in the class. *)
Fixpoint run_length (cls : ascii -> bool) (s : str) : nat :=
  match s with
  | c :: s' => if cls c then S (run_length cls s') else 0
  | [] => 0
  end.

(** Repetition counts allowed at [s], shortest first. *)
Definition counts (cls : ascii -> bool) (lo : nat) (hi : option nat) (s : str)
    : list nat :=
  let top := match hi with
             | Some h => Nat.min h (run_length cls s)
             | None => run_length cls s
             end in
  seq lo (S top - lo).

Fixpoint first_some {A B} (f : A -> option B) (l : list A) : option B :=
  match l with
  | [] => None
  | x :: l' => match f x with Some y => Some y | None => first_some f l' end
  end.

(** [$]: at the end, or before a newline that ends the string. *)
Definition at_end (s : str) : bool :=
  match s with [] => true | [c] => Ascii.eqb c "010"%char | _ => false end.

Fixpoint rx_match (ps : list piece) (s : str) : option (list str * str) :=
  match ps with
  | [] => Some ([], s)
  | Lit c :: ps' =>
      match s with
      | c' :: s' => if Ascii.eqb c c' then rx_match ps' s' else None
      | [] => None
      end
  | EndAnchor :: ps' => if at_end s then rx_match ps' s else None
  | Greedy cap cls lo hi :: ps' =>
      first_some (fun n =>
        match rx_match ps' (skipn n s) with
        | Some (gs, rest) => Some (if cap then firstn n s :: gs else gs, rest)
        | None => None
        end) (rev (counts cls lo hi s))
  | Lazy cap cls lo hi :: ps' =>
      first_some (fun n =>
        match rx_match ps' (skipn n s) with
        | Some (gs, rest) => Some (if cap then firstn n s :: gs else gs, rest)
        | None => None
        end) (counts cls lo hi s)
  end.

(** [re.match(p, s)]: groups of a match anchored at the start. *)
Definition re_match (ps : list piece) (s : str) : option (list str) :=
  option_map fst (rx_match ps s).

(** [re.split(p, s, maxsplit=1)] for a pattern that never matches the
    empty string: the text before the leftmost match and the text after. *)
Fixpoint re_split1_aux (ps : list piece) (acc : str) (s : str) : list str :=
  match rx_match ps s with
  | Some (_, rest) => [rev acc; rest]
  | None =>
      match s with
      | [] => [rev acc]
      | c :: s' => re_split1_aux ps (c :: acc) s'
      end
  end.

Definition re_split1 (ps : list piece) (s : str) : list str := re_split1_aux ps [] s.

(** [re.findall(p, s)] for a pattern that never matches the empty string:
    the groups of the leftmost match, then the search resumes after it. *)
Fixpoint findall_aux (fuel : nat) (ps : list piece) (s : str) : list (list str) :=
  match fuel with
  | 0 => []
  | S fuel' =>
      match rx_match ps s with
      | Some (gs, rest) => gs :: findall_aux fuel' ps rest
      | None =>
          match s with
          | [] => []
          | _ :: s' => findall_aux fuel' ps s'
          end
      end
  end.

Definition re_findall (ps : list piece) (s : str) : list (list str) :=
  findall_aux (S (List.length s)) ps s.

(* ------------------------------------------------------------------ *)
(** ** Class-section header ([parse_class_header]) *)

(** [\s*:\s*] *)
Definition colon_rx : list piece :=
  [Greedy false is_space 0 None; Lit ":"; Greedy false is_space 0 None].

(** [([A-Z]{2,6})-([A-Z\d]{4,6})-(\d{2})] *)
Definition header_rx : list piece :=
  [Greedy true is_upper 2 (Some 6); Lit "-";
   Greedy true is_upper_or_digit 4 (Some 6); Lit "-";
   Greedy true is_digit 2 (Some 2)].

Record ClassHeader := mkClassHeader {
  subject : str;
  catalog_number : str;
  section_number : str;
  display_name : str;
  long_title : str
}.

(** [left_part] and [long_title] of [parse_class_header]. *)
Definition split_header (header_text : str) : str * str :=
  match re_split1 colon_rx header_text with
  | part0 :: part1 :: _ => (py_strip part0, py_strip part1)
  | part0 :: [] => (py_strip part0, [])
  | [] => ([], [])
  end.

Definition parse_class_header (header_text : str) : option ClassHeader :=
  let '(left_part, long_title) := split_header header_text in
  match re_match header_rx left_part with
  | Some [subject; catalog_number; section_number] =>
      Some (mkClassHeader subject catalog_number section_number
              (subject ++ "-"%char :: catalog_number) long_title)
  | _ => None
  end.

(** Which decompositions a pattern accepts, regardless of search order. *)
Definition rep_ok (cls : ascii -> bool) (lo : nat) (hi : option nat) (w : str) : Prop :=
  lo <= List.length w
  /\ match hi with Some h => List.length w <= h | None => True end
  /\ forallb cls w = true.

Inductive rx_rel : list piece -> str -> list str -> str -> Prop :=
| rx_nil s : rx_rel [] s [] s
| rx_lit c ps s gs rest :
    rx_rel ps s gs rest -> rx_rel (Lit c :: ps) (c :: s) gs rest
| rx_end ps s gs rest :
    at_end s = true -> rx_rel ps s gs rest -> rx_rel (EndAnchor :: ps) s gs rest
| rx_greedy cap cls lo hi ps w s gs rest :
    rep_ok cls lo hi w -> rx_rel ps s gs rest ->
    rx_rel (Greedy cap cls lo hi :: ps) (w ++ s) (if cap then w :: gs else gs) rest
| rx_lazy cap cls lo hi ps w s gs rest :
    rep_ok cls lo hi w -> rx_rel ps s gs rest ->
    rx_rel (Lazy cap cls lo hi :: ps) (w ++ s) (if cap then w :: gs else gs) rest.

(** The header shape [SUBJ-CAT-SEC] at the start of a string, followed by
    anything. *)
Definition header_shape_prefix (left_part : str) : Prop :=
  exists subj cat sec rest,
    left_part = subj ++ "-"%char :: cat ++ "-"%char :: sec ++ rest
    /\ 2 <= List.length subj <= 6 /\ forallb is_upper subj = true
    /\ 4 <= List.length cat <= 6 /\ forallb is_upper_or_digit cat = true
    /\ List.length sec = 2 /\ forallb is_digit sec = true.

(** The strict header shape: exactly [SUBJ-CAT-SEC]. *)
Definition header_shape_exact (left_part : str) : Prop :=
  exists subj cat sec,
    left_part = subj ++ "-"%char :: cat ++ "-"%char :: sec
    /\ 2 <= List.length subj <= 6 /\ forallb is_upper subj = true
    /\ 4 <= List.length cat <= 6 /\ forallb is_upper_or_digit cat = true
    /\ List.length sec = 2 /\ forallb is_digit sec = true.

(* ------------------------------------------------------------------ *)
(** ** Substrings ([in], [str.split]) *)

Fixpoint is_prefix (p s : str) : bool :=
  match p, s with
  | [], _ => true
  | c :: p', d :: s' => Ascii.eqb c d && is_prefix p' s'
  | _ :: _, [] => false
  end.

(** [s.find(p)]: index of the first occurrence. *)
Fixpoint find_sub (p s : str) : option nat :=
  if is_prefix p s then Some 0
  else match s with
       | [] => None
       | _ :: s' => option_map S (find_sub p s')
       end.

(** [p in s] *)
Definition py_in (p s : str) : bool :=
  match find_sub p s with Some _ => true | None => false end.

(** [s.split(sep, 1)[1]], for [sep] in [s]. *)
Definition split_after (sep s : str) : str :=
  match find_sub sep s with
  | Some i => skipn (i + List.length sep) s
  | None => []
  end.

(** [s.split(sep)[0]]. *)
Definition split_before (sep s : str) : str :=
  match find_sub sep s with
  | Some i => firstn i s
  | None => s
  end.

(* ------------------------------------------------------------------ *)
(** ** Requirement text ([extract_requirement_text]) *)

Definition corequisite_kw : str := py "Corequisite:".
Definition prerequisite_kw : str := py "Prerequisite:".
Definition antirequisite_kw : str := py "Not open to students who have earned credit for".

(** The loop's keyword list, in its order. *)
Definition requirement_keywords : list str :=
  [corequisite_kw; prerequisite_kw; antirequisite_kw].

Definition extract_requirement_text (text keyword : str) : option str :=
  if negb (py_in keyword text) then None
  else
    let part := split_after keyword text in
    let part :=
      fold_left (fun part other_keyword =>
        if negb (str_eqb other_keyword keyword) && py_in other_keyword part
        then split_before other_keyword part
        else part) requirement_keywords part in
    Some (py_strip (py_strip_chars (py ":; ") part)).

(** The same, read from the spec: the text after the keyword, cut at the
    earliest occurrence of one of the two other keywords. *)
Definition index_or_end (k s : str) : nat :=
  match find_sub k s with Some i => i | None => List.length s end.

Definition other_keywords (keyword : str) : list str :=
  filter (fun k => negb (str_eqb k keyword)) requirement_keywords.

Definition earliest_other_index (keyword part : str) : nat :=
  fold_right Nat.min (List.length part)
    (map (fun k => index_or_end k part) (other_keywords keyword)).

Definition requirement_segment_spec (text keyword : str) : option str :=
  match find_sub keyword text with
  | None => None
  | Some i =>
      let after := skipn (i + List.length keyword) text in
      Some (py_strip (py_strip_chars (py ":; ")
              (firstn (earliest_other_index keyword after) after)))
  end.

(** Cleaning applied to each segment. *)
Definition clean_segment (s : str) : str := py_strip (py_strip_chars (py ":; ") s).

(** No requirement keyword occurs in [s]. *)
Definition keyword_free (s : str) : Prop :=
  forall k, In k requirement_keywords -> find_sub k s = None.

(** [n] is the end of [s] or the start of an occurrence of a word whose
    first character is not in the tail of [k]. *)
Definition cut_point (k s : str) (n : nat) : Prop :=
  n = List.length s
  \/ exists c r, is_prefix (c :: r) (skipn n s) = true /\ ~ In c (tl k).

(* ------------------------------------------------------------------ *)
(** ** Terms offered ([extract_course_details]) *)

(** [sep.join(items)] *)
Fixpoint py_join (sep : str) (items : list str) : str :=
  match items with
  | [] => []
  | [x] => x
  | x :: items' => x ++ sep ++ py_join sep items'
  end.

(** [result["term_offered"]] computed from the "Typically Offered" text. *)
Definition term_offered (term : str) : str :=
  let terms := [] in
  let terms := if py_in (py "Fall") term then terms ++ [py "FA"] else terms in
  let terms := if py_in (py "Spring") term then terms ++ [py "SP"] else terms in
  let terms := if py_in (py "Summer") term then terms ++ [py "SU"] else terms in
  let terms := if py_in (py "Alternate Years") term then terms ++ [py "ALT"] else terms in
  py_join (py ", ") terms.

(** The four tests, in the order of the code. *)
Definition term_tokens : list (str * str) :=
  [(py "Fall", py "FA"); (py "Spring", py "SP"); (py "Summer", py "SU");
   (py "Alternate Years", py "ALT")].

(* ------------------------------------------------------------------ *)
(** ** Search results ([extract_course_ids]) *)

(** [YAHOO\.mis\.student\.CourseDetailPanel\.showCourseDetail\('(\d+)', '(\d+)', notificationString\);] *)
Definition course_id_rx : list piece :=
  lits "YAHOO.mis.student.CourseDetailPanel.showCourseDetail('"
  ++ [Greedy true is_digit 1 None]
  ++ lits "', '"
  ++ [Greedy true is_digit 1 None]
  ++ lits "', notificationString);".

(** [var notificationString = '(.*?)';] *)
Definition notification_rx : list piece :=
  lits "var notificationString = '" ++ [Lazy true is_not_newline 0 None] ++ lits "';".

(** [^(.*?)-\d+$] *)
Definition verification_rx : list piece :=
  [Lazy true is_not_newline 0 None; Lit "-"; Greedy false is_digit 1 None; EndAnchor].

(** A [findall] tuple of two groups. *)
Definition pair_of_groups (gs : list str) : str * str :=
  match gs with
  | [a; b] => (a, b)
  | _ => ([], [])
  end.

(** A [findall] result of one group. *)
Definition single_group (gs : list str) : str :=
  match gs with
  | [a] => a
  | _ => []
  end.

(** The number of capturing groups of a pattern. *)
Fixpoint n_captures (ps : list piece) : nat :=
  match ps with
  | [] => 0
  | (Greedy true _ _ _ | Lazy true _ _ _) :: ps' => S (n_captures ps')
  | _ :: ps' => n_captures ps'
  end.

(** [re.findall(...)] of the two patterns of [extract_course_ids]. *)
Definition course_id_matches (html : str) : list (list str) :=
  re_findall course_id_rx html.

Definition notification_strings (html : str) : list str :=
  map single_group (re_findall notification_rx html).

Definition candidate : Type := (str * str * option str * option str)%type.

Definition verification_code_of (notification_string : option str) : option str :=
  match notification_string with
  | Some n =>
      match re_match verification_rx n with
      | Some gs => Some (single_group gs)
      | None => None
      end
  | None => None
  end.

Definition extract_course_ids (html : str) : list candidate :=
  let ids := map pair_of_groups (re_findall course_id_rx html) in
  let notifications := map single_group (re_findall notification_rx html) in
  map (fun '(i, (course_id, offer_num)) =>
         let notification_string := nth_error notifications i in
         (course_id, offer_num, notification_string,
          verification_code_of notification_string))
      (combine (seq 0 (List.length ids)) ids).

Definition candidate_code (c : candidate) : option str :=
  let '(_, _, _, verification_code) := c in verification_code.

(** The negation of [verification_code != subject_code] in [main]. *)
Definition verification_passes (subject_code : str) (verification_code : option str)
    : bool :=
  match verification_code with
  | Some v => str_eqb v subject_code
  | None => false
  end.

(* ------------------------------------------------------------------ *)
(** ** Exceptions *)

(** The exceptions the scripts meet: [requests.RequestException] and its
    subclass [requests.Timeout], [ValueError], and any other [Exception]. *)
Inductive pyexn : Type :=
| RequestException
| Timeout
| ValueError
| OtherException.

(** A computation that returns a value or raises. *)
Inductive pyres (A : Type) : Type :=
| Ok (a : A)
| Raise (e : pyexn).
Arguments Ok {A} a.
Arguments Raise {A} e.

Definition pybind {A B} (m : pyres A) (k : A -> pyres B) : pyres B :=
  match m with Ok a => k a | Raise e => Raise e end.

Notation "x <- m ;; k" := (pybind m (fun x => k))
  (at level 61, m at next level, right associativity).

(** [try: body except Exception: handler] *)
Definition try_except {A} (body : pyres A) (handler : pyexn -> A) : pyres A :=
  match body with Ok a => Ok a | Raise e => Ok (handler e) end.

(* ------------------------------------------------------------------ *)
(** ** The catalog scan ([main] of [scrape_course_catalog.py])

    The HTTP requests and the detail-page parser are parameters: the
    statements hold for every server and every parser result. *)

Section CatalogScan.
Variable search_get : str -> pyres str.
Variable detail_get : str -> str -> pyres str.
Variable extract_course_details : str -> str -> str -> pyres (option (pydict pyval)).

(** The body of the inner [try] for one candidate that passed the check:
    the rows it writes. *)
Definition process_candidate (subject_code : str) (c : candidate) : pyres (list (pydict pyval)) :=
  let '(course_id, offer_num, _, _) := c in
  detail_text <- detail_get course_id offer_num ;;
  course_data <- extract_course_details detail_text subject_code course_id ;;
  Ok (match course_data with
      | Some d => if py_truthy (PDict d) then [d] else []
      | None => []
      end).

(** One iteration of the candidate loop. *)
Definition candidate_rows (subject_code : str) (c : candidate) : list (pydict pyval) :=
  if negb (verification_passes subject_code (candidate_code c)) then []
  else match try_except (process_candidate subject_code c) (fun _ => []) with
       | Ok rows => rows
       | Raise _ => []
       end.

(** The rows written for one subject. *)
Definition scan_subject (subject_name subject_code : str) : list (pydict pyval) :=
  match try_except
    (text <- search_get subject_name ;;
     if py_in (py "No courses found.") text then Ok []
     else Ok (flat_map (candidate_rows subject_code) (extract_course_ids text)))
    (fun _ => []) with
  | Ok rows => rows
  | Raise _ => []
  end.

(** The rows written for all subjects of [SUBJECT_MAP], in its order. *)
Definition scan_catalog (subject_map : pydict str) : list (pydict pyval) :=
  flat_map (fun '(subject_name, subject_code) => scan_subject subject_name subject_code)
    subject_map.

End CatalogScan.

(* ------------------------------------------------------------------ *)
(** ** A sample requirement document *)

(** One group with [plan = "CS"], one requirement, one line without courses. *)
Definition sample_line : Line := mkLine [(py "name", PStr (py "MATH 1300"))] None.

Definition sample_requirement : Requirement :=
  mkRequirement [(py "name", PStr (py "Calculus"))] [sample_line].

Definition sample_group : ReqGroup :=
  mkReqGroup [(py "name", PStr (py "Core")); (py "plan", PStr (py "CS"))]
    [sample_requirement].

Definition sample_document : list TopLevel := [mkTopLevel [sample_group]].

Definition sample_row : pydict pyval :=
  hd [] (convert_requirements_to_csv sample_document).

(* ------------------------------------------------------------------ *)
(** ** The mapping tables ([config/mappings]) *)

(** A dict display [{k1: v1, k2: v2, ...}]. *)
Definition dict_literal {V} (entries : list (str * V)) : pydict V := dict_update [] entries.

(** [TABLE.get(label)], where the label is a string or, as for
    [SCHOOL_MAP.get(detail_map.get("School"))], possibly [None]; [dict.get]
    returns [None] for a missing key and raises nothing. *)
Definition map_get (table : pydict str) (label : option str) : option str :=
  match label with
  | Some l => dict_get table l
  | None => None
  end.

(** [SCHOOL_MAP] ([school_mappings.py]). *)
Definition SCHOOL_MAP_entries : list (str * str) :=
  [(py "Allied Health", py "AH");
   (py "Blair School of Music", py "BLAIR");
   (py "College of Arts and Science", py "A&S");
   (py "College of Connected Computing", py "CCC");
   (py "Divinity School", py "DIV");
   (py "Division Unclassified Studies", py "DUS");
   (py "Fisk University", py "FISK");
   (py "Graduate School", py "GS");
   (py "Law School", py "LAW");
   (py "Lipscomb", py "LU");
   (py "Meharry Medical College", py "MEHRY");
   (py "Owen Grad School of Management", py "OGSM");
   (py "Peabody College", py "PBDY");
   (py "School of Engineering", py "ENGIN");
   (py "School of Medicine", py "MED");
   (py "School of Nursing", py "NURS");
   (py "Sewanee: The Univ of the South", py "SEW");
   (py "Tennessee State University", py "TSU");
   (py "Vanderbilt", py "VANDY")].

Definition SCHOOL_MAP : pydict str := dict_literal SCHOOL_MAP_entries.

(** [CAREER_MAP] ([career_mappings.py]). *)
Definition CAREER_MAP_entries : list (str * str) :=
  [(py "Consortium", py "CN");
   (py "Distance Learning Programs", py "DLP");
   (py "Div of Unclassified Studies", py "DUS");
   (py "Divinity", py "DIV");
   (py "Divinity Doctorate", py "DD");
   (py "Engineering-Professional", py "ENGP");
   (py "Graduate", py "GRAD");
   (py "Law", py "LAW");
   (py "Medical Doctor", py "MEDD");
   (py "Medical Masters/Prof Doctoral", py "MEDM");
   (py "Nursing", py "NURS");
   (py "Owen Management", py "GSM");
   (py "Peabody-Professional", py "PBDP");
   (py "Undergraduate", py "UGRD")].

Definition CAREER_MAP : pydict str := dict_literal CAREER_MAP_entries.

(** [COMPONENT_MAP] ([component_mappings.py]). *)
Definition COMPONENT_MAP_entries : list (str * str) :=
  [(py "Art Studio", py "STD");
   (py "Class", py "CLS");
   (py "Clerkship", py "CL");
   (py "Clinical", py "CLN");
   (py "Directed Study", py "DIR");
   (py "Discussion", py "DSC");
   (py "Dissertation Research", py "DIS");
   (py "Drill", py "DRI");
   (py "Externship", py "EXT");
   (py "Field Studies", py "FLD");
   (py "Field Work", py "FW");
   (py "Freshman Seminars", py "FWS");
   (py "Independent Study", py "IND");
   (py "Internship", py "INT");
   (py "Laboratory", py "LAB");
   (py "Lecture", py "LEC");
   (py "Lecture and Discussion", py "LDC");
   (py "Lecture and Lab", py "LLB");
   (py "Lecture and Performance", py "LPR");
   (py "Lecture-Tech Based Instruction", py "LTI");
   (py "Masters Thesis Research", py "THS");
   (py "Methods", py "MTH");
   (py "Online Learning", py "ONL");
   (py "Performance", py "PER");
   (py "Practicum", py "PRC");
   (py "Project", py "PRJ");
   (py "Publications", py "PUB");
   (py "Research", py "RES");
   (py "Selected/Special Topics", py "STP");
   (py "Seminar", py "SEM");
   (py "Senior Scholar", py "SSC");
   (py "Senior Thesis", py "SRT");
   (py "Studies", py "STU");
   (py "Subinternship", py "SUB");
   (py "Supervision", py "SUP");
   (py "Test 1", py "TS1");
   (py "Test 2", py "TS2");
   (py "Thesis Research", py "THE")].

Definition COMPONENT_MAP : pydict str := dict_literal COMPONENT_MAP_entries.

(* ------------------------------------------------------------------ *)
(** ** The class-section scraper ([scrape_class_sections.py]) *)

(** [str(n)] for a natural number. *)
Fixpoint str_of_nat_aux (fuel n : nat) (acc : str) : str :=
  match fuel with
  | 0 => acc
  | S fuel' =>
      let acc' := ascii_of_nat (48 + n mod 10) :: acc in
      if n <? 10 then acc' else str_of_nat_aux fuel' (n / 10) acc'
  end.

Definition str_of_nat (n : nat) : str := str_of_nat_aux (S n) n [].

(** What the scraper reads of a parsed page: the text of the first [h1]
    ([get_text(separator=" ")]) if there is one, and the rows of the
    [div.detailPanel] if there is one, each row the [get_text(strip=True)]
    of its cells. *)
Record Soup := mkSoup {
  h1_text : option str;
  detail_panel : option (list (list str))
}.

Definition opt_str (o : option str) : pyval :=
  match o with Some s => PStr s | None => PNone end.

(** [s.replace(":", "")] *)
Definition remove_colons (s : str) : str :=
  filter (fun c => negb (Ascii.eqb c ":"%char)) s.

(** [try: ... except ValueError: ...] *)
Definition try_value_error {A} (body : pyres A) (handler : A) : pyres A :=
  match body with
  | Raise ValueError => Ok handler
  | r => r
  end.

(** [requests.get(url).text], [BeautifulSoup(text)] and [float(value)]
    are parameters. *)
Section ClassScan.
Variable http_get : nat -> pyres str.
Variable make_soup : str -> pyres Soup.
Variable py_float : str -> pyres pyval.

(** [school, career, component, hours] *)
Definition details_state : Type := (pyval * pyval * pyval * pyval)%type.

(** One iteration of [for row in rows]. *)
Definition class_detail_step (st : details_state) (tds : list str) : pyres details_state :=
  let '(school, career, component, hours) := st in
  match tds with
  | td0 :: td1 :: _ =>
      let label := remove_colons td0 in
      let value := td1 in
      if str_eqb label (py "School") then
        Ok (opt_str (map_get SCHOOL_MAP (Some value)), career, component, hours)
      else if str_eqb label (py "Career") then
        Ok (school, opt_str (map_get CAREER_MAP (Some value)), component, hours)
      else if str_eqb label (py "Component") then
        Ok (school, career, opt_str (map_get COMPONENT_MAP (Some value)), hours)
      else if str_eqb label (py "Hours") then
        hours' <- try_value_error (py_float value) PNone ;;
        Ok (school, career, component, hours')
      else Ok st
  | _ => Ok st
  end.

Fixpoint class_detail_rows (st : details_state) (rows : list (list str)) : pyres details_state :=
  match rows with
  | [] => Ok st
  | tds :: rows' => st' <- class_detail_step st tds ;; class_detail_rows st' rows'
  end.

Definition extract_class_details (soup : Soup) : pyres (pydict pyval) :=
  match detail_panel soup with
  | None => Ok []
  | Some rows =>
      st <- class_detail_rows (PNone, PNone, PNone, PNone) rows ;;
      let '(school, career, component, hours) := st in
      Ok (dict_literal
            [(py "school_code", school); (py "career_code", career);
             (py "component_code", component); (py "units_earned", hours)])
  end.

(** The body of the [try] of [scrape_class_section]. *)
Definition scrape_class_section_body (class_number : nat) : pyres (option (pydict pyval)) :=
  text <- http_get class_number ;;
  if negb (py_in (py "classSectionDetailDialog") text) then Ok None else
  soup <- make_soup text ;;
  match h1_text soup with
  | None => Ok None
  | Some h1 =>
      let header_text := py_strip h1 in
      match parse_class_header header_text with
      | None => Ok None
      | Some parsed_header =>
          class_details <- extract_class_details soup ;;
          Ok (Some (dict_update
            (dict_literal
               [(py "class_number", PStr (str_of_nat class_number));
                (py "display_name", PStr (display_name parsed_header));
                (py "long_title", PStr (long_title parsed_header));
                (py "subject", PStr (subject parsed_header));
                (py "catalog_number", PStr (catalog_number parsed_header));
                (py "section_number", PStr (section_number parsed_header))])
            class_details))
      end
  end.

(** [except requests.RequestException: return None],
    [except Exception: return None]. *)
Definition scrape_class_section (class_number : nat) : pyres (option (pydict pyval)) :=
  try_except (scrape_class_section_body class_number) (fun _ => None).

(** The loop of [main] over [range(start, stop)]: the records kept. *)
Fixpoint scan_class_numbers (class_numbers : list nat) : pyres (list (pydict pyval)) :=
  match class_numbers with
  | [] => Ok []
  | n :: ns =>
      class_data <- scrape_class_section n ;;
      rest <- scan_class_numbers ns ;;
      Ok (match class_data with
          | Some d => if py_truthy (PDict d) then d :: rest else rest
          | None => rest
          end)
  end.

Definition START_CLASS_NUMBER : nat := 1000.
Definition END_CLASS_NUMBER : nat := 13 * START_CLASS_NUMBER.

Definition class_scan : pyres (list (pydict pyval)) :=
  scan_class_numbers (seq START_CLASS_NUMBER (END_CLASS_NUMBER - START_CLASS_NUMBER)).

End ClassScan.

(** The record [scrape_class_section] builds when every step succeeds. *)
Definition class_record (class_number : nat) (parsed_header : ClassHeader)
    (class_details : pydict pyval) : pydict pyval :=
  dict_update
    (dict_literal
       [(py "class_number", PStr (str_of_nat class_number));
        (py "display_name", PStr (display_name parsed_header));
        (py "long_title", PStr (long_title parsed_header));
        (py "subject", PStr (subject parsed_header));
        (py "catalog_number", PStr (catalog_number parsed_header));
        (py "section_number", PStr (section_number parsed_header))])
    class_details.

(** Every step of [scrape_class_section] succeeds and builds [r]: the page is
    fetched, has the marker, is parsed, has a heading whose header parses,
    and its details are read. *)
Definition class_section_ok (http_get : nat -> pyres str) (make_soup : str -> pyres Soup)
    (py_float : str -> pyres pyval) (class_number : nat) (r : pydict pyval) : Prop :=
  exists text soup h1 parsed_header class_details,
    http_get class_number = Ok text
    /\ py_in (py "classSectionDetailDialog") text = true
    /\ make_soup text = Ok soup
    /\ h1_text soup = Some h1
    /\ parse_class_header (py_strip h1) = Some parsed_header
    /\ extract_class_details py_float soup = Ok class_details
    /\ r = class_record class_number parsed_header class_details.

(** The keys of the class-section records. *)
Definition class_header_columns : list str :=
  [py "class_number"; py "display_name"; py "long_title"; py "subject";
   py "catalog_number"; py "section_number"].

Definition class_detail_columns : list str :=
  [py "school_code"; py "career_code"; py "component_code"; py "units_earned"].

(** A class page with the marker and a heading but no [div.detailPanel]. *)
Definition page_without_panel : str :=
  py "<div id='classSectionDetailDialog'><h1>CS-1101-01 : Intro to Computing</h1></div>".

Definition soup_without_panel : Soup :=
  mkSoup (Some (py "CS-1101-01 : Intro to Computing")) None.

(** A search-results page: three id matches, the first paired with a
    Computer Science notification string, the second with a Mathematics
    one, the third with none. *)
Definition sample_search_page : str :=
  py "YAHOO.mis.student.CourseDetailPanel.showCourseDetail('123', '1', notificationString); var notificationString = 'CS-1'; YAHOO.mis.student.CourseDetailPanel.showCourseDetail('456', '2', notificationString); var notificationString = 'MATH-2'; YAHOO.mis.student.CourseDetailPanel.showCourseDetail('789', '3', notificationString);".

(* ------------------------------------------------------------------ *)
(** ** Writing the requirement CSV files ([save_to_csv], [main]) *)

(** [fieldnames] of [save_to_csv] in [convert_requirements_to_csv.py]. *)
Definition detail_fieldnames : list str :=
  [py "group_name"; py "is_main_requirement"; py "requirement_name"; py "description";
   py "status"; py "units_required"; py "units_used"; py "units_needed";
   py "term_taken"; py "course_id"; py "units_earned"; py "units_taken";
   py "long_title"; py "grade"; py "sequence"; py "subject";
   py "catalog_number"; py "display_name"].

(** [fieldnames] of [save_to_csv] in [extract_requirement_structure.py]. *)
Definition structure_fieldnames : list str :=
  [py "group_name"; py "is_main_requirement"; py "line_name"; py "description"; py "status";
   py "requirement_group_number"; py "requirement_number";
   py "entry_sequence"; py "requirement_entry_sequence";
   py "units_required"; py "units_used"; py "units_needed"].

(** Opening the output file and writing the header, and writing one row's
    values, are parameters: either may raise. *)
Section SaveCsv.
Variable open_and_write_header : list str -> pyres unit.
Variable write_row : list str -> pydict pyval -> pyres unit.

(** [csv.DictWriter.writerow]: a row with a key outside [fieldnames]
    raises [ValueError] (the default [extrasaction="raise"]). *)
Definition dict_writer_row (fieldnames : list str) (row : pydict pyval) : pyres unit :=
  if forallb (fun k => existsb (str_eqb k) fieldnames) (map fst row)
  then write_row fieldnames row
  else Raise ValueError.

(** [writer.writerows(data)]: row by row, stopping at the first error. *)
Fixpoint dict_writer_rows (fieldnames : list str) (data : list (pydict pyval)) : pyres unit :=
  match data with
  | [] => Ok tt
  | row :: data' => _ <- dict_writer_row fieldnames row ;; dict_writer_rows fieldnames data'
  end.

(** [save_to_csv(data, output_file)] with the script's [fieldnames]. *)
Definition save_to_csv (fieldnames : list str) (data : list (pydict pyval)) : bool :=
  match data with
  | [] => false
  | _ =>
      match (_ <- open_and_write_header fieldnames ;; dict_writer_rows fieldnames data) with
      | Ok _ => true
      | Raise _ => false
      end
  end.

(** What [main] of either script ends with: the message it prints last. *)
Inductive main_outcome : Type :=
| LoadFailed
| NoData
| Succeeded
| Failed.

(** [main] of [convert_requirements_to_csv.py]; [load] is [json.load] of
    the input file, whose exceptions [load_json_data] turns into [None]. *)
Definition convert_main (load : pyres (list TopLevel)) : main_outcome :=
  match try_except (json_data <- load ;; Ok (Some json_data)) (fun _ => None) with
  | Ok (Some json_data) =>
      let csv_rows := convert_requirements_to_csv json_data in
      match csv_rows with
      | [] => NoData
      | _ => if save_to_csv detail_fieldnames csv_rows then Succeeded else Failed
      end
  | _ => LoadFailed
  end.

(** [main] of [extract_requirement_structure.py]. *)
Definition structure_main (load : pyres (list TopLevel)) : main_outcome :=
  match try_except (json_data <- load ;; Ok (Some json_data)) (fun _ => None) with
  | Ok (Some json_data) =>
      let structure_rows := extract_requirement_structure json_data in
      match structure_rows with
      | [] => NoData
      | _ => if save_to_csv structure_fieldnames structure_rows then Succeeded else Failed
      end
  | _ => LoadFailed
  end.

End SaveCsv.

(* ------------------------------------------------------------------ *)
(** ** Course details ([extract_course_details]) *)

(** [re.search(p, s)]: the groups of the leftmost match. *)
Fixpoint re_search (ps : list piece) (s : str) : option (list str) :=
  match rx_match ps s with
  | Some (gs, _) => Some gs
  | None =>
      match s with
      | [] => None
      | _ :: s' => re_search ps s'
      end
  end.

(** [re.sub(p, "", s)] for a pattern whose matches are never empty: every
    leftmost non-overlapping match deleted. *)
Fixpoint re_sub_delete_aux (fuel : nat) (ps : list piece) (s : str) : str :=
  match fuel with
  | 0 => s
  | S fuel' =>
      match rx_match ps s with
      | Some (_, rest) => re_sub_delete_aux fuel' ps rest
      | None =>
          match s with
          | [] => []
          | c :: s' => c :: re_sub_delete_aux fuel' ps s'
          end
      end
  end.

Definition re_sub_delete (ps : list piece) (s : str) : str :=
  re_sub_delete_aux (S (List.length s)) ps s.

(** [(\d{4}[A-Z]?)\s+-\s+]; the group is the text of the first two pieces,
    each captured here on its own. *)
Definition catalog_rx : list piece :=
  [Greedy true is_digit 4 (Some 4); Greedy true is_upper 0 (Some 1);
   Greedy false is_space 1 None; Lit "-"; Greedy false is_space 1 None].

Definition catalog_group (gs : list str) : str :=
  match gs with
  | [digits; letter] => digits ++ letter
  | _ => []
  end.

(** [\\(.*?\\)]: a backslash, the shortest text without a newline, a
    backslash. *)
Definition component_note_rx : list piece :=
  [Lit "\"; Lazy true is_not_newline 0 None; Lit "\"].

(** What [extract_course_details] reads of the parsed detail page: the text
    of [#courseDetailDialog h1] if there is one; for each row of
    [.detailPanel .nameValueTable tr] and of
    [#rightSection .detailPanel .nameValueTable tr], the text of its
    [strong] tag if it has one and the [get_text(strip=True)] of its cells;
    the texts of the attribute [div]s; the text of the [detailHeader] after
    the [clear] div, and of the [detailPanel] after that header, where
    they exist. *)
Record CourseSoup := mkCourseSoup {
  title_line : option str;
  detail_rows : list (option str * list str);
  enrollment_rows : list (option str * list str);
  attribute_texts : list str;
  description_header : option str;
  description_panel : option str
}.

(** The body of the loop that fills [detail_map] or [enrollment_map]: a
    row with a [strong] tag and at least two cells gives the tag's text,
    with colons stripped, as key and the second cell's text as value. *)
Definition name_value_entry (row : option str * list str) : option (str * str) :=
  match row with
  | (Some strong_text, _ :: value_cell :: _) =>
      Some (py_strip_chars (py ":") strong_text, value_cell)
  | _ => None
  end.

Definition name_value_map (rows : list (option str * list str)) : pydict str :=
  fold_left (fun acc row =>
    match name_value_entry row with
    | Some (key, value) => dict_set acc key value
    | None => acc
    end) rows [].

(** [d.get(k, default)] for a dict of strings. *)
Definition get_str (d : pydict str) (k default : str) : str :=
  match dict_get d k with Some v => v | None => default end.

(** [html.unescape] and [ATTRIBUTE_MAP] (whose module is not among the
    repository's files) are parameters. *)
Section CourseDetails.
Variable unescape : str -> str.
Variable ATTRIBUTE_MAP : pydict str.

(** The attribute codes kept: [attr_val] for each [div], when truthy. *)
Definition attribute_codes (texts : list str) : list str :=
  flat_map (fun text =>
    match map_get ATTRIBUTE_MAP (Some (unescape (py_strip text))) with
    | Some (_ :: _ as attr_val) => [attr_val]
    | _ => []
    end) texts.

Definition extract_course_details (soup : CourseSoup) (subject_code course_id : str)
    : option (pydict pyval) :=
  match title_line soup with
  | None => None
  | Some title =>
  let title_text := py_strip title in
  match re_search catalog_rx title_text with
  | None => None
  | Some groups =>
  let catalog_number := catalog_group groups in
  let sep := catalog_number ++ py " - " in
  (* [title_text.split(sep, 1)[1]] raises [IndexError] when [sep] is absent *)
  if negb (py_in sep title_text) then None else
  let long_title := py_strip (split_after sep title_text) in
  let display_name := subject_code ++ " "%char :: catalog_number in
  let result := dict_update []
    [(py "course_id", PStr course_id); (py "subject", PStr subject_code);
     (py "catalog_number", PStr catalog_number); (py "display_name", PStr display_name);
     (py "long_title", PStr long_title)] in
  let detail_map := name_value_map (detail_rows soup) in
  let result := dict_set result (py "school_code")
    (opt_str (map_get SCHOOL_MAP (dict_get detail_map (py "School")))) in
  let result := dict_set result (py "career_code")
    (opt_str (map_get CAREER_MAP (dict_get detail_map (py "Career")))) in
  let result := dict_set result (py "units_earned")
    (PStr (py_strip (get_str detail_map (py "Units") (py "0")))) in
  let components := get_str detail_map (py "Components") [] in
  let components := py_strip (re_sub_delete component_note_rx components) in
  let result := dict_set result (py "component_code")
    (opt_str (map_get COMPONENT_MAP (Some components))) in
  let enrollment_map := name_value_map (enrollment_rows soup) in
  let term := get_str enrollment_map (py "Typically Offered") [] in
  let result := dict_set result (py "term_offered") (PStr (term_offered term)) in
  let requirements_text := get_str enrollment_map (py "Requirement") [] in
  let result := dict_set result (py "all_requirements")
    (match requirements_text with [] => PNone | _ => PStr requirements_text end) in
  let result := dict_set result (py "corequisites")
    (opt_str (extract_requirement_text requirements_text corequisite_kw)) in
  let result := dict_set result (py "prerequisites")
    (opt_str (extract_requirement_text requirements_text prerequisite_kw)) in
  let result := dict_set result (py "anti_requirements")
    (opt_str (extract_requirement_text requirements_text antirequisite_kw)) in
  let attributes := attribute_codes (attribute_texts soup) in
  let result := dict_set result (py "attributes")
    (match attributes with [] => PNone | _ => PStr (py_join (py ", ") attributes) end) in
  let description :=
    match description_header soup with
    | Some header_text =>
        if py_in (py "Description") header_text then
          match description_panel soup with
          | Some panel_text => PStr (py_strip panel_text)
          | None => PStr []
          end
        else PStr []
    | None => PStr []
    end in
  Some (dict_set result (py "description") description)
  end
  end.

End CourseDetails.

(** [csv_keys] of [main]. *)
Definition csv_keys : list str :=
  [py "course_id"; py "subject"; py "catalog_number"; py "display_name"; py "long_title";
   py "school_code"; py "career_code"; py "component_code"; py "units_earned";
   py "term_offered"; py "all_requirements"; py "corequisites"; py "prerequisites";
   py "anti_requirements"; py "attributes"; py "description"].

(** A detail page: title, school, units and components rows (the
    components text carries a parenthesised note), offering and
    requirement rows, no attribute, and a description. *)
Definition sample_course_soup : CourseSoup :=
  mkCourseSoup
    (Some (py "CS 1101 - Programming and Problem Solving"))
    [(Some (py "School:"), [py "School:"; py "School of Engineering"]);
     (Some (py "Units:"), [py "Units:"; py "3"]);
     (Some (py "Components:"), [py "Components:"; py "Lecture (Required)"])]
    [(Some (py "Typically Offered:"), [py "Typically Offered:"; py "Fall, Spring"]);
     (Some (py "Requirement:"), [py "Requirement:"; py "Prerequisite: MATH 1200"])]
    []
    (Some (py "Description"))
    (Some (py " Intensive introduction to programming. ")).

(* ------------------------------------------------------------------ *)
(** ** Subject mappings ([extract_html_subjects.py]) *)

(** What [extract_subject_mappings] reads of each
    [div.multiSelectOptionContainer]: [None] when it has no
    [input.multiSelectOption], else the [title] and [value] attributes,
    [None] when absent. Reading or parsing the file may raise: the
    function then returns [{}]. *)
Definition SubjectContainer : Type := option (option str * option str).

Definition extract_subject_mappings (read : pyres (list SubjectContainer)) : pydict str :=
  match read with
  | Raise _ => []
  | Ok containers =>
      fold_left (fun title_value_map container =>
        match container with
        | Some (Some title, Some value) =>
            if py_truthy (PStr title) && py_truthy (PStr value)
            then dict_set title_value_map title value
            else title_value_map
        | _ => title_value_map
        end) containers []
  end.

(** [a < b] on strings: code point by code point, a proper prefix first. *)
Fixpoint str_ltb (a b : str) : bool :=
  match a, b with
  | [], [] => false
  | [], _ :: _ => true
  | _ :: _, [] => false
  | x :: a', y :: b' =>
      if Nat.ltb (nat_of_ascii x) (nat_of_ascii y) then true
      else if Nat.eqb (nat_of_ascii x) (nat_of_ascii y) then str_ltb a' b'
      else false
  end.

(** [<] on [(title, value)] tuples. *)
Definition item_ltb (p q : str * str) : bool :=
  str_ltb (fst p) (fst q) || (str_eqb (fst p) (fst q) && str_ltb (snd p) (snd q)).

(** [sorted(mappings.items())]: a stable insertion sort. *)
Fixpoint insert_item (x : str * str) (l : list (str * str)) : list (str * str) :=
  match l with
  | [] => [x]
  | y :: l' => if item_ltb x y then x :: l else y :: insert_item x l'
  end.

Definition sorted_items (mappings : pydict str) : list (str * str) :=
  fold_left (fun acc x => insert_item x acc) mappings [].

Definition newline : ascii := "010".
Definition double_quote : ascii := "034".

(** [title.replace("'", "\\'")] *)
Definition escape_quotes (title : str) : str :=
  flat_map (fun c => if Ascii.eqb c "'" then ["\"%char; "'"%char] else [c]) title.

(** [f"    '{escaped_title}': '{value}'{comma}\n"] *)
Definition mapping_line (title value comma : str) : str :=
  py "    '" ++ escape_quotes title ++ py "': '" ++ value ++ "'"%char :: comma ++ [newline].

(** The lines of the loop over [enumerate(sorted_mappings)]. *)
Fixpoint mapping_lines (i n : nat) (items : list (str * str)) : list str :=
  match items with
  | [] => []
  | (title, value) :: rest =>
      mapping_line title value (if Nat.ltb i (n - 1) then py "," else [])
        :: mapping_lines (S i) n rest
  end.

Definition triple_quote : str := [double_quote; double_quote; double_quote].

(** The strings passed to [file.write], in order. *)
Definition mapping_file_chunks (mappings : pydict str) : list str :=
  let sorted_mappings := sorted_items mappings in
  [triple_quote ++ [newline];
   py "Subject code mappings for Vanderbilt University system." ++ [newline; newline];
   py "This module contains the mapping from full subject/department names to their"
     ++ [newline];
   py "abbreviated codes used throughout the Vanderbilt course system." ++ [newline];
   triple_quote ++ [newline; newline];
   py "SUBJECT_MAP = {" ++ [newline]]
  ++ mapping_lines 0 (List.length sorted_mappings) sorted_mappings
  ++ [py "}" ++ [newline]].

(** [save_mappings_to_file]: [os.makedirs] and [open] ([prepare]) and each
    [file.write] may raise; any exception gives [False]. *)
Fixpoint write_all (write : str -> pyres unit) (chunks : list str) : pyres unit :=
  match chunks with
  | [] => Ok tt
  | chunk :: rest => _ <- write chunk ;; write_all write rest
  end.

Definition save_mappings_to_file (prepare : pyres unit) (write : str -> pyres unit)
    (mappings : pydict str) : bool :=
  match (_ <- prepare ;; write_all write (mapping_file_chunks mappings)) with
  | Ok _ => true
  | Raise _ => false
  end.



(* ================================================================== *)
(** * Proofs *)

(** ** Strings and dicts *)

Lemma str_eqb_eq : forall a b, str_eqb a b = true <-> a = b.
Proof.
  induction a as [|x a IH]; destruct b as [|y b]; simpl; split; intro H;
    try discriminate; try reflexivity.
  - apply andb_true_iff in H as [H1 H2].
    apply Ascii.eqb_eq in H1; apply IH in H2; subst; reflexivity.
  - injection H as -> ->. rewrite Ascii.eqb_refl. simpl. apply IH. reflexivity.
Qed.

Lemma str_eqb_refl : forall a, str_eqb a a = true.
Proof. intro a. apply str_eqb_eq. reflexivity. Qed.

Lemma str_eqb_neq : forall a b, a <> b -> str_eqb a b = false.
Proof.
  intros a b H. destruct (str_eqb a b) eqn:E; [|reflexivity].
  apply str_eqb_eq in E. contradiction.
Qed.

Section DictFacts.
Context {V : Type}.
Implicit Types (d : pydict V) (kvs : list (str * V)) (v : V).

Lemma dict_get_set_same : forall d k v, dict_get (dict_set d k v) k = Some v.
Proof.
  induction d as [|[k' v'] d IH]; intros k v; simpl.
  - rewrite str_eqb_refl. reflexivity.
  - destruct (str_eqb k k') eqn:E; simpl.
    + apply str_eqb_eq in E; subst. rewrite str_eqb_refl. reflexivity.
    + rewrite E. apply IH.
Qed.

Lemma dict_get_set_other : forall d k k' v,
  k' <> k -> dict_get (dict_set d k v) k' = dict_get d k'.
Proof.
  induction d as [|[k0 v0] d IH]; intros k k' v Hne; simpl.
  - rewrite (str_eqb_neq _ _ Hne). reflexivity.
  - destruct (str_eqb k k0) eqn:E; simpl.
    + apply str_eqb_eq in E; subst.
      rewrite (str_eqb_neq _ _ Hne). reflexivity.
    + destruct (str_eqb k' k0); [reflexivity|]. apply IH; assumption.
Qed.

Lemma dict_get_update_other : forall kvs d k,
  ~ In k (map fst kvs) -> dict_get (dict_update d kvs) k = dict_get d k.
Proof.
  induction kvs as [|[k1 v1] kvs IH]; intros d k Hk; [reflexivity|].
  simpl in Hk. unfold dict_update in *; simpl.
  rewrite IH by tauto.
  apply dict_get_set_other. intro; subst; tauto.
Qed.

Lemma dict_get_update_in : forall kvs d k v,
  NoDup (map fst kvs) -> In (k, v) kvs -> dict_get (dict_update d kvs) k = Some v.
Proof.
  induction kvs as [|[k1 v1] kvs IH]; intros d k v Hnd Hin; [contradiction|].
  simpl in Hnd, Hin.
  inversion Hnd as [|? ? Hnotin Hnd']; subst.
  destruct Hin as [Heq | Hin].
  - injection Heq as -> ->.
    pose proof (dict_get_update_other kvs (dict_set d k v) k Hnotin) as H.
    unfold dict_update in *; simpl. rewrite H. apply dict_get_set_same.
  - unfold dict_update in *; simpl. apply IH; assumption.
Qed.

End DictFacts.

Lemma flat_map_flat_map {A B C} (f : B -> list C) (g : A -> list B) (l : list A) :
  flat_map f (flat_map g l) = flat_map (fun x => flat_map f (g x)) l.
Proof.
  induction l as [|x l IH]; simpl; [reflexivity|].
  rewrite flat_map_app, IH. reflexivity.
Qed.

Lemma flat_map_map' {A B C} (f : B -> list C) (g : A -> B) (l : list A) :
  flat_map f (map g l) = flat_map (fun x => f (g x)) l.
Proof.
  induction l as [|x l IH]; simpl; [reflexivity|]. rewrite IH. reflexivity.
Qed.

(** ** Requirement rows *)

Ltac nodup_literal :=
  repeat constructor; cbv; intuition discriminate.

Lemma course_columns_nodup : NoDup (map fst course_columns).
Proof. nodup_literal. Qed.

Lemma metadata_not_course_column : forall k,
  In k metadata_columns -> ~ In k (map fst course_columns).
Proof.
  intros k Hk Hc. cbv in Hk, Hc.
  intuition (subst; discriminate).
Qed.

Lemma course_row_column : forall base course k jk,
  In (k, jk) course_columns -> dict_get (course_row base course) k = Some (get course jk).
Proof.
  intros base course k jk Hin. unfold course_row.
  apply dict_get_update_in.
  - rewrite map_map. exact course_columns_nodup.
  - apply (in_map (fun col => (fst col, get course (snd col))) _ _ Hin).
Qed.

Lemma course_row_metadata : forall base course k,
  In k metadata_columns -> dict_get (course_row base course) k = dict_get base k.
Proof.
  intros base course k Hk. unfold course_row.
  apply dict_get_update_other. rewrite map_map. simpl.
  apply metadata_not_course_column. exact Hk.
Qed.

Lemma empty_course_row_column : forall base k jk,
  In (k, jk) course_columns -> dict_get (empty_course_row base) k = Some PNone.
Proof.
  intros base k jk Hin. unfold empty_course_row.
  apply dict_get_update_in.
  - rewrite map_map. exact course_columns_nodup.
  - apply (in_map (fun col => (fst col, PNone)) _ _ Hin).
Qed.

Lemma empty_course_row_metadata : forall base k,
  In k metadata_columns -> dict_get (empty_course_row base) k = dict_get base k.
Proof.
  intros base k Hk. unfold empty_course_row.
  apply dict_get_update_other. rewrite map_map. simpl.
  apply metadata_not_course_column. exact Hk.
Qed.

Lemma base_row_data_metadata : forall g r l k,
  In k metadata_columns -> dict_get (base_row_data (shared_data g r) l) k <> None.
Proof.
  intros g r l k Hk. cbv in Hk.
  intuition (subst; cbv; discriminate).
Qed.

Lemma process_requirement_line_length : forall sh l,
  List.length (process_requirement_line sh l) = Nat.max 1 (n_courses l).
Proof.
  intros sh l. unfold process_requirement_line, n_courses.
  destruct (coursesUsedToSatisfy l) as [[|c cs]|]; simpl; try reflexivity.
  rewrite length_map. reflexivity.
Qed.

Lemma convert_requirements_to_csv_lines : forall json_data,
  convert_requirements_to_csv json_data =
  flat_map (fun '(g, r, l) => process_requirement_line (shared_data g r) l)
    (document_lines json_data).
Proof.
  intro json_data. unfold convert_requirements_to_csv, document_lines.
  rewrite flat_map_flat_map. apply flat_map_ext; intro top.
  rewrite flat_map_flat_map. apply flat_map_ext; intro g.
  rewrite flat_map_flat_map. apply flat_map_ext; intro r.
  rewrite flat_map_map'. reflexivity.
Qed.

(** C1: in detail mode a line with [n >= 1] satisfying courses gives [n]
    rows, the [i]-th carrying the [i]-th course's ten fields and the line's
    metadata; a line with no course gives one row whose ten course fields
    are [None]; the document has [sum (max 1 n)] rows over its lines. *)
Theorem detail_mode_rows : forall json_data,
  convert_requirements_to_csv json_data =
    flat_map (fun '(g, r, l) => process_requirement_line (shared_data g r) l)
      (document_lines json_data)
  /\ List.length (convert_requirements_to_csv json_data) =
     list_sum (map (fun '(_, _, l) => Nat.max 1 (n_courses l)) (document_lines json_data))
  /\ forall g r l, In (g, r, l) (document_lines json_data) ->
     let base := base_row_data (shared_data g r) l in
     let rows := process_requirement_line (shared_data g r) l in
     (forall k, In k metadata_columns -> dict_get base k <> None)
     /\ (n_courses l = 0 ->
          exists row, rows = [row]
            /\ (forall k, In k metadata_columns -> dict_get row k = dict_get base k)
            /\ (forall k jk, In (k, jk) course_columns -> dict_get row k = Some PNone))
     /\ (forall cs, coursesUsedToSatisfy l = Some cs -> cs <> [] ->
          List.length rows = List.length cs
          /\ forall i course, nth_error cs i = Some course ->
             exists row, nth_error rows i = Some row
               /\ (forall k, In k metadata_columns -> dict_get row k = dict_get base k)
               /\ (forall k jk, In (k, jk) course_columns ->
                     dict_get row k = Some (get course jk))).
Proof.
  intro json_data.
  pose proof (convert_requirements_to_csv_lines json_data) as Hlines.
  split; [exact Hlines|]. split.
  - rewrite Hlines, length_flat_map. f_equal. apply map_ext.
    intros [[g r] l]. apply process_requirement_line_length.
  - intros g r l _ base rows. split; [|split].
    + intros k Hk. apply base_row_data_metadata. exact Hk.
    + intro H0. unfold rows, process_requirement_line, n_courses in *.
      destruct (coursesUsedToSatisfy l) as [[|c cs]|]; simpl in H0;
        try discriminate;
        (exists (empty_course_row base); split; [reflexivity|split];
         [intros k Hk; apply empty_course_row_metadata; exact Hk
         |intros k jk Hk; apply (empty_course_row_column _ _ jk); exact Hk]).
    + intros cs Hcs Hne. unfold rows, process_requirement_line.
      rewrite Hcs. destruct cs as [|c cs']; [contradiction|].
      split; [apply length_map|].
      intros i course Hi. exists (course_row base course). split.
      * rewrite nth_error_map, Hi. reflexivity.
      * split; intros k; [apply course_row_metadata|apply course_row_column].
Qed.

(** Witness of C1: the sample document has one line without courses; it
    gives one row, whose course columns are [None]. *)
Lemma detail_mode_rows_witness :
  List.length (convert_requirements_to_csv sample_document) = 1
  /\ exists row, convert_requirements_to_csv sample_document = [row]
     /\ dict_get row (py "term_taken") = Some PNone.
Proof.
  destruct (detail_mode_rows sample_document) as (H1 & H2 & H3).
  assert (Hl : document_lines sample_document
               = [(sample_group, sample_requirement, sample_line)]) by reflexivity.
  split; [rewrite H2, Hl; reflexivity|].
  assert (Hin : In (sample_group, sample_requirement, sample_line)
                  (document_lines sample_document)) by (rewrite Hl; left; reflexivity).
  pose proof (H3 _ _ _ Hin) as H. cbv zeta in H.
  destruct H as (_ & H0 & _).
  destruct (H0 eq_refl) as (row & Hrows & _ & Hc).
  exists row. split.
  - rewrite H1, Hl. cbn [flat_map]. rewrite Hrows. reflexivity.
  - apply (Hc (py "term_taken") (py "termTaken")). simpl. tauto.
Defined.

(** ** The main-requirement flag *)

Lemma map_flat_map' {A B C} (f : B -> C) (g : A -> list B) (l : list A) :
  map f (flat_map g l) = flat_map (fun x => map f (g x)) l.
Proof.
  induction l as [|x l IH]; simpl; [reflexivity|].
  rewrite map_app, IH. reflexivity.
Qed.

Lemma extract_requirement_structure_lines : forall json_data,
  extract_requirement_structure json_data =
  map (fun '(g, r, l) => structure_row g r l) (document_lines json_data).
Proof.
  intro json_data. unfold extract_requirement_structure, document_lines.
  rewrite map_flat_map'. apply flat_map_ext; intro top.
  rewrite map_flat_map'. apply flat_map_ext; intro g.
  rewrite map_flat_map'. apply flat_map_ext; intro r.
  rewrite map_map. reflexivity.
Qed.

Lemma is_main_requirement_truthy : forall g,
  is_main_requirement g = PBool true <-> plan_nonempty g.
Proof.
  intro g. unfold is_main_requirement, plan_nonempty, get, get_or.
  destruct (dict_get (group_obj g) (py "plan")) as [v|]; simpl.
  - destruct v as [|b|z|s|xs|d]; simpl.
    + split; [discriminate|contradiction].
    + split; [injection 1; auto|intros ->; reflexivity].
    + destruct (Z.eqb_spec z 0) as [Hz|Hz]; simpl.
      * split; [discriminate|intro H; contradiction].
      * split; [intros _; exact Hz|reflexivity].
    + destruct s; simpl.
      * split; [discriminate|intro H; contradiction].
      * split; [intros _; discriminate|reflexivity].
    + destruct xs; simpl.
      * split; [discriminate|intro H; contradiction].
      * split; [intros _; discriminate|reflexivity].
    + destruct d; simpl.
      * split; [discriminate|intro H; contradiction].
      * split; [intros _; discriminate|reflexivity].
  - split; [discriminate|contradiction].
Qed.

Lemma process_requirement_line_flag : forall g r l row,
  In row (process_requirement_line (shared_data g r) l) ->
  dict_get row (py "is_main_requirement") = Some (is_main_requirement g).
Proof.
  intros g r l row Hin. unfold process_requirement_line in Hin.
  assert (Hm : In (py "is_main_requirement") metadata_columns)
    by (simpl; tauto).
  assert (Hb : dict_get (base_row_data (shared_data g r) l) (py "is_main_requirement")
               = Some (is_main_requirement g)) by reflexivity.
  destruct (coursesUsedToSatisfy l) as [[|c cs]|].
  - destruct Hin as [<-|[]]. rewrite empty_course_row_metadata by exact Hm. exact Hb.
  - apply in_map_iff in Hin as [course [<- _]].
    rewrite course_row_metadata by exact Hm. exact Hb.
  - destruct Hin as [<-|[]]. rewrite empty_course_row_metadata by exact Hm. exact Hb.
Qed.

(** C9: in both output modes, every row carries [is_main_requirement =
    True] exactly when its requirement group has a non-empty [plan] field,
    and [False] when the field is absent or empty. *)
Theorem main_requirement_flag : forall json_data row,
  In row (convert_requirements_to_csv json_data)
  \/ In row (extract_requirement_structure json_data) ->
  exists g r l b,
    In (g, r, l) (document_lines json_data)
    /\ (In row (process_requirement_line (shared_data g r) l)
        \/ row = structure_row g r l)
    /\ dict_get row (py "is_main_requirement") = Some (PBool b)
    /\ (b = true <-> plan_nonempty g).
Proof.
  intros json_data row Hrow.
  rewrite convert_requirements_to_csv_lines, extract_requirement_structure_lines
    in Hrow.
  destruct Hrow as [Hrow|Hrow].
  - apply in_flat_map in Hrow as [[[g r] l] [Hgrl Hrow]].
    exists g, r, l, (py_truthy (get (group_obj g) (py "plan"))).
    split; [exact Hgrl|]. split; [left; exact Hrow|]. split.
    + apply (process_requirement_line_flag g r l row Hrow).
    + rewrite <- is_main_requirement_truthy. unfold is_main_requirement.
      split; [intros ->; reflexivity|injection 1; auto].
  - apply in_map_iff in Hrow as [[[g r] l] [<- Hgrl]].
    exists g, r, l, (py_truthy (get (group_obj g) (py "plan"))).
    split; [exact Hgrl|]. split; [right; reflexivity|]. split.
    + reflexivity.
    + rewrite <- is_main_requirement_truthy. unfold is_main_requirement.
      split; [intros ->; reflexivity|injection 1; auto].
Qed.

(** Witness of C9: the row of the sample document, whose group has a plan. *)
Lemma main_requirement_flag_witness :
  (In sample_row (convert_requirements_to_csv sample_document)
   \/ In sample_row (extract_requirement_structure sample_document))
  /\ exists g r l b,
    In (g, r, l) (document_lines sample_document)
    /\ (In sample_row (process_requirement_line (shared_data g r) l)
        \/ sample_row = structure_row g r l)
    /\ dict_get sample_row (py "is_main_requirement") = Some (PBool b)
    /\ (b = true <-> plan_nonempty g).
Proof.
  assert (H : In sample_row (convert_requirements_to_csv sample_document)
              \/ In sample_row (extract_requirement_structure sample_document)).
  { left. vm_compute. left. reflexivity. }
  split; [exact H|].
  apply (main_requirement_flag sample_document sample_row H).
Defined.

(** ** The regular-expression matcher *)

Lemma first_some_some {A B} (f : A -> option B) l y :
  first_some f l = Some y -> exists x, In x l /\ f x = Some y.
Proof.
  induction l as [|x l IH]; simpl; [discriminate|].
  destruct (f x) eqn:E.
  - injection 1 as <-. exists x. auto.
  - intro H. destruct (IH H) as [x' [Hin Hx]]. exists x'. auto.
Qed.

Lemma first_some_in {A B} (f : A -> option B) l x :
  In x l -> f x <> None -> first_some f l <> None.
Proof.
  induction l as [|x' l IH]; simpl; [contradiction|].
  intros [<-|Hin] Hx; destruct (f x') eqn:E; try discriminate; auto.
Qed.

Lemma run_length_firstn cls s n :
  n <= run_length cls s -> forallb cls (firstn n s) = true.
Proof.
  revert n; induction s as [|c s IH]; intros n Hn; simpl in *.
  - rewrite firstn_nil. reflexivity.
  - destruct n as [|n]; [reflexivity|]. simpl.
    destruct (cls c); [|lia]. simpl. apply IH. lia.
Qed.

Lemma run_length_le cls s : run_length cls s <= List.length s.
Proof. induction s as [|c s IH]; simpl; [lia|]. destruct (cls c); simpl; lia. Qed.

Lemma run_length_app cls w s :
  forallb cls w = true -> List.length w <= run_length cls (w ++ s).
Proof.
  induction w as [|c w IH]; simpl; [lia|].
  intro H. apply andb_true_iff in H as [H1 H2]. rewrite H1. specialize (IH H2). lia.
Qed.

Lemma in_counts cls lo hi s n :
  In n (counts cls lo hi s) <->
  lo <= n /\ n <= run_length cls s
  /\ match hi with Some h => n <= h | None => True end.
Proof.
  unfold counts. rewrite in_seq.
  destruct hi as [h|].
  - pose proof (Nat.le_min_l h (run_length cls s)) as Hl.
    pose proof (Nat.le_min_r h (run_length cls s)) as Hr.
    split; intro Hn; [lia|].
    destruct Hn as [H1 [H2 H3]]. pose proof (Nat.min_glb _ _ _ H3 H2). lia.
  - split; intro Hn; lia.
Qed.

Lemma rep_ok_counts cls lo hi s n :
  In n (counts cls lo hi s) -> rep_ok cls lo hi (firstn n s).
Proof.
  intro Hin. apply in_counts in Hin as [H1 [H2 H3]].
  pose proof (run_length_le cls s).
  unfold rep_ok. rewrite length_firstn.
  split; [lia|split; [destruct hi; lia|apply run_length_firstn; lia]].
Qed.

Lemma counts_rep_ok cls lo hi w s :
  rep_ok cls lo hi w -> In (List.length w) (counts cls lo hi (w ++ s)).
Proof.
  intros [H1 [H2 H3]]. apply in_counts.
  pose proof (run_length_app cls w s H3). auto.
Qed.

Lemma rx_match_sound : forall ps s gs rest,
  rx_match ps s = Some (gs, rest) -> rx_rel ps s gs rest.
Proof.
  induction ps as [|p ps IH]; intros s gs rest H; simpl in H.
  - injection H as <- <-. constructor.
  - destruct p as [c| |cap cls lo hi|cap cls lo hi].
    + destruct s as [|c' s]; [discriminate|].
      destruct (Ascii.eqb_spec c c'); [subst|discriminate].
      constructor. apply IH. exact H.
    + destruct (at_end s) eqn:E; [|discriminate]. constructor; auto.
    + apply first_some_some in H as [n [Hin Hn]].
      rewrite <- in_rev in Hin.
      destruct (rx_match ps (skipn n s)) as [[gs' rest']|] eqn:Hm; [|discriminate].
      injection Hn as <- <-. rewrite <- (firstn_skipn n s) at 1.
      constructor; [apply rep_ok_counts; exact Hin|apply IH; exact Hm].
    + apply first_some_some in H as [n [Hin Hn]].
      destruct (rx_match ps (skipn n s)) as [[gs' rest']|] eqn:Hm; [|discriminate].
      injection Hn as <- <-. rewrite <- (firstn_skipn n s) at 1.
      constructor; [apply rep_ok_counts; exact Hin|apply IH; exact Hm].
Qed.

Lemma rx_match_complete : forall ps s gs rest,
  rx_rel ps s gs rest -> rx_match ps s <> None.
Proof.
  intros ps s gs rest Hrel.
  induction Hrel as [s|c ps s gs rest _ IH|ps s gs rest Hend _ IH
                 |cap cls lo hi ps w s gs rest Hok _ IH
                 |cap cls lo hi ps w s gs rest Hok _ IH]; simpl.
  - discriminate.
  - rewrite Ascii.eqb_refl. exact IH.
  - rewrite Hend. exact IH.
  - apply (first_some_in _ _ (List.length w)).
    + rewrite <- in_rev. apply counts_rep_ok. exact Hok.
    + rewrite skipn_app, skipn_all, Nat.sub_diag. simpl.
      destruct (rx_match ps s) as [[]|]; [discriminate|contradiction].
  - apply (first_some_in _ _ (List.length w)).
    + apply counts_rep_ok. exact Hok.
    + rewrite skipn_app, skipn_all, Nat.sub_diag. simpl.
      destruct (rx_match ps s) as [[]|]; [discriminate|contradiction].
Qed.

(** ** The class-section header *)

Lemma header_rx_rel : forall left_part gs rest,
  rx_rel header_rx left_part gs rest <->
  exists subj cat sec,
    left_part = subj ++ "-"%char :: cat ++ "-"%char :: sec ++ rest
    /\ gs = [subj; cat; sec]
    /\ 2 <= List.length subj <= 6 /\ forallb is_upper subj = true
    /\ 4 <= List.length cat <= 6 /\ forallb is_upper_or_digit cat = true
    /\ List.length sec = 2 /\ forallb is_digit sec = true.
Proof.
  intros left_part gs rest. split.
  - intro H. unfold header_rx in H.
    inversion H as [| | |? ? ? ? ? subj s1 gs1 ? [Hs1 [Hs2 Hs3]] H1| ]; subst.
    inversion H1 as [|? ? s2 ? ? H2| | |]; subst.
    inversion H2 as [| | |? ? ? ? ? cat s3 gs3 ? [Hc1 [Hc2 Hc3]] H3| ]; subst.
    inversion H3 as [|? ? s4 ? ? H4| | |]; subst.
    inversion H4 as [| | |? ? ? ? ? sec s5 gs5 ? [He1 [He2 He3]] H5| ]; subst.
    inversion H5; subst.
    exists subj, cat, sec. repeat split; auto; lia.
  - intros [subj [cat [sec [-> [-> [[Hs1 Hs2] [Hs3 [[Hc1 Hc2] [Hc3 [He1 He2]]]]]]]]]].
    unfold header_rx.
    apply (rx_greedy true is_upper 2 (Some 6) _ subj _ [cat; sec]).
    { repeat split; assumption. }
    apply rx_lit.
    apply (rx_greedy true is_upper_or_digit 4 (Some 6) _ cat _ [sec]).
    { repeat split; assumption. }
    apply rx_lit.
    rewrite <- (app_nil_r [sec]).
    apply (rx_greedy true is_digit 2 (Some 2) _ sec _ []).
    { repeat split; lia || assumption. }
    apply rx_nil.
Qed.

Lemma parse_class_header_some : forall header_text h,
  parse_class_header header_text = Some h ->
  exists rest,
    fst (split_header header_text)
      = subject h ++ "-"%char :: catalog_number h ++ "-"%char :: section_number h ++ rest
    /\ 2 <= List.length (subject h) <= 6 /\ forallb is_upper (subject h) = true
    /\ 4 <= List.length (catalog_number h) <= 6
    /\ forallb is_upper_or_digit (catalog_number h) = true
    /\ List.length (section_number h) = 2 /\ forallb is_digit (section_number h) = true
    /\ display_name h = subject h ++ "-"%char :: catalog_number h
    /\ long_title h = snd (split_header header_text).
Proof.
  intros header_text h H. unfold parse_class_header in H.
  destruct (split_header header_text) as [left_part title]. simpl.
  unfold re_match in H.
  destruct (rx_match header_rx left_part) as [[gs rest]|] eqn:E; [|discriminate].
  apply rx_match_sound, header_rx_rel in E
    as [subj [cat [sec [Hl [-> Hconds]]]]].
  simpl in H. injection H as <-. simpl.
  exists rest. split; [exact Hl|]. tauto.
Qed.

Lemma parse_class_header_none : forall header_text,
  parse_class_header header_text = None <->
  ~ header_shape_prefix (fst (split_header header_text)).
Proof.
  intro header_text. unfold parse_class_header, header_shape_prefix.
  destruct (split_header header_text) as [left_part title]. simpl.
  unfold re_match. split.
  - intros H [subj [cat [sec [rest [Hl Hconds]]]]].
    assert (Hrel : rx_rel header_rx left_part [subj; cat; sec] rest)
      by (apply header_rx_rel; exists subj, cat, sec; tauto).
    apply rx_match_complete in Hrel.
    destruct (rx_match header_rx left_part) as [[gs rest']|] eqn:E;
      [|contradiction].
    apply rx_match_sound, header_rx_rel in E
      as [subj' [cat' [sec' [_ [-> _]]]]].
    discriminate.
  - intro Hno. destruct (rx_match header_rx left_part) as [[gs rest]|] eqn:E;
      [|reflexivity].
    exfalso. apply Hno.
    apply rx_match_sound, header_rx_rel in E
      as [subj [cat [sec [Hl [_ Hconds]]]]].
    exists subj, cat, sec, rest. tauto.
Qed.

(** C2 (as amended): the header parser maps
    ["CS-1101-01 : Intro to Computing"] to the five expected fields, gives
    no result for ["Intro Seminar"], and in general gives no result exactly
    when the stripped part before the first colon does not START with the
    [SUBJ-CAT-SEC] shape; when it parses, the fields are that prefix's
    parts and whatever follows the two-digit section is ignored. *)
Theorem parse_class_header_prefix_shape :
  parse_class_header (py "CS-1101-01 : Intro to Computing")
    = Some (mkClassHeader (py "CS") (py "1101") (py "01") (py "CS-1101")
              (py "Intro to Computing"))
  /\ parse_class_header (py "Intro Seminar") = None
  /\ (forall header_text,
        parse_class_header header_text = None <->
        ~ header_shape_prefix (fst (split_header header_text)))
  /\ (forall header_text h,
        parse_class_header header_text = Some h ->
        exists rest,
          fst (split_header header_text)
            = subject h ++ "-"%char :: catalog_number h ++ "-"%char
                :: section_number h ++ rest
          /\ display_name h = subject h ++ "-"%char :: catalog_number h
          /\ long_title h = snd (split_header header_text)).
Proof.
  split; [vm_compute; reflexivity|].
  split; [vm_compute; reflexivity|].
  split; [exact parse_class_header_none|].
  intros header_text h H.
  destruct (parse_class_header_some header_text h H) as [rest Hrest].
  exists rest. tauto.
Qed.

(** Witness of C2: "MATH-2300-02 : Calculus" parses, its left part starting
    with the three fields. *)
Lemma parse_class_header_prefix_shape_witness :
  exists rest, fst (split_header (py "MATH-2300-02 : Calculus"))
    = py "MATH" ++ "-"%char :: py "2300" ++ "-"%char :: py "02" ++ rest.
Proof.
  assert (H : parse_class_header (py "MATH-2300-02 : Calculus")
              = Some (mkClassHeader (py "MATH") (py "2300") (py "02") (py "MATH-2300")
                        (py "Calculus"))) by (vm_compute; reflexivity).
  destruct (proj2 (proj2 (proj2 parse_class_header_prefix_shape)) _ _ H)
    as (rest & Hrest & _).
  exists rest. exact Hrest.
Defined.

(** C2, counterexample: ["CS-1101-01X : Intro"] has a part before the
    colon that is not exactly [SUBJ-CAT-SEC], yet it parses, with section
    ["01"]. *)
Lemma parse_class_header_trailing_text :
  parse_class_header (py "CS-1101-01X : Intro")
    = Some (mkClassHeader (py "CS") (py "1101") (py "01") (py "CS-1101") (py "Intro"))
  /\ fst (split_header (py "CS-1101-01X : Intro")) = py "CS-1101-01X"
  /\ ~ header_shape_exact (py "CS-1101-01X").
Proof.
  split; [vm_compute; reflexivity|].
  split; [vm_compute; reflexivity|].
  intros [subj [cat [sec [Heq [_ [_ [_ [_ [Hlen Hdig]]]]]]]]].
  assert (Hrev : rev (subj ++ "-"%char :: cat ++ "-"%char :: sec)
                 = rev sec ++ "-"%char :: rev cat ++ "-"%char :: rev subj).
  { rewrite !rev_app_distr. simpl. rewrite !rev_app_distr. simpl.
    rewrite <- !app_assoc. reflexivity. }
  apply (f_equal (fun l => firstn 2 (rev l))) in Heq.
  rewrite Hrev in Heq.
  change (firstn 2 (rev (py "CS-1101-01X"))) with ["X"%char; "1"%char] in Heq.
  replace 2 with (List.length (rev sec) + 0) in Heq by (rewrite length_rev; lia).
  rewrite firstn_app_2 in Heq.
  simpl in Heq. rewrite app_nil_r in Heq.
  apply (f_equal (@rev ascii)) in Heq. rewrite rev_involutive in Heq.
  rewrite <- Heq in Hdig. vm_compute in Hdig. discriminate.
Qed.

(** ** Substrings *)

Lemma is_prefix_app_iff : forall p s, is_prefix p s = true <-> exists t, s = p ++ t.
Proof.
  induction p as [|c p IH]; intros s; simpl.
  - split; [intros _; exists s; reflexivity|reflexivity].
  - destruct s as [|d s].
    + split; [discriminate|intros [t Ht]; discriminate].
    + rewrite andb_true_iff, Ascii.eqb_eq, IH. split.
      * intros [-> [t ->]]. exists t. reflexivity.
      * intros [t Ht]. injection Ht as -> ->. split; [reflexivity|exists t; reflexivity].
Qed.

Lemma is_prefix_app : forall p t, is_prefix p (p ++ t) = true.
Proof. intros p t. apply is_prefix_app_iff. exists t. reflexivity. Qed.

Lemma is_prefix_length : forall p s, is_prefix p s = true -> List.length p <= List.length s.
Proof.
  intros p s H. apply is_prefix_app_iff in H as [t ->]. rewrite length_app. lia.
Qed.

Lemma is_prefix_firstn : forall p s m,
  List.length p <= m -> is_prefix p (firstn m s) = is_prefix p s.
Proof.
  induction p as [|c p IH]; intros s m Hm; simpl; [reflexivity|].
  destruct m as [|m]; simpl in Hm; [lia|].
  destruct s as [|d s]; simpl; [reflexivity|].
  rewrite IH by lia. reflexivity.
Qed.

Lemma is_prefix_nth : forall p s d,
  is_prefix p s = true -> d < List.length p -> nth_error s d = nth_error p d.
Proof.
  intros p s d H Hd. apply is_prefix_app_iff in H as [t ->].
  apply nth_error_app1. exact Hd.
Qed.

Lemma find_sub_some : forall p s i,
  find_sub p s = Some i <->
  is_prefix p (skipn i s) = true
  /\ forall j, j < i -> is_prefix p (skipn j s) = false.
Proof.
  intros p s. induction s as [|c s IH]; intro i; simpl.
  - destruct (is_prefix p []) eqn:E.
    + split.
      * injection 1 as <-. split; [exact E|intros; lia].
      * intros [H Hb]. destruct i; [reflexivity|].
        specialize (Hb 0 ltac:(lia)). simpl in Hb. congruence.
    + split; [discriminate|].
      intros [H _]. rewrite skipn_nil in H. congruence.
  - destruct (is_prefix p (c :: s)) eqn:E.
    + split.
      * injection 1 as <-. split; [exact E|intros; lia].
      * intros [H Hb]. destruct i; [reflexivity|].
        specialize (Hb 0 ltac:(lia)). simpl in Hb. congruence.
    + split.
      * intro H.
        assert (Hex : exists i', find_sub p s = Some i' /\ i = S i').
        { destruct (find_sub p s); simpl in H; [|discriminate].
          injection H as <-. eauto. }
        destruct Hex as [i' [Ei ->]]. apply IH in Ei as [H1 H2].
        split; [exact H1|].
        intros [|j] Hj; [exact E|apply H2; lia].
      * intros [H Hb]. destruct i as [|i]; [simpl in H; congruence|].
        assert (Hs : find_sub p s = Some i).
        { apply IH. split; [exact H|].
          intros j Hj. apply (Hb (S j)). lia. }
        rewrite Hs. reflexivity.
Qed.

Lemma find_sub_none : forall p s,
  find_sub p s = None <-> forall j, is_prefix p (skipn j s) = false.
Proof.
  intros p s. induction s as [|c s IH]; simpl.
  - destruct (is_prefix p []) eqn:E; split; intro H; try discriminate.
    + specialize (H 0). simpl in H. congruence.
    + intro j. rewrite skipn_nil. exact E.
    + reflexivity.
  - destruct (is_prefix p (c :: s)) eqn:E.
    + split; [discriminate|]. intro H. specialize (H 0). simpl in H. congruence.
    + split.
      * intros H [|j]; [exact E|]. simpl. apply IH.
        destruct (find_sub p s); [discriminate|reflexivity].
      * intro H.
        assert (Hn : find_sub p s = None) by (apply IH; intro j; apply (H (S j))).
        rewrite Hn. reflexivity.
Qed.

Lemma find_sub_bound : forall p s i,
  find_sub p s = Some i -> i + List.length p <= List.length s.
Proof.
  intros p s i H. apply find_sub_some in H as [H Hb].
  destruct p as [|c p].
  - destruct i; [simpl; lia|]. specialize (Hb 0 ltac:(lia)). discriminate.
  - apply is_prefix_length in H. rewrite length_skipn in H. simpl in *. lia.
Qed.

Lemma is_prefix_skipn_nth : forall p s j d,
  is_prefix p (skipn j s) = true -> d < List.length p ->
  nth_error s (j + d) = nth_error p d.
Proof.
  intros p s j d H Hd. rewrite <- nth_error_skipn. apply is_prefix_nth; assumption.
Qed.

(** An occurrence of [k] cannot run across the start of an occurrence of
    [k'] when the first character of [k'] is not in the tail of [k]. *)
Lemma no_straddle : forall k k' c r s n j,
  k' = c :: r -> is_prefix k' (skipn n s) = true -> ~ In c (tl k) ->
  j < n -> n < j + List.length k -> is_prefix k (skipn j s) = false.
Proof.
  intros k k' c r s n j -> Hk' Hc Hj Hn.
  destruct (is_prefix k (skipn j s)) eqn:Hk; [exfalso|reflexivity].
  pose proof (is_prefix_skipn_nth _ _ _ (n - j) Hk ltac:(lia)) as H1.
  pose proof (is_prefix_skipn_nth _ _ _ 0 Hk' ltac:(simpl; lia)) as H2.
  replace (j + (n - j)) with n in H1 by lia. rewrite Nat.add_0_r in H2.
  simpl in H2. rewrite H2 in H1.
  destruct k as [|k0 kt]; simpl in Hn; [lia|].
  destruct (n - j) as [|d] eqn:Ed; [lia|]. simpl in H1.
  apply Hc. simpl. apply (nth_error_In kt d). symmetry. exact H1.
Qed.

Lemma is_prefix_skipn_firstn : forall k s j n,
  j + List.length k <= n ->
  is_prefix k (skipn j (firstn n s)) = is_prefix k (skipn j s).
Proof.
  intros k s j n H. rewrite skipn_firstn_comm. apply is_prefix_firstn. lia.
Qed.

Lemma is_prefix_skipn_firstn_short : forall k s j n,
  k <> [] -> n < j + List.length k -> is_prefix k (skipn j (firstn n s)) = false.
Proof.
  intros k s j n Hk H.
  destruct (is_prefix k (skipn j (firstn n s))) eqn:E; [exfalso|reflexivity].
  apply is_prefix_length in E. rewrite length_skipn, length_firstn in E.
  destruct k; [contradiction|]. simpl in *. lia.
Qed.

Lemma index_or_end_firstn : forall k s n,
  k <> [] -> n <= List.length s -> cut_point k s n ->
  index_or_end k (firstn n s) = Nat.min n (index_or_end k s).
Proof.
  intros k s n Hk Hn Hcut. unfold index_or_end.
  assert (Hlenk : 1 <= List.length k) by (destruct k; [contradiction|simpl; lia]).
  destruct (find_sub k s) as [i|] eqn:E.
  - pose proof (find_sub_bound _ _ _ E) as Hbound.
    apply find_sub_some in E as [Hi Hbefore].
    destruct (le_lt_dec (i + List.length k) n) as [Hle|Hlt].
    + assert (E' : find_sub k (firstn n s) = Some i).
      { apply find_sub_some. split.
        - rewrite is_prefix_skipn_firstn by lia. exact Hi.
        - intros j Hj. rewrite is_prefix_skipn_firstn by lia. apply Hbefore. exact Hj. }
      rewrite E'. lia.
    + assert (Hin : n <= i).
      { destruct (le_lt_dec n i) as [H|H]; [exact H|exfalso].
        destruct Hcut as [Hcut|[c [r [Hcr Hc]]]]; [lia|].
        rewrite (no_straddle k (c :: r) c r s n i eq_refl Hcr Hc H Hlt) in Hi.
        discriminate. }
      assert (E' : find_sub k (firstn n s) = None).
      { apply find_sub_none. intro j.
        destruct (le_lt_dec (j + List.length k) n) as [Hj|Hj].
        - rewrite is_prefix_skipn_firstn by lia. apply Hbefore. lia.
        - apply is_prefix_skipn_firstn_short; assumption. }
      rewrite E', length_firstn. lia.
  - rewrite find_sub_none in E.
    assert (E' : find_sub k (firstn n s) = None).
    { apply find_sub_none. intro j.
      destruct (le_lt_dec (j + List.length k) n) as [Hj|Hj].
      - rewrite is_prefix_skipn_firstn by lia. apply E.
      - apply is_prefix_skipn_firstn_short; assumption. }
    rewrite E', length_firstn. lia.
Qed.

(** ** Requirement text *)

Lemma not_in_existsb : forall (c : ascii) l, existsb (Ascii.eqb c) l = false -> ~ In c l.
Proof.
  intros c l H Hin. assert (existsb (Ascii.eqb c) l = true) by
    (apply existsb_exists; exists c; split; [exact Hin|apply Ascii.eqb_refl]).
  congruence.
Qed.

Lemma keywords_no_overlap : forall k k',
  In k requirement_keywords -> In k' requirement_keywords ->
  exists c r, k' = c :: r /\ ~ In c (tl k).
Proof.
  intros k k' Hk Hk'.
  destruct Hk' as [<-|[<-|[<-|[]]]]; (eexists; eexists; split; [reflexivity|]);
    apply not_in_existsb;
    destruct Hk as [<-|[<-|[<-|[]]]]; vm_compute; reflexivity.
Qed.

Lemma keywords_nonempty : forall k, In k requirement_keywords -> k <> [].
Proof. intros k [<-|[<-|[<-|[]]]]; discriminate. Qed.

Lemma fold_truncate : forall ks s n,
  incl ks requirement_keywords -> n <= List.length s ->
  (n = List.length s
   \/ exists k', In k' requirement_keywords /\ is_prefix k' (skipn n s) = true) ->
  fold_left (fun part k => firstn (index_or_end k part) part) ks (firstn n s)
  = firstn (fold_left (fun m k => Nat.min m (index_or_end k s)) ks n) s.
Proof.
  induction ks as [|k ks IH]; intros s n Hincl Hn Hanchor; simpl; [reflexivity|].
  assert (Hk : In k requirement_keywords) by (apply Hincl; left; reflexivity).
  rewrite index_or_end_firstn.
  - rewrite firstn_firstn.
    replace (Nat.min (Nat.min n (index_or_end k s)) n)
      with (Nat.min n (index_or_end k s)) by lia.
    apply IH.
    + intros x Hx. apply Hincl. right. exact Hx.
    + lia.
    + destruct (Nat.min_spec n (index_or_end k s)) as [[_ ->]|[_ ->]].
      * exact Hanchor.
      * unfold index_or_end. destruct (find_sub k s) as [i|] eqn:E; [|left; reflexivity].
        right. exists k. split; [exact Hk|]. apply find_sub_some in E. apply E.
  - apply keywords_nonempty. exact Hk.
  - exact Hn.
  - destruct Hanchor as [Hanchor|[k' [Hk' Hpre]]]; [left; exact Hanchor|right].
    destruct (keywords_no_overlap k k' Hk Hk') as [c [r [-> Hc]]].
    exists c, r. split; assumption.
Qed.

Lemma fold_keyword_loop : forall keyword ks part,
  fold_left (fun part other_keyword =>
    if negb (str_eqb other_keyword keyword) && py_in other_keyword part
    then split_before other_keyword part
    else part) ks part
  = fold_left (fun part k => firstn (index_or_end k part) part)
      (filter (fun k => negb (str_eqb k keyword)) ks) part.
Proof.
  intro keyword. induction ks as [|k ks IH]; intro part; simpl; [reflexivity|].
  destruct (negb (str_eqb k keyword)); simpl; [|apply IH].
  rewrite IH. f_equal.
  unfold py_in, split_before, index_or_end.
  destruct (find_sub k part); [reflexivity|]. symmetry. apply firstn_all.
Qed.

Lemma fold_right_min_shift : forall l n x,
  fold_right Nat.min (Nat.min n x) l = Nat.min x (fold_right Nat.min n l).
Proof. induction l as [|y l IH]; intros n x; simpl; [lia|]. rewrite IH. lia. Qed.

Lemma fold_left_min : forall {A} (f : A -> nat) ks n,
  fold_left (fun m k => Nat.min m (f k)) ks n = fold_right Nat.min n (map f ks).
Proof.
  intros A f. induction ks as [|k ks IH]; intro n; simpl; [reflexivity|].
  rewrite IH. apply fold_right_min_shift.
Qed.

Lemma extract_requirement_text_spec : forall text keyword,
  In keyword requirement_keywords ->
  extract_requirement_text text keyword = requirement_segment_spec text keyword.
Proof.
  intros text keyword Hkw.
  unfold extract_requirement_text, requirement_segment_spec.
  rewrite fold_keyword_loop. unfold py_in at 1. unfold split_after.
  destruct (find_sub keyword text) as [i|] eqn:E; cbn [negb]; [|reflexivity].
  set (after := skipn (i + List.length keyword) text).
  f_equal. f_equal.
  rewrite <- (firstn_all after) at 1.
  rewrite fold_truncate.
  - unfold earliest_other_index, other_keywords. rewrite fold_left_min.
    reflexivity.
  - intros x Hx. apply filter_In in Hx. apply Hx.
  - lia.
  - left. reflexivity.
Qed.

Lemma is_prefix_app_long : forall p u v,
  List.length p <= List.length u -> is_prefix p (u ++ v) = is_prefix p u.
Proof.
  induction p as [|c p IH]; intros u v H; simpl; [reflexivity|].
  destruct u as [|d u]; simpl in H; [lia|]. simpl. rewrite IH by lia. reflexivity.
Qed.

(** No occurrence of [k] starts inside [u] when [k]'s first character is
    not in [u]. *)
Lemma no_occurrence_head : forall k c r u v j,
  k = c :: r -> ~ In c u -> j < List.length u -> is_prefix k (skipn j (u ++ v)) = false.
Proof.
  intros k c r u v j -> Hc Hj.
  destruct (is_prefix (c :: r) (skipn j (u ++ v))) eqn:E; [exfalso|reflexivity].
  pose proof (is_prefix_skipn_nth _ _ _ 0 E ltac:(simpl; lia)) as H.
  rewrite Nat.add_0_r, nth_error_app1 in H by exact Hj. simpl in H.
  apply Hc. apply (nth_error_In u j). exact H.
Qed.

(** No occurrence of [k] starts inside [u] when [k] is not in [u] and
    [v] starts with a character absent from the tail of [k]. *)
Lemma no_occurrence_before_anchor : forall k c u v' j,
  find_sub k u = None -> k <> [] -> ~ In c (tl k) -> j < List.length u ->
  is_prefix k (skipn j (u ++ c :: v')) = false.
Proof.
  intros k c u v' j Hu Hk Hc Hj.
  destruct (le_lt_dec (j + List.length k) (List.length u)) as [Hle|Hlt].
  - rewrite skipn_app. replace (j - List.length u) with 0 by lia. simpl.
    rewrite is_prefix_app_long by (rewrite length_skipn; lia).
    apply find_sub_none. exact Hu.
  - apply (no_straddle k [c] c [] (u ++ c :: v') (List.length u) j eq_refl);
      try assumption.
    rewrite skipn_app, skipn_all, Nat.sub_diag. simpl.
    rewrite Ascii.eqb_refl. reflexivity.
Qed.

Lemma keywords_head_not_in : forall k k',
  In k requirement_keywords -> In k' requirement_keywords -> k <> k' ->
  exists c r, k = c :: r /\ ~ In c k'.
Proof.
  intros k k' Hk Hk' Hne.
  destruct Hk as [<-|[<-|[<-|[]]]]; (eexists; eexists; split; [reflexivity|]);
    apply not_in_existsb;
    destruct Hk' as [<-|[<-|[<-|[]]]];
    solve [vm_compute; reflexivity | contradiction Hne; reflexivity].
Qed.

Lemma fold_right_min_attained : forall (f : str -> nat) l n m,
  m <= n -> (forall x, In x l -> m <= f x) -> (exists x, In x l /\ f x = m) ->
  fold_right Nat.min n (map f l) = m.
Proof.
  intros f l n m Hn Hall [x [Hx Hfx]].
  induction l as [|y l IH]; simpl; [contradiction|].
  destruct Hx as [->|Hx].
  - assert (m <= fold_right Nat.min n (map f l)).
    { clear IH. induction l as [|z l IHl]; simpl; [lia|].
      pose proof (Hall z ltac:(simpl; tauto)).
      assert (m <= fold_right Nat.min n (map f l))
        by (apply IHl; intros w Hw; apply Hall; simpl in *; tauto).
      lia. }
    lia.
  - rewrite IH by (auto || (intros w Hw; apply Hall; right; exact Hw)).
    pose proof (Hall y ltac:(left; reflexivity)). lia.
Qed.

Lemma fold_right_min_const : forall (f : str -> nat) l n,
  (forall x, In x l -> f x = n) -> fold_right Nat.min n (map f l) = n.
Proof.
  intros f l n H. induction l as [|y l IH]; simpl; [reflexivity|].
  rewrite IH by (intros x Hx; apply H; right; exact Hx).
  rewrite (H y) by (left; reflexivity). lia.
Qed.

Lemma find_sub_at_start : forall k t, find_sub k (k ++ t) = Some 0.
Proof.
  intros k t. apply find_sub_some. split; [apply is_prefix_app|intros; lia].
Qed.

Lemma segment_of_keyword_free : forall keyword a,
  keyword_free a ->
  firstn (earliest_other_index keyword a) a = a.
Proof.
  intros keyword a Ha. unfold earliest_other_index.
  rewrite fold_right_min_const; [apply firstn_all|].
  intros k Hk. apply filter_In in Hk as [Hk _].
  unfold index_or_end. rewrite (Ha k Hk). reflexivity.
Qed.

(** The segment right after [k], when [k] opens the text. *)
Lemma leading_segment : forall k k' a b,
  In k requirement_keywords -> In k' requirement_keywords -> k <> k' ->
  keyword_free a ->
  extract_requirement_text (k ++ a ++ k' ++ b) k = Some (clean_segment a).
Proof.
  intros k k' a b Hk Hk' Hne Ha.
  rewrite extract_requirement_text_spec by exact Hk.
  unfold requirement_segment_spec. rewrite find_sub_at_start.
  simpl. rewrite skipn_app, skipn_all, Nat.sub_diag. simpl.
  destruct (keywords_no_overlap k' k' Hk' Hk') as [c [r [Hcr _]]].
  assert (Hidx : earliest_other_index k (a ++ k' ++ b) = List.length a).
  { unfold earliest_other_index.
    apply fold_right_min_attained.
    - rewrite !length_app. lia.
    - intros x Hx. apply filter_In in Hx as [Hx _].
      unfold index_or_end. destruct (find_sub x (a ++ k' ++ b)) as [i|] eqn:E.
      + destruct (le_lt_dec (List.length a) i) as [H|H]; [exact H|exfalso].
        apply find_sub_some in E as [E _].
        destruct (keywords_no_overlap x k' Hx Hk') as [c' [r' [Hcr' Hc']]].
        rewrite Hcr' in E. change ((c' :: r') ++ b) with (c' :: r' ++ b) in E.
        rewrite (no_occurrence_before_anchor x c' a (r' ++ b) i (Ha x Hx)
                   (keywords_nonempty x Hx) Hc' H) in E.
        discriminate.
      + rewrite length_app. lia.
    - exists k'. split.
      + apply filter_In. split; [exact Hk'|].
        apply negb_true_iff, str_eqb_neq. congruence.
      + unfold index_or_end.
        assert (E : find_sub k' (a ++ k' ++ b) = Some (List.length a)).
        { apply find_sub_some. split.
          - rewrite skipn_app, skipn_all, Nat.sub_diag. simpl. apply is_prefix_app.
          - intros j Hj. destruct (keywords_no_overlap k' k' Hk' Hk')
              as [c' [r' [Hcr' Hc']]].
            rewrite Hcr' at 2. change ((c' :: r') ++ b) with (c' :: r' ++ b).
            apply no_occurrence_before_anchor; try assumption.
            + apply Ha. exact Hk'.
            + apply keywords_nonempty. exact Hk'. }
        rewrite E. reflexivity. }
  rewrite Hidx.
  replace (List.length a) with (List.length a + 0) by lia.
  rewrite firstn_app_2. simpl. rewrite app_nil_r. reflexivity.
Qed.

(** The segment after [k], when [k] comes second. *)
Lemma trailing_segment : forall k k' a b,
  In k requirement_keywords -> In k' requirement_keywords -> k <> k' ->
  keyword_free a -> keyword_free b ->
  extract_requirement_text (k' ++ b ++ k ++ a) k = Some (clean_segment a).
Proof.
  intros k k' a b Hk Hk' Hne Ha Hb.
  rewrite extract_requirement_text_spec by exact Hk.
  unfold requirement_segment_spec.
  assert (E : find_sub k (k' ++ b ++ k ++ a) = Some (List.length k' + List.length b)).
  { apply find_sub_some. split.
    - rewrite app_assoc, skipn_app, skipn_all2 by (rewrite length_app; lia).
      rewrite length_app, Nat.sub_diag. simpl. apply is_prefix_app.
    - intros j Hj.
      destruct (le_lt_dec (List.length k') j) as [Hle|Hlt].
      + rewrite skipn_app, skipn_all2 by lia. simpl.
        destruct (keywords_no_overlap k k Hk Hk) as [c [r [Hcr Hc]]].
        rewrite Hcr at 2. change ((c :: r) ++ a) with (c :: r ++ a).
        apply no_occurrence_before_anchor; try assumption.
        * apply Hb. exact Hk.
        * apply keywords_nonempty. exact Hk.
        * lia.
      + destruct (keywords_head_not_in k k' Hk Hk' Hne) as [c [r [Hcr Hc]]].
        apply (no_occurrence_head k c r); assumption. }
  rewrite E. cbv beta iota zeta.
  assert (Hs : forall u v : str, skipn (List.length u) (u ++ v) = v)
    by (intros; rewrite skipn_app, skipn_all, Nat.sub_diag; reflexivity).
  replace (k' ++ b ++ k ++ a) with ((k' ++ b ++ k) ++ a)
    by (rewrite <- !app_assoc; reflexivity).
  replace (List.length k' + List.length b + List.length k)
    with (List.length (k' ++ b ++ k)) by (rewrite !length_app; lia).
  rewrite Hs, segment_of_keyword_free by exact Ha. reflexivity.
Qed.

(** C3: [extract_requirement_text] returns [None] when the keyword is
    absent and otherwise the text after its first occurrence cut at the
    earliest occurrence of one of the two other keywords, with [":; "] and
    then whitespace stripped; the spec's example splits into ["MATH 1300"]
    and ["MATH 1301"] in either order; and for any two keywords and
    keyword-free segments, each segment is isolated whichever keyword
    comes first. *)
Theorem requirement_text_segments :
  (forall text keyword, In keyword requirement_keywords ->
     extract_requirement_text text keyword = requirement_segment_spec text keyword)
  /\ (forall text keyword, py_in keyword text = false ->
        extract_requirement_text text keyword = None)
  /\ extract_requirement_text (py "Prerequisite: MATH 1300; Corequisite: MATH 1301")
       prerequisite_kw = Some (py "MATH 1300")
  /\ extract_requirement_text (py "Prerequisite: MATH 1300; Corequisite: MATH 1301")
       corequisite_kw = Some (py "MATH 1301")
  /\ extract_requirement_text (py "Corequisite: MATH 1301; Prerequisite: MATH 1300")
       prerequisite_kw = Some (py "MATH 1300")
  /\ extract_requirement_text (py "Corequisite: MATH 1301; Prerequisite: MATH 1300")
       corequisite_kw = Some (py "MATH 1301")
  /\ (forall k k' a b,
        In k requirement_keywords -> In k' requirement_keywords -> k <> k' ->
        keyword_free a -> keyword_free b ->
        extract_requirement_text (k ++ a ++ k' ++ b) k = Some (clean_segment a)
        /\ extract_requirement_text (k' ++ b ++ k ++ a) k = Some (clean_segment a)).
Proof.
  split; [exact extract_requirement_text_spec|].
  split.
  { intros text keyword H. unfold extract_requirement_text. rewrite H. reflexivity. }
  split; [vm_compute; reflexivity|].
  split; [vm_compute; reflexivity|].
  split; [vm_compute; reflexivity|].
  split; [vm_compute; reflexivity|].
  intros k k' a b Hk Hk' Hne Ha Hb. split.
  - apply (leading_segment k k'); assumption.
  - apply (trailing_segment k k'); assumption.
Qed.

(** Witness of C3: with the anti-requisite phrase first and the
    prerequisite second, the prerequisite segment is isolated. *)
Lemma requirement_text_segments_witness :
  extract_requirement_text
    (prerequisite_kw ++ py " CS 2201; " ++ antirequisite_kw ++ py " CS 2212")
    prerequisite_kw = Some (clean_segment (py " CS 2201; "))
  /\ extract_requirement_text
    (antirequisite_kw ++ py " CS 2212" ++ prerequisite_kw ++ py " CS 2201; ")
    prerequisite_kw = Some (clean_segment (py " CS 2201; ")).
Proof.
  apply (proj2 (proj2 (proj2 (proj2 (proj2 (proj2 requirement_text_segments)))))).
  - simpl. tauto.
  - simpl. tauto.
  - vm_compute. discriminate.
  - intros k Hk. simpl in Hk. destruct Hk as [<-|[<-|[<-|[]]]]; vm_compute; reflexivity.
  - intros k Hk. simpl in Hk. destruct Hk as [<-|[<-|[<-|[]]]]; vm_compute; reflexivity.
Defined.

(* ------------------------------------------------------------------ *)
(** ** Terms offered *)

Lemma term_offered_filter : forall term,
  term_offered term
  = py_join (py ", ") (map snd (filter (fun wt => py_in (fst wt) term) term_tokens)).
Proof.
  intros term. unfold term_offered, term_tokens. cbn [filter fst snd map].
  destruct (py_in (py "Fall") term), (py_in (py "Spring") term),
    (py_in (py "Summer") term), (py_in (py "Alternate Years") term); reflexivity.
Qed.

(** C4 (as amended): the tokens FA, SP, SU, ALT appear in this order, each
    exactly when "Fall", "Spring", "Summer", "Alternate Years" is a substring
    of the input, so the result depends only on which of the four substrings
    occur; an input with "Fall" and "Summer" but neither "Spring" nor
    "Alternate Years" yields exactly "FA, SU". *)
Theorem term_offered_tokens :
  (forall term, term_offered term
     = py_join (py ", ") (map snd (filter (fun wt => py_in (fst wt) term) term_tokens)))
  /\ (forall t1 t2, (forall w, In w (map fst term_tokens) -> py_in w t1 = py_in w t2) ->
        term_offered t1 = term_offered t2)
  /\ (forall term,
        py_in (py "Fall") term = true -> py_in (py "Summer") term = true ->
        py_in (py "Spring") term = false -> py_in (py "Alternate Years") term = false ->
        term_offered term = py "FA, SU").
Proof.
  split; [exact term_offered_filter|]. split.
  - intros t1 t2 H. unfold term_offered.
    rewrite (H (py "Fall")), (H (py "Spring")), (H (py "Summer")),
      (H (py "Alternate Years")); [reflexivity|simpl; tauto ..].
  - intros term H1 H2 H3 H4. unfold term_offered.
    rewrite H1, H2, H3, H4. reflexivity.
Qed.

(** Witness of C4: "Summer and Fall" lists its terms in the fixed order. *)
Lemma term_offered_tokens_witness :
  term_offered (py "Summer and Fall") = py "FA, SU".
Proof.
  apply (proj2 (proj2 term_offered_tokens)); vm_compute; reflexivity.
Defined.

(** Counterexample to C4 as stated: "Fall" and "Summer" without "Spring"
    but with "Alternate Years" yields "FA, SU, ALT". *)
Lemma term_offered_alternate_years :
  py_in (py "Fall") (py "Fall, Summer (Alternate Years)") = true
  /\ py_in (py "Summer") (py "Fall, Summer (Alternate Years)") = true
  /\ py_in (py "Spring") (py "Fall, Summer (Alternate Years)") = false
  /\ term_offered (py "Fall, Summer (Alternate Years)") = py "FA, SU, ALT"
  /\ py "FA, SU, ALT" <> py "FA, SU".
Proof.
  vm_compute. repeat split; congruence.
Qed.

(* ------------------------------------------------------------------ *)
(** ** Candidate extraction *)

Lemma rx_rel_groups : forall ps s gs rest,
  rx_rel ps s gs rest -> List.length gs = n_captures ps.
Proof.
  intros ps s gs rest H.
  induction H; simpl; try assumption; try reflexivity;
    destruct cap; simpl; congruence.
Qed.

Lemma findall_aux_match : forall fuel ps s gs,
  In gs (findall_aux fuel ps s) -> exists s' rest, rx_match ps s' = Some (gs, rest).
Proof.
  induction fuel as [|fuel IH]; intros ps s gs H; simpl in H; [contradiction|].
  destruct (rx_match ps s) as [[gs' rest]|] eqn:E.
  - destruct H as [H|H]; [subst; eauto|eapply IH; eassumption].
  - destruct s as [|c s']; [contradiction|]. eapply IH; eassumption.
Qed.

Lemma findall_groups : forall ps s gs,
  In gs (re_findall ps s) -> List.length gs = n_captures ps.
Proof.
  intros ps s gs H. apply findall_aux_match in H as (s' & rest & H).
  eapply rx_rel_groups, rx_match_sound; eassumption.
Qed.

Lemma nth_error_combine_seq : forall {A} (l : list A) k i,
  nth_error (combine (seq k (List.length l)) l) i
  = option_map (fun x => (k + i, x)) (nth_error l i).
Proof.
  intros A l. induction l as [|x l IH]; intros k i; [destruct i; reflexivity|].
  destruct i as [|i]; simpl.
  - rewrite Nat.add_0_r. reflexivity.
  - rewrite IH. destruct (nth_error l i); simpl; [f_equal; f_equal; lia|reflexivity].
Qed.

Lemma extract_course_ids_nth : forall html i,
  nth_error (extract_course_ids html) i
  = option_map (fun gs =>
      let '(course_id, offer_num) := pair_of_groups gs in
      (course_id, offer_num, nth_error (notification_strings html) i,
       verification_code_of (nth_error (notification_strings html) i)))
      (nth_error (course_id_matches html) i).
Proof.
  intros html i. unfold extract_course_ids, course_id_matches, notification_strings.
  rewrite nth_error_map, nth_error_combine_seq, nth_error_map.
  destruct (nth_error (re_findall course_id_rx html) i); reflexivity.
Qed.

Lemma extract_course_ids_length : forall html,
  List.length (extract_course_ids html) = List.length (course_id_matches html).
Proof.
  intros html. unfold extract_course_ids, course_id_matches.
  rewrite length_map, length_combine, length_seq, length_map, Nat.min_id.
  reflexivity.
Qed.

Lemma course_id_match_pair : forall html gs,
  In gs (course_id_matches html) ->
  exists course_id offer_num, gs = [course_id; offer_num].
Proof.
  intros html gs H. apply findall_groups in H.
  destruct gs as [|a [|b [|c gs]]]; simpl in H; try discriminate; eauto.
Qed.

(** C10: [extract_course_ids] returns one candidate per match of the id
    pattern, the [i]-th candidate built from the [i]-th match; a candidate
    whose index is past the last notification string has no notification
    string and no verification code, so the check of [main] drops it for
    every subject code and it writes no row. *)
Theorem extract_course_ids_candidates : forall html,
  List.length (extract_course_ids html) = List.length (course_id_matches html)
  /\ (forall i gs, nth_error (course_id_matches html) i = Some gs ->
        exists course_id offer_num,
          gs = [course_id; offer_num]
          /\ nth_error (extract_course_ids html) i
             = Some (course_id, offer_num, nth_error (notification_strings html) i,
                     verification_code_of (nth_error (notification_strings html) i)))
  /\ (forall i c, List.length (notification_strings html) <= i ->
        nth_error (extract_course_ids html) i = Some c ->
        exists course_id offer_num,
          c = (course_id, offer_num, None, None)
          /\ forall subject_code, verification_passes subject_code (candidate_code c) = false
          /\ forall detail_get extract_course_details,
               candidate_rows detail_get extract_course_details subject_code c = []).
Proof.
  intros html. split; [apply extract_course_ids_length|]. split.
  - intros i gs H.
    destruct (course_id_match_pair html gs) as (course_id & offer_num & ->);
      [eapply nth_error_In; eassumption|].
    exists course_id, offer_num. split; [reflexivity|].
    rewrite extract_course_ids_nth, H. reflexivity.
  - intros i c Hi Hc.
    rewrite extract_course_ids_nth in Hc.
    destruct (nth_error (course_id_matches html) i) as [gs|] eqn:E; [|discriminate].
    simpl in Hc. rewrite (proj2 (nth_error_None _ _) Hi) in Hc.
    destruct (pair_of_groups gs) as [course_id offer_num].
    injection Hc as <-. exists course_id, offer_num. split; [reflexivity|].
    intros subject_code. split; [reflexivity|].
    intros detail_get extract_course_details. reflexivity.
Qed.

(** Witness of C10: three id matches and two notification strings; the
    third candidate has neither a notification string nor a code. *)
Lemma extract_course_ids_candidates_witness :
  exists c,
    nth_error (extract_course_ids (py "showCourseDetail: YAHOO.mis.student.CourseDetailPanel.showCourseDetail('123', '1', notificationString); var notificationString = 'CS-1'; YAHOO.mis.student.CourseDetailPanel.showCourseDetail('456', '2', notificationString); var notificationString = 'MATH-2'; YAHOO.mis.student.CourseDetailPanel.showCourseDetail('789', '3', notificationString);")) 2 = Some c
    /\ c = (py "789", py "3", None, None)
    /\ verification_passes (py "CS") (candidate_code c) = false.
Proof.
  set (html := py "showCourseDetail: YAHOO.mis.student.CourseDetailPanel.showCourseDetail('123', '1', notificationString); var notificationString = 'CS-1'; YAHOO.mis.student.CourseDetailPanel.showCourseDetail('456', '2', notificationString); var notificationString = 'MATH-2'; YAHOO.mis.student.CourseDetailPanel.showCourseDetail('789', '3', notificationString);").
  assert (Hn : List.length (notification_strings html) <= 2) by (vm_compute; repeat constructor).
  destruct (nth_error (extract_course_ids html) 2) as [c|] eqn:Hc;
    [|vm_compute in Hc; discriminate].
  destruct (proj2 (proj2 (extract_course_ids_candidates html)) 2 c Hn Hc)
    as (course_id & offer_num & Heq & Hpass).
  exists c. split; [reflexivity|]. split; [|apply (Hpass (py "CS"))].
  vm_compute in Hc. injection Hc as <-. reflexivity.
Defined.

(* ------------------------------------------------------------------ *)
(** ** The verification filter *)

Lemma verification_passes_iff : forall subject_code code,
  verification_passes subject_code code = true <-> code = Some subject_code.
Proof.
  intros subject_code [v|]; simpl.
  - rewrite str_eqb_eq. split; congruence.
  - split; discriminate.
Qed.

(** A code is the text before a final [-<digits>] (and an optional final
    newline) of the notification string. *)
Lemma verification_code_shape : forall n v,
  verification_code_of (Some n) = Some v ->
  exists d e, n = v ++ "-"%char :: d ++ e
    /\ d <> [] /\ forallb is_digit d = true
    /\ forallb is_not_newline v = true /\ at_end e = true.
Proof.
  intros n v H. unfold verification_code_of, re_match in H.
  destruct (rx_match verification_rx n) as [[gs rest]|] eqn:E; [|discriminate].
  injection H as <-. apply rx_match_sound in E.
  inversion E; subst; clear E.
  match goal with H : rx_rel (Lit _ :: _) _ _ _ |- _ => inversion H; subst; clear H end.
  match goal with H : rx_rel (Greedy _ _ _ _ :: _) _ _ _ |- _ => inversion H; subst; clear H end.
  match goal with H : rx_rel (EndAnchor :: _) _ _ _ |- _ => inversion H; subst; clear H end.
  match goal with H : rx_rel [] _ _ _ |- _ => inversion H; subst; clear H end.
  match goal with H : rep_ok is_not_newline _ _ ?v |- _ => destruct H as (_ & _ & Hv) end.
  match goal with H : rep_ok is_digit 1 None ?d |- _ => destruct H as (Hd & _ & Hd') end.
  simpl. eexists _, _. split; [reflexivity|].
  repeat split; try assumption.
  intros ->. simpl in Hd. lia.
Qed.

Section ScanFacts.
Variable search_get : str -> pyres str.
Variable detail_get : str -> str -> pyres str.
Variable extract_course_details : str -> str -> str -> pyres (option (pydict pyval)).

Lemma candidate_rows_filter : forall subject_code cs,
  flat_map (candidate_rows detail_get extract_course_details subject_code) cs
  = flat_map (candidate_rows detail_get extract_course_details subject_code)
      (filter (fun c => verification_passes subject_code (candidate_code c)) cs).
Proof.
  intros subject_code cs. induction cs as [|c cs IH]; [reflexivity|].
  simpl. destruct (verification_passes subject_code (candidate_code c)) eqn:E.
  - simpl. rewrite IH. reflexivity.
  - unfold candidate_rows at 1. rewrite E. simpl. exact IH.
Qed.

End ScanFacts.

(** C5: for every server, detail parser and subject, the rows written for
    the subject are those of the candidates whose verification code (the
    text before the final [-<digits>] of the notification string paired
    with the candidate) is exactly the subject code; a candidate with
    another code or none writes no row. *)
Theorem verification_code_filter :
  forall search_get detail_get extract_course_details subject_name subject_code,
  (forall c, verification_passes subject_code (candidate_code c) = true
             <-> candidate_code c = Some subject_code)
  /\ (forall text, search_get subject_name = Ok text ->
        py_in (py "No courses found.") text = false ->
        scan_subject search_get detail_get extract_course_details subject_name subject_code
        = flat_map (candidate_rows detail_get extract_course_details subject_code)
            (filter (fun c => verification_passes subject_code (candidate_code c))
               (extract_course_ids text)))
  /\ (forall c, candidate_code c <> Some subject_code ->
        candidate_rows detail_get extract_course_details subject_code c = [])
  /\ (forall row,
        In row (scan_subject search_get detail_get extract_course_details
                  subject_name subject_code) ->
        exists text c, search_get subject_name = Ok text
          /\ In c (extract_course_ids text)
          /\ candidate_code c = Some subject_code
          /\ In row (candidate_rows detail_get extract_course_details subject_code c))
  /\ (forall n v, verification_code_of (Some n) = Some v ->
        exists d e, n = v ++ "-"%char :: d ++ e
          /\ d <> [] /\ forallb is_digit d = true
          /\ forallb is_not_newline v = true /\ at_end e = true).
Proof.
  intros search_get detail_get extract_course_details subject_name subject_code.
  split; [intros c; apply verification_passes_iff|].
  split.
  { intros text Ht Hn. unfold scan_subject. rewrite Ht. cbn [pybind try_except].
    rewrite Hn.
    apply candidate_rows_filter. }
  split.
  { intros c Hc. unfold candidate_rows.
    destruct (verification_passes subject_code (candidate_code c)) eqn:E;
      [apply verification_passes_iff in E; contradiction|reflexivity]. }
  split; [|exact verification_code_shape].
  intros row Hrow. unfold scan_subject in Hrow.
  destruct (search_get subject_name) as [text|e] eqn:Ht;
    cbn [pybind try_except] in Hrow; [|contradiction].
  destruct (py_in (py "No courses found.") text); cbn [pybind try_except] in Hrow;
    [contradiction|].
  apply in_flat_map in Hrow as (c & Hc & Hr).
  exists text, c. repeat split; try assumption.
  apply verification_passes_iff.
  destruct (verification_passes subject_code (candidate_code c)) eqn:E; [reflexivity|].
  unfold candidate_rows in Hr. rewrite E in Hr. contradiction.
Qed.

(* ------------------------------------------------------------------ *)
(** ** Dict displays and lookups *)

Section DictLiteral.
Context {V : Type}.
Implicit Types (kvs : list (str * V)) (v : V).

Lemma dict_update_snoc : forall d kvs k v,
  dict_update d (kvs ++ [(k, v)]) = dict_set (dict_update d kvs) k v.
Proof.
  intros d kvs k v. unfold dict_update. rewrite fold_left_app. reflexivity.
Qed.

Lemma dict_literal_none : forall kvs k,
  dict_get (dict_literal kvs) k = None <-> ~ In k (map fst kvs).
Proof.
  unfold dict_literal. intros kvs k.
  induction kvs as [|[k' v'] kvs IH] using rev_ind; [simpl; tauto|].
  rewrite dict_update_snoc, map_app, in_app_iff. simpl.
  destruct (str_eqb k k') eqn:E.
  - apply str_eqb_eq in E. subst. rewrite dict_get_set_same.
    split; [discriminate|tauto].
  - assert (E' : k <> k') by (intros ->; rewrite str_eqb_refl in E; discriminate). rewrite dict_get_set_other by congruence.
    rewrite IH. intuition congruence.
Qed.

Lemma dict_literal_some : forall kvs k v,
  dict_get (dict_literal kvs) k = Some v
  <-> exists pre post, kvs = pre ++ (k, v) :: post /\ ~ In k (map fst post).
Proof.
  unfold dict_literal. intros kvs k v. split.
  - induction kvs as [|[k' v'] kvs IH] using rev_ind; [discriminate|].
    rewrite dict_update_snoc. intros H.
    destruct (str_eqb k k') eqn:E.
    + apply str_eqb_eq in E. subst. rewrite dict_get_set_same in H.
      injection H as <-. exists kvs, []. split; [reflexivity|simpl; tauto].
    + assert (E' : k <> k') by (intros ->; rewrite str_eqb_refl in E; discriminate). rewrite dict_get_set_other in H by congruence.
      destruct (IH H) as (pre & post & -> & Hpost).
      exists pre, (post ++ [(k', v')]). split.
      * rewrite <- app_assoc. reflexivity.
      * rewrite map_app, in_app_iff. simpl. intuition congruence.
  - intros (pre & post & -> & Hpost).
    unfold dict_update. rewrite fold_left_app. simpl.
    change (dict_get (dict_update (dict_set (dict_update [] pre) k v) post) k = Some v).
    rewrite dict_get_update_other by assumption.
    apply dict_get_set_same.
Qed.

Lemma dict_literal_nodup : forall kvs k v,
  NoDup (map fst kvs) ->
  (dict_get (dict_literal kvs) k = Some v <-> In (k, v) kvs).
Proof.
  intros kvs k v Hnd. split.
  - intros H. apply dict_literal_some in H as (pre & post & -> & _).
    apply in_or_app. right. left. reflexivity.
  - intros H. apply dict_get_update_in; assumption.
Qed.

End DictLiteral.

Lemma SCHOOL_MAP_nodup : NoDup (map fst SCHOOL_MAP_entries).
Proof. nodup_literal. Qed.

Lemma CAREER_MAP_nodup : NoDup (map fst CAREER_MAP_entries).
Proof. nodup_literal. Qed.

Lemma COMPONENT_MAP_nodup : NoDup (map fst COMPONENT_MAP_entries).
Proof. nodup_literal. Qed.

(** Witness of C5: on the sample page, scanning Computer Science ("CS")
    writes the row of course 123 only. *)
Lemma verification_code_filter_witness :
  scan_subject (fun _ => Ok sample_search_page) (fun _ _ => Ok [])
    (fun _ _ course_id => Ok (Some [(py "course_id", PStr course_id)]))
    (py "Computer Science") (py "CS")
  = [[(py "course_id", PStr (py "123"))]].
Proof.
  rewrite (proj1 (proj2 (verification_code_filter (fun _ => Ok sample_search_page)
             (fun _ _ => Ok [])
             (fun _ _ course_id => Ok (Some [(py "course_id", PStr course_id)]))
             (py "Computer Science") (py "CS"))) sample_search_page eq_refl);
    [vm_compute; reflexivity|vm_compute; reflexivity].
Defined.

(** C7: [TABLE.get(label)] on a table written as a dict display returns the
    code configured for the label (the last one, as for any dict display;
    with distinct keys, the only one), compared by exact string equality,
    and [None] when the label is not a key or is [None]; [map_get] is a
    total function, no lookup raises. The three tables of the repository
    have distinct keys. *)
Theorem mapping_lookup :
  (forall (entries : list (str * str)) label v,
     map_get (dict_literal entries) (Some label) = Some v
     <-> exists pre post, entries = pre ++ (label, v) :: post /\ ~ In label (map fst post))
  /\ (forall (entries : list (str * str)) label,
        map_get (dict_literal entries) (Some label) = None
        <-> ~ In label (map fst entries))
  /\ (forall table, map_get table None = None)
  /\ (forall entries, In entries [SCHOOL_MAP_entries; CAREER_MAP_entries; COMPONENT_MAP_entries] ->
        NoDup (map fst entries)
        /\ forall label v,
             map_get (dict_literal entries) (Some label) = Some v <-> In (label, v) entries)
  /\ map_get SCHOOL_MAP (Some (py "Vanderbilt")) = Some (py "VANDY")
  /\ map_get SCHOOL_MAP (Some (py "vanderbilt")) = None
  /\ map_get COMPONENT_MAP (Some (py "Lecture and Lab")) = Some (py "LLB").
Proof.
  split; [intros entries label v; apply dict_literal_some|].
  split; [intros entries label; apply dict_literal_none|].
  split; [reflexivity|].
  split.
  { intros entries Hin.
    assert (Hnd : NoDup (map fst entries)).
    { destruct Hin as [<-|[<-|[<-|[]]]];
        [exact SCHOOL_MAP_nodup|exact CAREER_MAP_nodup|exact COMPONENT_MAP_nodup]. }
    split; [exact Hnd|]. intros label v. apply dict_literal_nodup, Hnd. }
  repeat split; vm_compute; reflexivity.
Qed.

(** Witness of C7: "Graduate" is a key of [CAREER_MAP], mapped to "GRAD". *)
Lemma mapping_lookup_witness :
  map_get CAREER_MAP (Some (py "Graduate")) = Some (py "GRAD").
Proof.
  apply (proj2 (proj1 (proj2 (proj2 (proj2 mapping_lookup))) CAREER_MAP_entries
           ltac:(simpl; tauto)) (py "Graduate") (py "GRAD")).
  vm_compute. tauto.
Defined.

(* ------------------------------------------------------------------ *)
(** ** The class-section scraper *)

Lemma dict_set_nonempty : forall {V} (d : pydict V) k v, dict_set d k v <> [].
Proof. intros V [|[k' v'] d] k v; simpl; [discriminate|destruct (str_eqb k k'); discriminate]. Qed.

Lemma dict_update_nonempty : forall {V} (kvs : list (str * V)) d,
  d <> [] -> dict_update d kvs <> [].
Proof.
  intros V kvs. unfold dict_update.
  induction kvs as [|kv kvs IH]; intros d Hd; simpl; [exact Hd|].
  apply IH, dict_set_nonempty.
Qed.

Lemma class_record_truthy : forall n h d, py_truthy (PDict (class_record n h d)) = true.
Proof.
  intros n h d. unfold class_record.
  destruct (dict_update _ d) eqn:E; [|reflexivity].
  exfalso. revert E. apply dict_update_nonempty. unfold dict_literal, dict_update. simpl.
  discriminate.
Qed.

Section ClassScanFacts.
Variable http_get : nat -> pyres str.
Variable make_soup : str -> pyres Soup.
Variable py_float : str -> pyres pyval.

Lemma scrape_class_section_cases : forall n,
  scrape_class_section http_get make_soup py_float n = Ok None
  \/ exists r, scrape_class_section http_get make_soup py_float n = Ok (Some r).
Proof.
  intros n. unfold scrape_class_section, try_except.
  destruct (scrape_class_section_body http_get make_soup py_float n) as [[r|]|e];
    eauto.
Qed.

Lemma scrape_class_section_some : forall n r,
  scrape_class_section http_get make_soup py_float n = Ok (Some r)
  <-> class_section_ok http_get make_soup py_float n r.
Proof.
  intros n r. unfold scrape_class_section, try_except, scrape_class_section_body.
  split.
  - destruct (http_get n) as [text|e] eqn:Ht; cbn [pybind]; [|discriminate].
    destruct (py_in (py "classSectionDetailDialog") text) eqn:Hm; cbn [negb];
      [|discriminate].
    destruct (make_soup text) as [soup|e] eqn:Hs; cbn [pybind]; [|discriminate].
    destruct (h1_text soup) as [h1|] eqn:Hh; [|discriminate].
    destruct (parse_class_header (py_strip h1)) as [hdr|] eqn:Hp; [|discriminate].
    destruct (extract_class_details py_float soup) as [details|e] eqn:Hd;
      cbn [pybind]; [|discriminate].
    intros H. injection H as <-.
    exists text, soup, h1, hdr, details. repeat split; assumption.
  - intros (text & soup & h1 & hdr & details & Ht & Hm & Hs & Hh & Hp & Hd & ->).
    rewrite Ht. cbn [pybind]. rewrite Hm. cbn [negb]. rewrite Hs. cbn [pybind].
    rewrite Hh, Hp, Hd. reflexivity.
Qed.

Lemma scan_class_numbers_ok : forall ns,
  scan_class_numbers http_get make_soup py_float ns
  = Ok (flat_map (fun n =>
          match scrape_class_section http_get make_soup py_float n with
          | Ok (Some d) => [d]
          | _ => []
          end) ns).
Proof.
  induction ns as [|n ns IH]; [reflexivity|].
  simpl. rewrite IH.
  destruct (scrape_class_section_cases n) as [E|[r E]]; rewrite E; cbn [pybind];
    [reflexivity|].
  apply scrape_class_section_some in E as (? & ? & ? & ? & ? & ? & ? & ? & ? & ? & ? & ->).
  match goal with |- context [class_record n ?h ?d] =>
    pose proof (class_record_truthy n h d) as Ht end.
  simpl in Ht. rewrite Ht. reflexivity.
Qed.

End ClassScanFacts.

(** C8: for every server, page parser and [float], and every class number,
    [scrape_class_section] raises nothing: it returns the record exactly
    when every step succeeds, and [None] otherwise, in particular on a
    transport error or timeout, a missing marker, an unparsable page, a
    missing heading, a header that does not parse or an error while reading
    the details; the scan over the range keeps, in order, the records of the
    class numbers that succeeded and raises nothing. *)
Theorem scrape_class_section_absorbs :
  forall http_get make_soup py_float,
  (forall n,
     (scrape_class_section http_get make_soup py_float n = Ok None
      /\ forall r, ~ class_section_ok http_get make_soup py_float n r)
     \/ exists r, scrape_class_section http_get make_soup py_float n = Ok (Some r)
                  /\ class_section_ok http_get make_soup py_float n r)
  /\ (forall n e, http_get n = Raise e ->
        scrape_class_section http_get make_soup py_float n = Ok None)
  /\ (forall n text, http_get n = Ok text ->
        py_in (py "classSectionDetailDialog") text = false ->
        scrape_class_section http_get make_soup py_float n = Ok None)
  /\ (forall n text e, http_get n = Ok text ->
        py_in (py "classSectionDetailDialog") text = true -> make_soup text = Raise e ->
        scrape_class_section http_get make_soup py_float n = Ok None)
  /\ (forall n text soup, http_get n = Ok text ->
        py_in (py "classSectionDetailDialog") text = true -> make_soup text = Ok soup ->
        h1_text soup = None ->
        scrape_class_section http_get make_soup py_float n = Ok None)
  /\ (forall n text soup h1, http_get n = Ok text ->
        py_in (py "classSectionDetailDialog") text = true -> make_soup text = Ok soup ->
        h1_text soup = Some h1 -> parse_class_header (py_strip h1) = None ->
        scrape_class_section http_get make_soup py_float n = Ok None)
  /\ (forall n text soup h1 hdr e, http_get n = Ok text ->
        py_in (py "classSectionDetailDialog") text = true -> make_soup text = Ok soup ->
        h1_text soup = Some h1 -> parse_class_header (py_strip h1) = Some hdr ->
        extract_class_details py_float soup = Raise e ->
        scrape_class_section http_get make_soup py_float n = Ok None)
  /\ (forall ns, scan_class_numbers http_get make_soup py_float ns
        = Ok (flat_map (fun n =>
                match scrape_class_section http_get make_soup py_float n with
                | Ok (Some d) => [d]
                | _ => []
                end) ns))
  /\ exists records, class_scan http_get make_soup py_float = Ok records.
Proof.
  intros http_get make_soup py_float.
  assert (Hnone : forall n,
    (forall r, ~ class_section_ok http_get make_soup py_float n r) ->
    scrape_class_section http_get make_soup py_float n = Ok None).
  { intros n Hn. destruct (scrape_class_section_cases http_get make_soup py_float n)
      as [E|[r E]]; [exact E|].
    apply scrape_class_section_some in E. exfalso. exact (Hn r E). }
  split.
  { intros n.
    destruct (scrape_class_section_cases http_get make_soup py_float n) as [E|[r E]].
    - left. split; [exact E|]. intros r Hr.
      apply scrape_class_section_some in Hr. congruence.
    - right. exists r. split; [exact E|]. apply scrape_class_section_some, E. }
  split.
  { intros n e He. apply Hnone.
    intros r (text & _ & _ & _ & _ & Ht & _). congruence. }
  split.
  { intros n text Ht Hm. apply Hnone.
    intros r (text' & _ & _ & _ & _ & Ht' & Hm' & _). congruence. }
  split.
  { intros n text e Ht Hm Hs. apply Hnone.
    intros r (text' & soup' & _ & _ & _ & Ht' & _ & Hs' & _). congruence. }
  split.
  { intros n text soup Ht Hm Hs Hh. apply Hnone.
    intros r (text' & soup' & h1' & _ & _ & Ht' & _ & Hs' & Hh' & _). congruence. }
  split.
  { intros n text soup h1 Ht Hm Hs Hh Hp. apply Hnone.
    intros r (text' & soup' & h1' & hdr' & _ & Ht' & _ & Hs' & Hh' & Hp' & _).
    congruence. }
  split.
  { intros n text soup h1 hdr e Ht Hm Hs Hh Hp Hd. apply Hnone.
    intros r (text' & soup' & h1' & hdr' & d' & Ht' & _ & Hs' & Hh' & Hp' & Hd' & _).
    congruence. }
  split; [apply scan_class_numbers_ok|].
  eexists. apply scan_class_numbers_ok.
Qed.

(** Witness of C8: a server that times out on every class number; every
    scrape returns [None] and the scan returns no record. *)
Lemma scrape_class_section_absorbs_witness :
  scrape_class_section (fun _ => Raise Timeout) (fun _ => Raise OtherException)
    (fun _ => Raise ValueError) 1000 = Ok None.
Proof.
  apply (proj1 (proj2 (scrape_class_section_absorbs (fun _ => Raise Timeout)
           (fun _ => Raise OtherException) (fun _ => Raise ValueError))) 1000 Timeout).
  reflexivity.
Defined.

(* ------------------------------------------------------------------ *)
(** ** Columns of the class-section records *)

(** C6 (the class-section records): a page without a detail panel gives a
    record with the six header keys only, where a page with one gives the
    six header keys and the four detail keys; the keys [school_code],
    [career_code], [component_code] and [units_earned] are then missing,
    not [None]. *)
Theorem class_section_columns : forall py_float n hdr soup class_details,
  extract_class_details py_float soup = Ok class_details ->
  (detail_panel soup = None ->
     map fst (class_record n hdr class_details) = class_header_columns
     /\ forall k, In k class_detail_columns ->
          dict_get (class_record n hdr class_details) k = None)
  /\ (forall rows, detail_panel soup = Some rows ->
        map fst (class_record n hdr class_details)
        = class_header_columns ++ class_detail_columns).
Proof.
  intros py_float n hdr soup class_details Hd. unfold extract_class_details in Hd.
  split.
  - intros Hp. rewrite Hp in Hd. injection Hd as <-.
    split; [reflexivity|].
    intros k Hk. simpl in Hk.
    destruct Hk as [<-|[<-|[<-|[<-|[]]]]]; reflexivity.
  - intros rows Hp. rewrite Hp in Hd.
    destruct (class_detail_rows py_float (PNone, PNone, PNone, PNone) rows)
      as [[[[school career] component] hours]|e]; cbn [pybind] in Hd; [|discriminate].
    injection Hd as <-. reflexivity.
Qed.

(** Witness of C6: the page without a detail panel is scraped into a record
    with the six header keys only; it has no [school_code]. *)
Lemma class_section_columns_witness :
  exists r,
    scrape_class_section (fun _ => Ok page_without_panel) (fun _ => Ok soup_without_panel)
      (fun _ => Raise ValueError) 1000 = Ok (Some r)
    /\ map fst r = class_header_columns
    /\ dict_get r (py "school_code") = None.
Proof.
  assert (Hd : extract_class_details (fun _ => Raise ValueError) soup_without_panel = Ok [])
    by reflexivity.
  destruct (class_section_columns (fun _ => Raise ValueError) 1000
              (mkClassHeader (py "CS") (py "1101") (py "01") (py "CS-1101")
                 (py "Intro to Computing"))
              soup_without_panel [] Hd) as [H _].
  destruct (H eq_refl) as [Hk Hn].
  eexists. split; [vm_compute; reflexivity|].
  split; [exact Hk|]. apply Hn. simpl. tauto.
Defined.

(* ------------------------------------------------------------------ *)
(** ** Columns and row counts of the requirement CSV files *)

Lemma detail_row_keys : forall json_data row,
  In row (convert_requirements_to_csv json_data) -> map fst row = detail_fieldnames.
Proof.
  intros json_data row H.
  rewrite convert_requirements_to_csv_lines in H.
  apply in_flat_map in H as ([[g r] l] & _ & H).
  unfold process_requirement_line in H.
  destruct (coursesUsedToSatisfy l) as [[|c cs]|].
  - destruct H as [<-|[]]. reflexivity.
  - apply in_map_iff in H as (course & <- & _). reflexivity.
  - destruct H as [<-|[]]. reflexivity.
Qed.

Lemma structure_row_keys : forall json_data row,
  In row (extract_requirement_structure json_data) ->
  map fst row =
    [py "requirement_group_number"; py "entry_sequence"; py "requirement_number";
     py "requirement_entry_sequence"; py "group_name"; py "is_main_requirement";
     py "line_name"; py "description"; py "status"; py "units_required";
     py "units_used"; py "units_needed"].
Proof.
  intros json_data row H.
  rewrite extract_requirement_structure_lines in H.
  apply in_map_iff in H as ([[g r] l] & <- & _). reflexivity.
Qed.

(** Every row of [convert_requirements_to_csv] has exactly the columns of
    its [save_to_csv], in the same order. *)
Theorem detail_rows_match_fieldnames : forall json_data row,
  In row (convert_requirements_to_csv json_data) -> map fst row = detail_fieldnames.
Proof. exact detail_row_keys. Qed.

Lemma detail_rows_match_fieldnames_witness :
  map fst sample_row = detail_fieldnames.
Proof.
  apply (detail_rows_match_fieldnames sample_document).
  vm_compute. left. reflexivity.
Defined.



Lemma keys_allowed_iff : forall (fieldnames : list str) (row : pydict pyval),
  forallb (fun k => existsb (str_eqb k) fieldnames) (map fst row) = true
  <-> incl (map fst row) fieldnames.
Proof.
  intros fieldnames row. rewrite forallb_forall. split.
  - intros H k Hk. specialize (H k Hk). apply existsb_exists in H as (k' & Hk' & E).
    apply str_eqb_eq in E. subst. exact Hk'.
  - intros H k Hk. apply existsb_exists. exists k. split; [apply H, Hk|apply str_eqb_refl].
Qed.

Section SaveCsvFacts.
Variable open_and_write_header : list str -> pyres unit.
Variable write_row : list str -> pydict pyval -> pyres unit.

Lemma dict_writer_rows_ok : forall fieldnames data,
  (forall row, In row data -> incl (map fst row) fieldnames) ->
  (forall row, In row data -> write_row fieldnames row = Ok tt) ->
  dict_writer_rows write_row fieldnames data = Ok tt.
Proof.
  intros fieldnames data. induction data as [|row data IH]; intros Hk Hw; [reflexivity|].
  simpl. unfold dict_writer_row.
  rewrite (proj2 (keys_allowed_iff fieldnames row) (Hk row (or_introl eq_refl))).
  rewrite (Hw row (or_introl eq_refl)). cbn [pybind].
  apply IH; intros; [apply Hk|apply Hw]; right; assumption.
Qed.

Lemma dict_writer_rows_extra_key : forall fieldnames data row k,
  In row data -> In k (map fst row) -> ~ In k fieldnames ->
  exists e, dict_writer_rows write_row fieldnames data = Raise e.
Proof.
  intros fieldnames data row k. induction data as [|row' data IH]; intros Hin Hk Hf;
    [contradiction|].
  simpl. unfold dict_writer_row at 1.
  destruct (forallb (fun k => existsb (str_eqb k) fieldnames) (map fst row')) eqn:E;
    [|eexists; reflexivity].
  destruct (write_row fieldnames row') as [[]|e]; cbn [pybind]; [|eexists; reflexivity].
  destruct Hin as [<-|Hin]; [|apply IH; assumption].
  apply keys_allowed_iff in E. exfalso. apply Hf, E, Hk.
Qed.

End SaveCsvFacts.

Lemma save_to_csv_extra_key :
  forall open_and_write_header write_row fieldnames data row k,
  In row data -> In k (map fst row) -> ~ In k fieldnames ->
  save_to_csv open_and_write_header write_row fieldnames data = false.
Proof.
  intros open_and_write_header write_row fieldnames data row k Hin Hk Hf.
  unfold save_to_csv.
  destruct data as [|row0 data0]; [reflexivity|].
  destruct (open_and_write_header fieldnames) as [[]|e]; cbn [pybind]; [|reflexivity].
  destruct (dict_writer_rows_extra_key write_row fieldnames (row0 :: data0) row k Hin Hk Hf)
    as [e ->].
  reflexivity.
Qed.

Lemma save_to_csv_ok :
  forall open_and_write_header write_row fieldnames data,
  data <> [] -> open_and_write_header fieldnames = Ok tt ->
  (forall row, In row data -> incl (map fst row) fieldnames) ->
  (forall row, In row data -> write_row fieldnames row = Ok tt) ->
  save_to_csv open_and_write_header write_row fieldnames data = true.
Proof.
  intros open_and_write_header write_row fieldnames data Hne Ho Hk Hw.
  unfold save_to_csv.
  destruct data as [|row0 data0]; [contradiction|].
  rewrite Ho. cbn [pybind]. rewrite dict_writer_rows_ok by assumption. reflexivity.
Qed.

(** [save_to_csv] returns [False] for empty data and when a row has a key
    outside its [fieldnames] ([DictWriter] raises [ValueError], which is
    caught); it returns [True] when the data is non-empty, every row's keys
    are field names and the file is opened and every row written. *)
Theorem save_to_csv_result :
  forall open_and_write_header write_row fieldnames data,
  save_to_csv open_and_write_header write_row fieldnames [] = false
  /\ (forall row k, In row data -> In k (map fst row) -> ~ In k fieldnames ->
        save_to_csv open_and_write_header write_row fieldnames data = false)
  /\ (data <> [] -> open_and_write_header fieldnames = Ok tt ->
        (forall row, In row data -> incl (map fst row) fieldnames) ->
        (forall row, In row data -> write_row fieldnames row = Ok tt) ->
        save_to_csv open_and_write_header write_row fieldnames data = true).
Proof.
  intros open_and_write_header write_row fieldnames data.
  split; [reflexivity|]. split.
  - intros row k. apply save_to_csv_extra_key.
  - apply save_to_csv_ok.
Qed.

Lemma list_sum_max1 : forall {A} (f : A -> nat) (l : list A),
  List.length l <= list_sum (map (fun x => Nat.max 1 (f x)) l)
  /\ (list_sum (map (fun x => Nat.max 1 (f x)) l) = List.length l
      <-> forall x, In x l -> f x <= 1).
Proof.
  intros A f l.
  assert (Hcons : forall a m, list_sum (a :: m) = a + list_sum m) by reflexivity.
  induction l as [|x l [IH1 IH2]]; cbn [map List.length In];
    [split; [simpl; lia|split; [intros _ x []|reflexivity]]|].
  rewrite Hcons.
  pose proof (Nat.le_max_l 1 (f x)) as Hm1. pose proof (Nat.le_max_r 1 (f x)) as Hm2.
  split; [lia|]. split.
  - intros Hsum y [<-|Hy]; [lia|]. apply IH2; [lia|exact Hy].
  - intros Hall. assert (Hx := Hall x (or_introl eq_refl)).
    rewrite (Nat.max_l 1 (f x) Hx).
    rewrite (proj2 IH2) by (intros; apply Hall; right; assumption). reflexivity.
Qed.

Lemma convert_length : forall json_data,
  List.length (convert_requirements_to_csv json_data)
  = list_sum (map (fun x => Nat.max 1 (n_courses (snd x))) (document_lines json_data)).
Proof.
  intros json_data. rewrite convert_requirements_to_csv_lines, length_flat_map.
  f_equal. apply map_ext. intros [[g r] l]. apply process_requirement_line_length.
Qed.

(** The structure file has one row per requirement line; the detail file
    has at least as many rows, and exactly as many when no line has more
    than one satisfying course. *)
Theorem requirement_row_counts : forall json_data,
  List.length (extract_requirement_structure json_data) = List.length (document_lines json_data)
  /\ List.length (extract_requirement_structure json_data)
     <= List.length (convert_requirements_to_csv json_data)
  /\ (List.length (convert_requirements_to_csv json_data)
        = List.length (extract_requirement_structure json_data)
      <-> forall g r l, In (g, r, l) (document_lines json_data) -> n_courses l <= 1).
Proof.
  intros json_data.
  assert (Hs : List.length (extract_requirement_structure json_data)
               = List.length (document_lines json_data))
    by (rewrite extract_requirement_structure_lines, length_map; reflexivity).
  destruct (list_sum_max1 (fun x => n_courses (snd x)) (document_lines json_data))
    as [H1 H2].
  rewrite Hs, convert_length. split; [reflexivity|]. split; [exact H1|].
  rewrite H2. split.
  - intros H g r l Hin. exact (H _ Hin).
  - intros H [[g r] l] Hin. exact (H g r l Hin).
Qed.

(** [main] of either script: a load error ends in "Failed to load"; a
    document without requirement lines in "No data"; a document with one
    and a file that can be written in success. *)
Theorem requirement_mains : forall open_and_write_header write_row,
  (forall e, convert_main open_and_write_header write_row (Raise e) = LoadFailed
             /\ structure_main open_and_write_header write_row (Raise e) = LoadFailed)
  /\ (forall json_data,
        (convert_main open_and_write_header write_row (Ok json_data) = NoData
         <-> document_lines json_data = [])
        /\ (structure_main open_and_write_header write_row (Ok json_data) = NoData
            <-> document_lines json_data = []))
  /\ (forall json_data, document_lines json_data <> [] ->
        open_and_write_header detail_fieldnames = Ok tt ->
        (forall row, write_row detail_fieldnames row = Ok tt) ->
        convert_main open_and_write_header write_row (Ok json_data) = Succeeded)
  /\ (forall json_data, document_lines json_data <> [] ->
        open_and_write_header structure_fieldnames = Ok tt ->
        (forall row, write_row structure_fieldnames row = Ok tt) ->
        structure_main open_and_write_header write_row (Ok json_data) = Succeeded).
Proof.
  intros open_and_write_header write_row.
  assert (Hc : forall json_data,
    convert_requirements_to_csv json_data = [] <-> document_lines json_data = []).
  { intros json_data. rewrite <- !length_zero_iff_nil, convert_length.
    destruct (list_sum_max1 (fun x => n_courses (snd x)) (document_lines json_data)).
    destruct (document_lines json_data) as [|x l]; simpl in *; lia. }
  assert (Hs : forall json_data,
    extract_requirement_structure json_data = [] <-> document_lines json_data = []).
  { intros json_data. rewrite extract_requirement_structure_lines.
    destruct (document_lines json_data); simpl; split; congruence. }
  split; [intros e; split; reflexivity|].
  split.
  { intros json_data. unfold convert_main, structure_main. cbn [pybind try_except].
    split.
    - rewrite <- Hc.
      destruct (convert_requirements_to_csv json_data); [split; reflexivity|].
      destruct (save_to_csv _ _ _ _); split; discriminate.
    - rewrite <- Hs.
      destruct (extract_requirement_structure json_data); [split; reflexivity|].
      destruct (save_to_csv _ _ _ _); split; discriminate. }
  split.
  - intros json_data Hne Ho Hw. unfold convert_main. cbn [pybind try_except].
    destruct (convert_requirements_to_csv json_data) as [|row0 rows] eqn:E;
      [apply Hc in E; contradiction|].
    rewrite save_to_csv_ok; [reflexivity|discriminate|assumption| |auto].
    intros row Hin. rewrite <- E in Hin. rewrite (detail_row_keys json_data row Hin).
    apply incl_refl.
  - intros json_data Hne Ho Hw. unfold structure_main. cbn [pybind try_except].
    destruct (extract_requirement_structure json_data) as [|row0 rows] eqn:E;
      [apply Hs in E; contradiction|].
    rewrite save_to_csv_ok; [reflexivity|discriminate|assumption| |auto].
    intros row Hin. rewrite <- E in Hin. rewrite (structure_row_keys json_data row Hin).
    intros k Hk. unfold structure_fieldnames. cbn [In] in *. tauto.
Qed.

(* ------------------------------------------------------------------ *)
(** ** Course details, catalog scan, class details and subject mappings *)

Lemma course_details_some : forall unescape ATTRIBUTE_MAP soup subject_code course_id d,
  extract_course_details unescape ATTRIBUTE_MAP soup subject_code course_id = Some d ->
  exists title groups,
    title_line soup = Some title
    /\ re_search catalog_rx (py_strip title) = Some groups
    /\ py_in (catalog_group groups ++ py " - ") (py_strip title) = true
    /\ map fst d =
       [py "course_id"; py "subject"; py "catalog_number"; py "display_name"; py "long_title";
        py "school_code"; py "career_code"; py "units_earned"; py "component_code";
        py "term_offered"; py "all_requirements"; py "corequisites"; py "prerequisites";
        py "anti_requirements"; py "attributes"; py "description"]
    /\ dict_get d (py "course_id") = Some (PStr course_id)
    /\ dict_get d (py "subject") = Some (PStr subject_code)
    /\ dict_get d (py "catalog_number") = Some (PStr (catalog_group groups))
    /\ dict_get d (py "display_name")
       = Some (PStr (subject_code ++ " "%char :: catalog_group groups))
    /\ dict_get d (py "long_title")
       = Some (PStr (py_strip (split_after (catalog_group groups ++ py " - ") (py_strip title)))).
Proof.
  intros unescape AM soup sc cid d H.
  unfold extract_course_details in H.
  destruct (title_line soup) as [title|] eqn:Ht; [|discriminate].
  destruct (re_search catalog_rx (py_strip title)) as [gs|] eqn:Hg; [|discriminate].
  destruct (py_in (catalog_group gs ++ py " - ") (py_strip title)) eqn:Hin; [|discriminate].
  injection H as <-.
  exists title, gs. repeat split; first [assumption | reflexivity].
Qed.

Lemma first_some_app {A B} (f : A -> option B) l1 l2 :
  first_some f (l1 ++ l2)
  = match first_some f l1 with Some y => Some y | None => first_some f l2 end.
Proof.
  induction l1 as [|x l1 IH]; simpl; [reflexivity|].
  destruct (f x); [reflexivity|exact IH].
Qed.

Lemma first_some_none {A B} (f : A -> option B) l :
  first_some f l = None <-> forall x, In x l -> f x = None.
Proof.
  induction l as [|x l IH]; simpl; [tauto|].
  destruct (f x) eqn:E; split.
  - discriminate.
  - intros H. rewrite (H x (or_introl eq_refl)) in E. discriminate.
  - intros H z [<-|Hz]; [exact E|]. apply IH; assumption.
  - intros H. apply IH. intros z Hz. apply H. right. exact Hz.
Qed.

Lemma first_some_split {A B} (f : A -> option B) l y :
  first_some f l = Some y <->
  exists pre x post, l = pre ++ x :: post /\ f x = Some y /\ forall z, In z pre -> f z = None.
Proof.
  induction l as [|x l IH]; simpl.
  - split; [discriminate|]. intros (pre & x & post & Hl & _).
    destruct pre; discriminate.
  - destruct (f x) eqn:E; split.
    + injection 1 as <-. exists [], x, l. split; [reflexivity|]. split; [exact E|intros z []].
    + intros (pre & x' & post & Hl & Hx & Hpre). destruct pre as [|z pre].
      * injection Hl as -> ->. rewrite E in Hx. exact Hx.
      * injection Hl as -> ->. rewrite (Hpre z (or_introl eq_refl)) in E. discriminate.
    + intros H. apply IH in H as (pre & x' & post & -> & Hx & Hpre).
      exists (x :: pre), x', post. split; [reflexivity|]. split; [exact Hx|].
      intros z [<-|Hz]; [exact E|]. apply Hpre, Hz.
    + intros (pre & x' & post & Hl & Hx & Hpre). destruct pre as [|z pre].
      * injection Hl as -> ->. rewrite E in Hx. discriminate.
      * injection Hl as -> ->. apply IH. exists pre, x', post.
        split; [reflexivity|]. split; [exact Hx|]. intros z' Hz'. apply Hpre. right. exact Hz'.
Qed.

Lemma name_value_fold_get : forall rows acc k,
  dict_get (fold_left (fun acc row =>
    match name_value_entry row with
    | Some (key, value) => dict_set acc key value
    | None => acc
    end) rows acc) k
  = match first_some (fun row =>
            match name_value_entry row with
            | Some (k', v) => if str_eqb k k' then Some v else None
            | None => None
            end) (rev rows) with
    | Some v => Some v
    | None => dict_get acc k
    end.
Proof.
  induction rows as [|r rows IH]; intros acc k; [reflexivity|].
  cbn [fold_left rev]. rewrite IH, first_some_app.
  destruct (first_some _ (rev rows)) as [v|]; [reflexivity|].
  cbn [first_some].
  destruct (name_value_entry r) as [[k' v]|]; [|reflexivity].
  destruct (str_eqb k k') eqn:E.
  - apply str_eqb_eq in E. subst. apply dict_get_set_same.
  - apply dict_get_set_other. intros ->. rewrite str_eqb_refl in E. discriminate.
Qed.

Lemma name_value_entry_key : forall row k v,
  match name_value_entry row with
  | Some (k', v') => if str_eqb k k' then Some v' else None
  | None => None
  end = Some v <-> name_value_entry row = Some (k, v).
Proof.
  intros row k v. destruct (name_value_entry row) as [[k' v']|]; [|split; discriminate].
  destruct (str_eqb k k') eqn:E.
  - apply str_eqb_eq in E. subst. split; intros H; injection H as ->; reflexivity.
  - split; [discriminate|]. intros H; injection H as -> ->. rewrite str_eqb_refl in E. discriminate.
Qed.

Lemma name_value_map_get_iff : forall rows k,
  (forall v, dict_get (name_value_map rows) k = Some v <->
     exists pre row post, rows = pre ++ row :: post
       /\ name_value_entry row = Some (k, v)
       /\ forall r, In r post -> forall v', name_value_entry r <> Some (k, v'))
  /\ (dict_get (name_value_map rows) k = None <->
      forall r, In r rows -> forall v, name_value_entry r <> Some (k, v)).
Proof.
  intros rows k. unfold name_value_map. rewrite name_value_fold_get. split.
  - intros v. destruct (first_some _ (rev rows)) as [w|] eqn:E.
    + split.
      * intros H. injection H as <-.
        apply first_some_split in E as (pre & x & post & Hl & Hx & Hpre).
        exists (rev post), x, (rev pre). split.
        { rewrite <- (rev_involutive rows), Hl, rev_app_distr. simpl. rewrite <- app_assoc. reflexivity. }
        split; [apply name_value_entry_key, Hx|].
        intros r Hr v' He. apply in_rev in Hr. specialize (Hpre r Hr).
        rewrite He, str_eqb_refl in Hpre. discriminate.
      * intros (pre & x & post & -> & Hx & Hpost).
        assert (first_some (fun row =>
            match name_value_entry row with
            | Some (k', v) => if str_eqb k k' then Some v else None
            | None => None
            end) (rev (pre ++ x :: post)) = Some v) as E'.
        { apply first_some_split. exists (rev post), x, (rev pre). split.
          { rewrite rev_app_distr. simpl. rewrite <- app_assoc. reflexivity. }
          split; [apply name_value_entry_key, Hx|].
          intros z Hz. apply in_rev in Hz.
          destruct (name_value_entry z) as [[k' w']|] eqn:Ez; [|reflexivity].
          destruct (str_eqb k k') eqn:Ek; [|reflexivity].
          apply str_eqb_eq in Ek. subst. exfalso. apply (Hpost z Hz w' Ez). }
        rewrite E in E'. exact E'.
    + split; [discriminate|].
      intros (pre & x & post & -> & Hx & _).
      assert (In x (rev (pre ++ x :: post))) as Hin.
      { apply in_rev. rewrite rev_involutive. apply in_or_app. right. left. reflexivity. }
      rewrite first_some_none in E. specialize (E x Hin).
      rewrite Hx, str_eqb_refl in E. discriminate.
  - destruct (first_some _ (rev rows)) as [w|] eqn:E; split.
    + discriminate.
    + intros H. apply first_some_some in E as (x & Hx & Hw). apply in_rev in Hx.
      apply name_value_entry_key in Hw. exfalso. apply (H x Hx w Hw).
    + intros _ r Hr v Hv. rewrite first_some_none in E.
      specialize (E r (proj1 (in_rev rows r) Hr)).
      rewrite Hv, str_eqb_refl in E. discriminate.
    + reflexivity.
Qed.

Lemma re_search_some : forall ps s gs,
  re_search ps s = Some gs -> exists pre s' rest, s = pre ++ s' /\ rx_match ps s' = Some (gs, rest).
Proof.
  intros ps. induction s as [|c s IH]; intros gs H; simpl in H.
  - destruct (rx_match ps []) as [[gs' rest]|] eqn:E; [|discriminate].
    injection H as <-. exists [], [], rest. auto.
  - destruct (rx_match ps (c :: s)) as [[gs' rest]|] eqn:E.
    + injection H as <-. exists [], (c :: s), rest. auto.
    + destruct (IH gs H) as (pre & s' & rest & -> & Hm).
      exists (c :: pre), s', rest. auto.
Qed.

Lemma catalog_rx_groups : forall s gs rest,
  rx_rel catalog_rx s gs rest ->
  exists digits letter, gs = [digits; letter]
    /\ rep_ok is_digit 4 (Some 4) digits /\ rep_ok is_upper 0 (Some 1) letter.
Proof.
  intros s gs rest H. unfold catalog_rx in H.
  repeat match goal with
         | Hr : rx_rel (_ :: _) _ _ _ |- _ => inversion Hr; subst; clear Hr
         | Hr : rx_rel [] _ _ _ |- _ => inversion Hr; subst; clear Hr
         end.
  eexists _, _. split; [reflexivity|]. split; assumption.
Qed.

(** [extract_course_details] succeeds only on a page with a title whose
    stripped text contains the catalog number (four digits and at most one
    upper-case letter) followed by " - "; the result carries the given
    course id and subject, that catalog number, the display name
    "<subject> <catalog>" and the stripped text after the first
    "<catalog> - " as long title. *)
Theorem course_details_identity : forall unescape ATTRIBUTE_MAP soup subject_code course_id d,
  extract_course_details unescape ATTRIBUTE_MAP soup subject_code course_id = Some d ->
  exists title digits letter,
    title_line soup = Some title
    /\ List.length digits = 4 /\ forallb is_digit digits = true
    /\ List.length letter <= 1 /\ forallb is_upper letter = true
    /\ py_in (digits ++ letter ++ py " - ") (py_strip title) = true
    /\ dict_get d (py "course_id") = Some (PStr course_id)
    /\ dict_get d (py "subject") = Some (PStr subject_code)
    /\ dict_get d (py "catalog_number") = Some (PStr (digits ++ letter))
    /\ dict_get d (py "display_name") = Some (PStr (subject_code ++ " "%char :: digits ++ letter))
    /\ dict_get d (py "long_title")
       = Some (PStr (py_strip (split_after (digits ++ letter ++ py " - ") (py_strip title)))).
Proof.
  intros unescape AM soup sc cid d H.
  destruct (course_details_some _ _ _ _ _ _ H)
    as (title & gs & Ht & Hg & Hin & _ & Hid & Hsub & Hcat & Hdn & Hlt).
  apply re_search_some in Hg as (pre & s' & rest & _ & Hm).
  apply rx_match_sound, catalog_rx_groups in Hm
    as (digits & letter & -> & (Hd1 & Hd2 & Hd3) & (_ & Hl2 & Hl3)).
  cbn [catalog_group] in *. rewrite <- app_assoc in Hin, Hlt.
  exists title, digits, letter. repeat split; assumption || lia.
Qed.

Lemma course_details_keys_perm : forall unescape ATTRIBUTE_MAP soup subject_code course_id d,
  extract_course_details unescape ATTRIBUTE_MAP soup subject_code course_id = Some d ->
  Permutation (map fst d) csv_keys.
Proof.
  intros unescape AM soup sc cid d H.
  destruct (course_details_some _ _ _ _ _ _ H) as (title & gs & _ & _ & _ & -> & _).
  apply NoDup_Permutation; [nodup_literal|nodup_literal|].
  intros x. unfold csv_keys. cbn [In]. tauto.
Qed.

(** A course record has exactly the 16 columns that [main] gives its
    [DictWriter], each once, so [writerow] never raises on it. *)
Theorem course_details_csv_keys : forall unescape ATTRIBUTE_MAP soup subject_code course_id d,
  extract_course_details unescape ATTRIBUTE_MAP soup subject_code course_id = Some d ->
  Permutation (map fst d) csv_keys
  /\ forall write_row, dict_writer_row write_row csv_keys d = write_row csv_keys d.
Proof.
  intros unescape AM soup sc cid d H. pose proof (course_details_keys_perm _ _ _ _ _ _ H) as Hp.
  split; [exact Hp|]. intros write_row. unfold dict_writer_row.
  rewrite (proj2 (keys_allowed_iff csv_keys d)); [reflexivity|].
  intros k Hk. apply (Permutation_in _ Hp Hk).
Qed.

Lemma course_details_fields : forall unescape ATTRIBUTE_MAP soup subject_code course_id d,
  extract_course_details unescape ATTRIBUTE_MAP soup subject_code course_id = Some d ->
  let detail_map := name_value_map (detail_rows soup) in
  let requirements_text := get_str (name_value_map (enrollment_rows soup)) (py "Requirement") [] in
  dict_get d (py "units_earned") = Some (PStr (py_strip (get_str detail_map (py "Units") (py "0"))))
  /\ dict_get d (py "component_code")
     = Some (opt_str (map_get COMPONENT_MAP (Some (py_strip (re_sub_delete component_note_rx
              (get_str detail_map (py "Components") []))))))
  /\ dict_get d (py "all_requirements")
     = Some (match requirements_text with [] => PNone | _ => PStr requirements_text end)
  /\ dict_get d (py "corequisites")
     = Some (opt_str (extract_requirement_text requirements_text corequisite_kw))
  /\ dict_get d (py "prerequisites")
     = Some (opt_str (extract_requirement_text requirements_text prerequisite_kw))
  /\ dict_get d (py "anti_requirements")
     = Some (opt_str (extract_requirement_text requirements_text antirequisite_kw)).
Proof.
  intros unescape AM soup sc cid d H. unfold extract_course_details in H.
  destruct (title_line soup) as [title|]; [|discriminate].
  destruct (re_search catalog_rx (py_strip title)) as [gs|]; [|discriminate].
  destruct (negb (py_in _ _)); [discriminate|].
  injection H as <-. cbv zeta. repeat split; reflexivity.
Qed.

(** The label/value table built from the detail and enrollment rows maps a
    label to the value cell of the last row with that label (rows without
    a [strong] label or with fewer than two cells are skipped), and has no
    entry for a label no such row carries. *)
Theorem name_value_map_last_row : forall rows k,
  (forall v, dict_get (name_value_map rows) k = Some v <->
     exists pre row post, rows = pre ++ row :: post
       /\ name_value_entry row = Some (k, v)
       /\ forall r, In r post -> forall v', name_value_entry r <> Some (k, v'))
  /\ (dict_get (name_value_map rows) k = None <->
      forall r, In r rows -> forall v, name_value_entry r <> Some (k, v)).
Proof. exact name_value_map_get_iff. Qed.

(** [units_earned] is "0" when no detail row is labelled "Units", and
    otherwise the stripped value of the last such row. *)
Theorem course_details_units : forall unescape ATTRIBUTE_MAP soup subject_code course_id d,
  extract_course_details unescape ATTRIBUTE_MAP soup subject_code course_id = Some d ->
  ((forall r, In r (detail_rows soup) -> forall v, name_value_entry r <> Some (py "Units", v)) ->
     dict_get d (py "units_earned") = Some (PStr (py "0")))
  /\ (forall pre row post v,
        detail_rows soup = pre ++ row :: post ->
        name_value_entry row = Some (py "Units", v) ->
        (forall r, In r post -> forall v', name_value_entry r <> Some (py "Units", v')) ->
        dict_get d (py "units_earned") = Some (PStr (py_strip v))).
Proof.
  intros unescape AM soup sc cid d H.
  destruct (course_details_fields _ _ _ _ _ _ H) as [Hu _]. rewrite Hu.
  destruct (name_value_map_get_iff (detail_rows soup) (py "Units")) as [Hsome Hnone].
  unfold get_str. split.
  - intros Hno. rewrite (proj2 Hnone Hno). reflexivity.
  - intros pre row post v Hrows Hrow Hpost.
    rewrite (proj2 (Hsome v) (ex_intro _ pre (ex_intro _ row (ex_intro _ post
      (conj Hrows (conj Hrow Hpost)))))).
    reflexivity.
Qed.

Lemma re_sub_delete_no_note : forall fuel s,
  ~ In "\"%char s -> re_sub_delete_aux fuel component_note_rx s = s.
Proof.
  induction fuel as [|fuel IH]; intros s Hs; [reflexivity|].
  destruct s as [|c s]; [reflexivity|].
  cbn [re_sub_delete_aux]. unfold component_note_rx. cbn [rx_match].
  destruct (Ascii.eqb_spec "\"%char c) as [<-|Hc].
  - exfalso. apply Hs. left. reflexivity.
  - rewrite IH; [reflexivity|]. intros Hin. apply Hs. right. exact Hin.
Qed.

(** [component_code] is [None] when no detail row is labelled
    "Components"; for a value without a backslash (so that the note
    pattern deletes nothing) it is the [COMPONENT_MAP] entry of the
    stripped value, [None] when it has none. *)
Theorem course_details_component : forall unescape ATTRIBUTE_MAP soup subject_code course_id d,
  extract_course_details unescape ATTRIBUTE_MAP soup subject_code course_id = Some d ->
  (dict_get (name_value_map (detail_rows soup)) (py "Components") = None ->
     dict_get d (py "component_code") = Some PNone)
  /\ (forall v, dict_get (name_value_map (detail_rows soup)) (py "Components") = Some v ->
        ~ In "\"%char v ->
        dict_get d (py "component_code") = Some (opt_str (dict_get COMPONENT_MAP (py_strip v)))).
Proof.
  intros unescape AM soup sc cid d H.
  destruct (course_details_fields _ _ _ _ _ _ H) as [_ [Hc _]]. rewrite Hc.
  unfold get_str. split.
  - intros ->. reflexivity.
  - intros v -> Hv. unfold re_sub_delete. rewrite re_sub_delete_no_note by exact Hv.
    reflexivity.
Qed.

(** With an empty or missing "Requirement" value all four requirement
    fields are [None]; otherwise [all_requirements] is that text. *)
Theorem course_details_requirements : forall unescape ATTRIBUTE_MAP soup subject_code course_id d,
  extract_course_details unescape ATTRIBUTE_MAP soup subject_code course_id = Some d ->
  let requirements_text := get_str (name_value_map (enrollment_rows soup)) (py "Requirement") [] in
  (requirements_text = [] ->
     dict_get d (py "all_requirements") = Some PNone
     /\ dict_get d (py "corequisites") = Some PNone
     /\ dict_get d (py "prerequisites") = Some PNone
     /\ dict_get d (py "anti_requirements") = Some PNone)
  /\ (requirements_text <> [] ->
      dict_get d (py "all_requirements") = Some (PStr requirements_text)).
Proof.
  intros unescape AM soup sc cid d H.
  destruct (course_details_fields _ _ _ _ _ _ H) as (_ & _ & Ha & Hco & Hpre & Hanti).
  cbv zeta in *. split.
  - intros He. rewrite Ha, Hco, Hpre, Hanti, He. repeat split; reflexivity.
  - intros Hne. rewrite Ha.
    destruct (get_str _ (py "Requirement") []); [contradiction|reflexivity].
Qed.

Lemma scan_catalog_rows : forall search_get detail_get extract subject_map row,
  In row (scan_catalog search_get detail_get extract subject_map) ->
  exists subject_name subject_code course_id offer_num detail_text,
    In (subject_name, subject_code) subject_map
    /\ detail_get course_id offer_num = Ok detail_text
    /\ extract detail_text subject_code course_id = Ok (Some row).
Proof.
  intros sg dg ecd sm row H. unfold scan_catalog in H.
  apply in_flat_map in H as ([name code] & Hin & Hrow).
  unfold scan_subject in Hrow.
  destruct (sg name) as [text|e]; cbn [pybind try_except] in Hrow; [|contradiction].
  destruct (py_in _ text); [contradiction|].
  apply in_flat_map in Hrow as ([[[cid off] ns] vc] & _ & Hc).
  unfold candidate_rows in Hc. destruct (negb _); [contradiction|].
  unfold process_candidate in Hc.
  destruct (dg cid off) as [t|e] eqn:Hdg; cbn [pybind try_except] in Hc; [|contradiction].
  destruct (ecd t code cid) as [[dd|]|e] eqn:He; cbn [pybind try_except] in Hc; try contradiction.
  destruct (py_truthy (PDict dd)); [|contradiction].
  destruct Hc as [<-|[]].
  exists name, code, cid, off, t. auto.
Qed.

(** Every row that the catalog scan of [main] collects has exactly the
    columns of the CSV writer, and its subject is a code of the subject
    map that was scanned. *)
Theorem catalog_rows_csv_keys : forall search_get detail_get parse unescape ATTRIBUTE_MAP
    subject_map row,
  In row (scan_catalog search_get detail_get
            (fun html subject_code course_id =>
               Ok (extract_course_details unescape ATTRIBUTE_MAP (parse html) subject_code course_id))
            subject_map) ->
  Permutation (map fst row) csv_keys
  /\ (forall write_row, dict_writer_row write_row csv_keys row = write_row csv_keys row)
  /\ exists subject_name subject_code, In (subject_name, subject_code) subject_map
       /\ dict_get row (py "subject") = Some (PStr subject_code).
Proof.
  intros sg dg parse unescape AM sm row H.
  apply scan_catalog_rows in H as (name & code & cid & off & t & Hin & _ & He).
  injection He as He.
  pose proof (course_details_keys_perm _ _ _ _ _ _ He) as Hp.
  split; [exact Hp|]. split.
  - intros write_row. unfold dict_writer_row.
    rewrite (proj2 (keys_allowed_iff csv_keys row)); [reflexivity|].
    intros k Hk. apply (Permutation_in _ Hp Hk).
  - destruct (course_details_some _ _ _ _ _ _ He) as (_ & _ & _ & _ & _ & _ & _ & Hs & _).
    exists name, code. auto.
Qed.

Lemma first_some_rev_split {A B} (f : A -> option B) l y :
  first_some f (rev l) = Some y <->
  exists pre x post, l = pre ++ x :: post /\ f x = Some y /\ forall z, In z post -> f z = None.
Proof.
  rewrite first_some_split. split.
  - intros (pre & x & post & Hl & Hx & Hpre). exists (rev post), x, (rev pre).
    split; [|split; [exact Hx|intros z Hz; apply Hpre, in_rev, Hz]].
    rewrite <- (rev_involutive l), Hl, rev_app_distr. simpl. rewrite <- app_assoc. reflexivity.
  - intros (pre & x & post & -> & Hx & Hpost). exists (rev post), x, (rev pre).
    split; [|split; [exact Hx|intros z Hz; apply Hpost, in_rev, Hz]].
    rewrite rev_app_distr. simpl. rewrite <- app_assoc. reflexivity.
Qed.

Lemma first_some_rev_none {A B} (f : A -> option B) l :
  first_some f (rev l) = None <-> forall x, In x l -> f x = None.
Proof.
  rewrite first_some_none. split; intros H x Hx; apply H.
  - rewrite <- in_rev. exact Hx.
  - rewrite in_rev. exact Hx.
Qed.

Section ClassDetailFacts.
Variable py_float : str -> pyres pyval.

Lemma class_detail_rows_field :
  forall (proj : details_state -> pyval) (label : str) (conv : str -> pyval),
  (forall st tds st', class_detail_step py_float st tds = Ok st' ->
     proj st' = match tds with
                | a :: b :: _ => if str_eqb (remove_colons a) label then conv b else proj st
                | _ => proj st
                end) ->
  forall rows st st', class_detail_rows py_float st rows = Ok st' ->
  proj st' = match first_some (fun tds => match tds with
                                          | a :: b :: _ =>
                                              if str_eqb (remove_colons a) label
                                              then Some b else None
                                          | _ => None
                                          end) (rev rows) with
             | Some v => conv v
             | None => proj st
             end.
Proof.
  intros proj label conv Hstep rows. induction rows as [|tds rows IH]; intros st st' H.
  - injection H as <-. reflexivity.
  - cbn [class_detail_rows] in H.
    destruct (class_detail_step py_float st tds) as [st1|e] eqn:E; cbn [pybind] in H;
      [|discriminate].
    rewrite (IH st1 st' H). cbn [rev]. rewrite first_some_app.
    destruct (first_some _ (rev rows)); [reflexivity|].
    rewrite (Hstep _ _ _ E). cbn [first_some].
    destruct tds as [|a [|b rest]]; [reflexivity|reflexivity|].
    destruct (str_eqb (remove_colons a) label); reflexivity.
Qed.

Lemma class_detail_rows_total :
  (forall s e, py_float s = Raise e -> e = ValueError) ->
  forall rows st, exists st', class_detail_rows py_float st rows = Ok st'.
Proof.
  intros Hf rows. induction rows as [|tds rows IH]; intros st; [eexists; reflexivity|].
  cbn [class_detail_rows].
  assert (exists st1, class_detail_step py_float st tds = Ok st1) as [st1 ->].
  { destruct st as [[[school career] component] hours].
    unfold class_detail_step. destruct tds as [|a [|b rest]]; try (eexists; reflexivity).
    destruct (str_eqb _ (py "School")); [eexists; reflexivity|].
    destruct (str_eqb _ (py "Career")); [eexists; reflexivity|].
    destruct (str_eqb _ (py "Component")); [eexists; reflexivity|].
    destruct (str_eqb _ (py "Hours")); [|eexists; reflexivity].
    unfold try_value_error. destruct (py_float b) as [x|e] eqn:E; [eexists; reflexivity|].
    rewrite (Hf _ _ E). eexists; reflexivity. }
  apply IH.
Qed.


Ltac step_field_cases :=
  let s := fresh "school" in let c := fresh "career" in
  let m := fresh "component" in let h := fresh "hours" in
  let a := fresh "a" in let b := fresh "b" in let rest := fresh "rest" in
  let x := fresh "x" in let H := fresh "H" in
  let E1 := fresh "E" in let E2 := fresh "E" in let E3 := fresh "E" in let E4 := fresh "E" in
  intros [[[s c] m] h] tds st' H; unfold class_detail_step in H;
  destruct tds as [|a [|b rest]]; [injection H as <-; reflexivity|injection H as <-; reflexivity|];
  generalize dependent (remove_colons a); intros x H;
  destruct (str_eqb x (py "School")) eqn:E1;
  [apply str_eqb_eq in E1; subst x; injection H as <-; reflexivity|];
  destruct (str_eqb x (py "Career")) eqn:E2;
  [apply str_eqb_eq in E2; subst x; injection H as <-; reflexivity|];
  destruct (str_eqb x (py "Component")) eqn:E3;
  [apply str_eqb_eq in E3; subst x; injection H as <-; reflexivity|];
  destruct (str_eqb x (py "Hours")) eqn:E4;
  [apply str_eqb_eq in E4; subst x; cbn [str_eqb py list_ascii_of_string] in *;
   unfold try_value_error in H;
   destruct (py_float b) as [?|[]]; cbn [pybind] in H; try discriminate;
   injection H as <-; reflexivity
  |injection H as <-; rewrite ?E1, ?E2, ?E3, ?E4; reflexivity].

Lemma class_detail_step_school : forall st tds st',
  class_detail_step py_float st tds = Ok st' ->
  fst (fst (fst st')) = match tds with
    | a :: b :: _ => if str_eqb (remove_colons a) (py "School")
                     then opt_str (map_get SCHOOL_MAP (Some b)) else fst (fst (fst st))
    | _ => fst (fst (fst st))
    end.
Proof. step_field_cases. Qed.

Lemma class_detail_step_career : forall st tds st',
  class_detail_step py_float st tds = Ok st' ->
  snd (fst (fst st')) = match tds with
    | a :: b :: _ => if str_eqb (remove_colons a) (py "Career")
                     then opt_str (map_get CAREER_MAP (Some b)) else snd (fst (fst st))
    | _ => snd (fst (fst st))
    end.
Proof. step_field_cases. Qed.

Lemma class_detail_step_component : forall st tds st',
  class_detail_step py_float st tds = Ok st' ->
  snd (fst st') = match tds with
    | a :: b :: _ => if str_eqb (remove_colons a) (py "Component")
                     then opt_str (map_get COMPONENT_MAP (Some b)) else snd (fst st)
    | _ => snd (fst st)
    end.
Proof. step_field_cases. Qed.

Lemma class_detail_step_hours : forall st tds st',
  class_detail_step py_float st tds = Ok st' ->
  snd st' = match tds with
    | a :: b :: _ => if str_eqb (remove_colons a) (py "Hours")
                     then match py_float b with Ok v => v | Raise _ => PNone end else snd st
    | _ => snd st
    end.
Proof. step_field_cases. Qed.

End ClassDetailFacts.

Lemma last_label_value : forall (label : str) (rows : list (list str)) (x : pyval)
    (conv : str -> pyval) (default : pyval),
  x = match first_some (fun tds => match tds with
                                   | a :: b :: _ =>
                                       if str_eqb (remove_colons a) label then Some b else None
                                   | _ => None
                                   end) (rev rows) with
      | Some v => conv v
      | None => default
      end ->
  ((forall r, In r rows -> forall a b c, r = a :: b :: c -> remove_colons a <> label) ->
     x = default)
  /\ (forall pre a b c post, rows = pre ++ (a :: b :: c) :: post -> remove_colons a = label ->
        (forall r, In r post -> forall a' b' c', r = a' :: b' :: c' -> remove_colons a' <> label) ->
        x = conv b).
Proof.
  intros label rows x conv default ->. split.
  - intros H.
    rewrite (proj2 (first_some_rev_none _ rows)); [reflexivity|].
    intros r Hr. destruct r as [|a [|b c]]; [reflexivity|reflexivity|].
    destruct (str_eqb (remove_colons a) label) eqn:E; [|reflexivity].
    apply str_eqb_eq in E. exfalso. exact (H _ Hr a b c eq_refl E).
  - intros pre a b c post Hrows Ha Hpost.
    rewrite (proj2 (first_some_rev_split _ rows b)); [reflexivity|].
    exists pre, (a :: b :: c), post. split; [exact Hrows|]. split.
    + rewrite Ha, str_eqb_refl. reflexivity.
    + intros r Hr. destruct r as [|a' [|b' c']]; [reflexivity|reflexivity|].
      destruct (str_eqb (remove_colons a') label) eqn:E; [|reflexivity].
      apply str_eqb_eq in E. exfalso. exact (Hpost _ Hr a' b' c' eq_refl E).
Qed.

(** When the section page has a details panel and the float conversion
    only raises [ValueError], [extract_class_details] returns a record
    whose school, career, component and hours fields come from the last
    row with that label (converted by the code maps, or by [float] with
    [None] on failure) and are [None] when there is no such row. *)
Theorem class_details_last_row : forall py_float soup rows,
  (forall s e, py_float s = Raise e -> e = ValueError) ->
  detail_panel soup = Some rows ->
  exists d, extract_class_details py_float soup = Ok d
  /\ forall label key conv,
       In (label, key, conv)
         [(py "School", py "school_code", fun v => opt_str (map_get SCHOOL_MAP (Some v)));
          (py "Career", py "career_code", fun v => opt_str (map_get CAREER_MAP (Some v)));
          (py "Component", py "component_code", fun v => opt_str (map_get COMPONENT_MAP (Some v)));
          (py "Hours", py "units_earned", fun v => match py_float v with
                                                   | Ok x => x
                                                   | Raise _ => PNone
                                                   end)] ->
       ((forall r, In r rows -> forall a b c, r = a :: b :: c -> remove_colons a <> label) ->
          dict_get d key = Some PNone)
       /\ (forall pre a b c post, rows = pre ++ (a :: b :: c) :: post ->
             remove_colons a = label ->
             (forall r, In r post -> forall a' b' c', r = a' :: b' :: c' ->
                remove_colons a' <> label) ->
             dict_get d key = Some (conv b)).
Proof.
  intros py_float soup rows Hf Hp.
  destruct (class_detail_rows_total py_float Hf rows (PNone, PNone, PNone, PNone))
    as [st Hst].
  pose proof (class_detail_rows_field py_float _ _ _ (class_detail_step_school py_float)
                rows _ _ Hst) as Hs.
  pose proof (class_detail_rows_field py_float _ _ _ (class_detail_step_career py_float)
                rows _ _ Hst) as Hc.
  pose proof (class_detail_rows_field py_float _ _ _ (class_detail_step_component py_float)
                rows _ _ Hst) as Hm.
  pose proof (class_detail_rows_field py_float _ _ _ (class_detail_step_hours py_float)
                rows _ _ Hst) as Hh.
  destruct st as [[[school career] component] hours]. cbn [fst snd] in Hs, Hc, Hm, Hh.
  eexists. split.
  { unfold extract_class_details. rewrite Hp, Hst. cbn [pybind]. reflexivity. }
  intros label key conv Hin.
  cbn [In] in Hin. destruct Hin as [E|[E|[E|[E|[]]]]]; injection E as <- <- <-.
  - destruct (last_label_value _ _ _ _ _ Hs) as [H1 H2].
    split; intros; transitivity (Some school); try reflexivity; f_equal;
      [apply H1; assumption|eapply H2; eassumption].
  - destruct (last_label_value _ _ _ _ _ Hc) as [H1 H2].
    split; intros; transitivity (Some career); try reflexivity; f_equal;
      [apply H1; assumption|eapply H2; eassumption].
  - destruct (last_label_value _ _ _ _ _ Hm) as [H1 H2].
    split; intros; transitivity (Some component); try reflexivity; f_equal;
      [apply H1; assumption|eapply H2; eassumption].
  - destruct (last_label_value _ _ _ _ _ Hh) as [H1 H2].
    split; intros; transitivity (Some hours); try reflexivity; f_equal;
      [apply H1; assumption|eapply H2; eassumption].
Qed.

(* ---------- group C ---------- *)

Lemma in_keys_dict_set {V} : forall (d : pydict V) k v k',
  In k' (map fst (dict_set d k v)) <-> k' = k \/ In k' (map fst d).
Proof.
  induction d as [|[k0 v0] d IH]; intros k v k'; simpl; [split; intros [H|[]]; left; symmetry; exact H|].
  destruct (str_eqb k k0) eqn:E; simpl.
  - apply str_eqb_eq in E. subst. intuition congruence.
  - rewrite IH. intuition congruence.
Qed.

Lemma dict_set_nodup {V} : forall (d : pydict V) k v,
  NoDup (map fst d) -> NoDup (map fst (dict_set d k v)).
Proof.
  induction d as [|[k0 v0] d IH]; intros k v Hnd; simpl.
  - constructor; [intros []|constructor].
  - simpl in Hnd. inversion Hnd as [|? ? Hn Hnd']; subst.
    destruct (str_eqb k k0) eqn:E; simpl.
    + constructor; assumption.
    + constructor; [|apply IH, Hnd'].
      rewrite in_keys_dict_set. intros [->|H]; [|contradiction].
      rewrite str_eqb_refl in E. discriminate.
Qed.

Lemma in_dict_set {V} : forall (d : pydict V) k v k' v',
  In (k', v') (dict_set d k v) -> (k', v') = (k, v) \/ In (k', v') d.
Proof.
  induction d as [|[k0 v0] d IH]; intros k v k' v' H; simpl in H.
  - destruct H as [H|[]]. left. symmetry. exact H.
  - destruct (str_eqb k k0) eqn:E; simpl in H.
    + apply str_eqb_eq in E. subst. destruct H as [H|H]; [left; congruence|right; right; exact H].
    + destruct H as [H|H]; [right; left; exact H|].
      destruct (IH _ _ _ _ H); [left|right; right]; assumption.
Qed.

Section DictFold.
Context {A V : Type}.
Variable entry : A -> option (str * V).

Lemma dict_fold_get : forall xs (acc : pydict V) k,
  dict_get (fold_left (fun acc x =>
    match entry x with Some (k', v) => dict_set acc k' v | None => acc end) xs acc) k
  = match first_some (fun x =>
            match entry x with
            | Some (k', v) => if str_eqb k k' then Some v else None
            | None => None
            end) (rev xs) with
    | Some v => Some v
    | None => dict_get acc k
    end.
Proof.
  induction xs as [|x xs IH]; intros acc k; [reflexivity|].
  cbn [fold_left rev]. rewrite IH, first_some_app.
  destruct (first_some _ (rev xs)) as [v|]; [reflexivity|].
  cbn [first_some].
  destruct (entry x) as [[k' v]|]; [|reflexivity].
  destruct (str_eqb k k') eqn:E.
  - apply str_eqb_eq in E. subst. apply dict_get_set_same.
  - apply dict_get_set_other. intros ->. rewrite str_eqb_refl in E. discriminate.
Qed.

Lemma dict_fold_nodup : forall xs (acc : pydict V),
  NoDup (map fst acc) ->
  NoDup (map fst (fold_left (fun acc x =>
    match entry x with Some (k', v) => dict_set acc k' v | None => acc end) xs acc)).
Proof.
  induction xs as [|x xs IH]; intros acc H; [exact H|].
  cbn [fold_left]. apply IH. destruct (entry x) as [[k v]|]; [apply dict_set_nodup|]; exact H.
Qed.

Lemma dict_fold_in : forall xs (acc : pydict V) k v,
  In (k, v) (fold_left (fun acc x =>
    match entry x with Some (k', v) => dict_set acc k' v | None => acc end) xs acc) ->
  In (k, v) acc \/ exists x, In x xs /\ entry x = Some (k, v).
Proof.
  induction xs as [|x xs IH]; intros acc k v H; [left; exact H|].
  cbn [fold_left] in H. destruct (IH _ _ _ H) as [H'|(y & Hy & Hey)].
  - destruct (entry x) as [[k' v']|] eqn:E; [|left; exact H'].
    destruct (in_dict_set _ _ _ _ _ H') as [Heq|H''].
    + injection Heq as -> ->. right. exists x. split; [left; reflexivity|exact E].
    + left. exact H''.
  - right. exists y. split; [right; exact Hy|exact Hey].
Qed.

End DictFold.

Lemma fold_left_ext' {A B} (f g : A -> B -> A) : forall l a,
  (forall a b, f a b = g a b) -> fold_left f l a = fold_left g l a.
Proof.
  induction l as [|x l IH]; intros a H; [reflexivity|]. simpl. rewrite H. apply IH, H.
Qed.

Lemma extract_subject_mappings_fold : forall containers,
  extract_subject_mappings (Ok containers)
  = fold_left (fun acc x =>
      match (match x with
             | Some (Some title, Some value) =>
                 if py_truthy (PStr title) && py_truthy (PStr value)
                 then Some (title, value) else None
             | _ => None
             end) with
      | Some (k', v) => dict_set acc k' v
      | None => acc
      end) containers [].
Proof.
  intros containers. apply fold_left_ext'.
  intros acc [[[t|] [v|]]|]; try reflexivity.
  destruct (py_truthy (PStr t) && py_truthy (PStr v)); reflexivity.
Qed.

(** [extract_subject_mappings] returns an empty map when the file cannot
    be read; otherwise its keys are distinct, titles and codes are never
    empty, and a title maps to the code of its last container with a
    non-empty title and code. *)
Theorem subject_mappings_last_wins :
  (forall e, extract_subject_mappings (Raise e) = [])
  /\ forall containers,
     NoDup (map fst (extract_subject_mappings (Ok containers)))
     /\ (forall title value, In (title, value) (extract_subject_mappings (Ok containers)) ->
           title <> [] /\ value <> [])
     /\ (forall title value,
           dict_get (extract_subject_mappings (Ok containers)) title = Some value <->
           exists pre post, containers = pre ++ Some (Some title, Some value) :: post
             /\ title <> [] /\ value <> []
             /\ forall value', In (Some (Some title, Some value')) post -> value' = []).
Proof.
  split; [reflexivity|]. intros containers. rewrite extract_subject_mappings_fold.
  split; [apply dict_fold_nodup; constructor|]. split.
  - intros title value H. apply dict_fold_in in H as [[]|(x & _ & Hx)].
    destruct x as [[[t|] [v|]]|]; try discriminate.
    destruct t as [|ct t]; [discriminate|]. destruct v as [|cv v]; [discriminate|].
    injection Hx as <- <-. split; discriminate.
  - intros title value. rewrite dict_fold_get. cbv beta. split.
    + match goal with |- context [match ?t with Some v => Some v | None => _ end] => destruct t as [w|] eqn:E end; [|intros Hc; simpl in Hc; discriminate Hc].
      intros Hw. injection Hw as <-.
      apply first_some_rev_split in E as (pre & x & post & Hl & Hx & Hpost).
      destruct x as [[[t|] [v|]]|]; try discriminate.
      destruct t as [|ct t]; [discriminate|]. destruct v as [|cv v]; [discriminate|].
      cbn [py_truthy length Nat.eqb negb andb] in Hx.
      destruct (str_eqb title (ct :: t)) eqn:Et; [|discriminate].
      apply str_eqb_eq in Et. subst title. injection Hx as <-.
      exists pre, post. split; [exact Hl|]. split; [discriminate|]. split; [discriminate|].
      intros value' Hin. specialize (Hpost _ Hin).
      destruct value' as [|cv' value']; [reflexivity|].
      cbn [py_truthy length Nat.eqb negb andb] in Hpost. rewrite str_eqb_refl in Hpost.
      discriminate.
    + intros (pre & post & Hl & Ht & Hv & Hpost).
      rewrite (proj2 (first_some_rev_split _ containers value)); [reflexivity|].
      exists pre, (Some (Some title, Some value)), post. split; [exact Hl|]. split.
      * destruct title as [|ct t]; [contradiction|]. destruct value as [|cv v]; [contradiction|].
        cbn [py_truthy length Nat.eqb negb andb]. rewrite str_eqb_refl. reflexivity.
      * intros z Hz. destruct z as [[[t|] [v|]]|]; try reflexivity.
        destruct (py_truthy (PStr t) && py_truthy (PStr v)) eqn:Etv; [|reflexivity].
        destruct (str_eqb title t) eqn:Et; [|reflexivity].
        apply str_eqb_eq in Et. subst t. rewrite (Hpost v Hz) in Etv.
        rewrite andb_false_r in Etv. discriminate.
Qed.

Lemma nat_of_ascii_inj : forall x y, nat_of_ascii x = nat_of_ascii y -> x = y.
Proof.
  intros x y H. rewrite <- (ascii_nat_embedding x), <- (ascii_nat_embedding y), H.
  reflexivity.
Qed.

Lemma str_ltb_irrefl : forall a, str_ltb a a = false.
Proof.
  induction a as [|x a IH]; [reflexivity|]. simpl.
  rewrite Nat.ltb_irrefl, Nat.eqb_refl. exact IH.
Qed.

Lemma str_ltb_asym : forall a b, str_ltb a b = true -> str_ltb b a = false.
Proof.
  induction a as [|x a IH]; intros [|y b] H; simpl in *; try reflexivity; try discriminate.
  destruct (Nat.ltb_spec (nat_of_ascii x) (nat_of_ascii y));
  destruct (Nat.ltb_spec (nat_of_ascii y) (nat_of_ascii x)); try lia.
  - rewrite (proj2 (Nat.eqb_neq _ _)) by lia. reflexivity.
  - rewrite (proj2 (Nat.eqb_neq (nat_of_ascii x) (nat_of_ascii y))) in H by lia.
    discriminate.
  - assert (nat_of_ascii x = nat_of_ascii y) as Hxy by lia.
    rewrite Hxy, Nat.eqb_refl in *. apply IH, H.
Qed.

Lemma str_ltb_total : forall a b, a <> b -> str_ltb a b = false -> str_ltb b a = true.
Proof.
  induction a as [|x a IH]; intros [|y b] Hne H; simpl in *; try reflexivity;
    try discriminate; try (exfalso; apply Hne; reflexivity).
  destruct (Nat.ltb_spec (nat_of_ascii x) (nat_of_ascii y)); [discriminate|].
  destruct (Nat.ltb_spec (nat_of_ascii y) (nat_of_ascii x)); [reflexivity|].
  assert (nat_of_ascii x = nat_of_ascii y) as Hxy by lia.
  rewrite Hxy, Nat.eqb_refl in *. apply IH; [|exact H].
  intros ->. apply Hne. rewrite (nat_of_ascii_inj _ _ Hxy). reflexivity.
Qed.

Lemma item_ltb_asym : forall p q, item_ltb p q = true -> item_ltb q p = false.
Proof.
  intros [t1 v1] [t2 v2]. unfold item_ltb. cbn [fst snd].
  intros H. apply orb_true_iff in H as [H|H].
  - rewrite (str_ltb_asym _ _ H).
    destruct (str_eqb t2 t1) eqn:E; [|reflexivity].
    apply str_eqb_eq in E. subst. rewrite str_ltb_irrefl in H. discriminate.
  - apply andb_true_iff in H as [E H]. apply str_eqb_eq in E. subst.
    rewrite str_ltb_irrefl, (str_ltb_asym _ _ H), andb_false_r. reflexivity.
Qed.

Lemma insert_item_perm : forall x l, Permutation (insert_item x l) (x :: l).
Proof.
  intros x l. induction l as [|y l IH]; simpl; [reflexivity|].
  destruct (item_ltb x y); [reflexivity|].
  rewrite IH. apply perm_swap.
Qed.

Lemma sorted_items_fold_perm : forall l acc,
  Permutation (fold_left (fun acc x => insert_item x acc) l acc) (l ++ acc).
Proof.
  induction l as [|x l IH]; intros acc; [reflexivity|]. simpl.
  rewrite IH, insert_item_perm. symmetry. apply Permutation_middle.
Qed.

Lemma sorted_items_perm : forall m, Permutation (sorted_items m) m.
Proof.
  intros m. unfold sorted_items. rewrite sorted_items_fold_perm, app_nil_r. reflexivity.
Qed.

Lemma insert_item_sorted : forall x l,
  Sorted (fun p q => item_ltb q p = false) l ->
  Sorted (fun p q => item_ltb q p = false) (insert_item x l).
Proof.
  intros x l. induction l as [|y l IH]; intros H; simpl.
  - repeat constructor.
  - destruct (item_ltb x y) eqn:E.
    + constructor; [exact H|]. constructor. apply item_ltb_asym, E.
    + apply Sorted_inv in H as [Hl Hhd]. constructor; [apply IH, Hl|].
      destruct l as [|z l]; simpl.
      * constructor. exact E.
      * destruct (item_ltb x z); constructor; [exact E|]. inversion Hhd; assumption.
Qed.

Lemma sorted_items_sorted : forall m,
  Sorted (fun p q => item_ltb q p = false) (sorted_items m).
Proof.
  intros m. unfold sorted_items.
  assert (forall l acc, Sorted (fun p q => item_ltb q p = false) acc ->
            Sorted (fun p q => item_ltb q p = false)
              (fold_left (fun acc x => insert_item x acc) l acc)) as H.
  { induction l as [|x l IH]; intros acc Hacc; [exact Hacc|].
    simpl. apply IH, insert_item_sorted, Hacc. }
  apply H. constructor.
Qed.

Lemma sorted_distinct_titles : forall l,
  Sorted (fun p q => item_ltb q p = false) l -> NoDup (map fst l) ->
  Sorted (fun p q => str_ltb (fst p) (fst q) = true) l.
Proof.
  induction l as [|p l IH]; intros Hs Hnd; [constructor|].
  apply Sorted_inv in Hs as [Hs Hhd]. simpl in Hnd. inversion Hnd as [|? ? Hn Hnd']; subst.
  constructor; [apply IH; assumption|].
  destruct l as [|q l]; constructor.
  inversion Hhd as [|? ? Hq]; subst. unfold item_ltb in Hq.
  apply orb_false_iff in Hq as [Hq _]. apply str_ltb_total; [|exact Hq].
  intros Heq. apply Hn. simpl. left. exact Heq.
Qed.

Lemma mapping_lines_nth : forall items i0 n k title value,
  nth_error items k = Some (title, value) ->
  nth_error (mapping_lines i0 n items) k
  = Some (mapping_line title value (if Nat.ltb (i0 + k) (n - 1) then py "," else [])).
Proof.
  induction items as [|[t v] items IH]; intros i0 n k title value H;
    [destruct k; discriminate|].
  destruct k as [|k]; simpl in H |- *.
  - injection H as <- <-. rewrite Nat.add_0_r. reflexivity.
  - rewrite (IH (S i0) n k title value H). rewrite Nat.add_succ_r. reflexivity.
Qed.

Lemma mapping_lines_length : forall items i0 n,
  List.length (mapping_lines i0 n items) = List.length items.
Proof.
  induction items as [|[t v] items IH]; intros i0 n; simpl; [reflexivity|].
  rewrite IH. reflexivity.
Qed.

Lemma extract_subject_mappings_nodup : forall read,
  NoDup (map fst (extract_subject_mappings read)).
Proof.
  intros [containers|e]; [|constructor].
  rewrite extract_subject_mappings_fold. apply dict_fold_nodup. constructor.
Qed.

(** [save_mappings_to_file] writes the mappings sorted strictly by title
    (a permutation of the extracted map), one line per entry between
    "SUBJECT_MAP = {" and "}", with a comma after every line but the
    last. *)
Theorem mapping_file_entries : forall read,
  let mappings := extract_subject_mappings read in
  let items := sorted_items mappings in
  Permutation items mappings
  /\ Sorted (fun p q => str_ltb (fst p) (fst q) = true) items
  /\ exists header lines,
       mapping_file_chunks mappings
       = header ++ [py "SUBJECT_MAP = {" ++ [newline]] ++ lines ++ [py "}" ++ [newline]]
       /\ List.length lines = List.length items
       /\ forall i title value, nth_error items i = Some (title, value) ->
            nth_error lines i
            = Some (mapping_line title value
                      (if Nat.eqb (S i) (List.length items) then [] else py ",")).
Proof.
  intros read mappings items.
  assert (Hp : Permutation items mappings) by apply sorted_items_perm.
  split; [exact Hp|]. split.
  - apply sorted_distinct_titles; [apply sorted_items_sorted|].
    apply (Permutation_NoDup (Permutation_map fst (Permutation_sym Hp))).
    apply extract_subject_mappings_nodup.
  - exists (firstn 5 (mapping_file_chunks mappings)), (mapping_lines 0 (List.length items) items).
    split; [reflexivity|].
    split; [apply mapping_lines_length|].
    intros i title value H. rewrite (mapping_lines_nth _ _ _ _ _ _ H).
    assert (Hi : i < List.length items) by (apply nth_error_Some; congruence).
    destruct (Nat.eqb_spec (S i) (List.length items));
      destruct (Nat.ltb_spec (0 + i) (List.length items - 1)); try lia; reflexivity.
Qed.








(* ---------- witnesses ---------- *)

Lemma course_details_identity_witness :
  exists d,
    extract_course_details (fun s => s) [] sample_course_soup (py "CS") (py "123") = Some d
    /\ exists title digits letter,
    title_line sample_course_soup = Some title
    /\ List.length digits = 4 /\ forallb is_digit digits = true
    /\ List.length letter <= 1 /\ forallb is_upper letter = true
    /\ py_in (digits ++ letter ++ py " - ") (py_strip title) = true
    /\ dict_get d (py "course_id") = Some (PStr (py "123"))
    /\ dict_get d (py "subject") = Some (PStr (py "CS"))
    /\ dict_get d (py "catalog_number") = Some (PStr (digits ++ letter))
    /\ dict_get d (py "display_name") = Some (PStr (py "CS" ++ " "%char :: digits ++ letter))
    /\ dict_get d (py "long_title")
       = Some (PStr (py_strip (split_after (digits ++ letter ++ py " - ") (py_strip title)))).
Proof.
  assert (E : extract_course_details (fun s => s) [] sample_course_soup (py "CS") (py "123")
              = Some (match extract_course_details (fun s => s) [] sample_course_soup
                              (py "CS") (py "123") with Some d => d | None => [] end))
    by (vm_compute; reflexivity).
  eexists. split; [exact E|].
  exact (course_details_identity (fun s => s) [] sample_course_soup (py "CS") (py "123") _ E).
Defined.

Lemma course_details_csv_keys_witness :
  exists d,
    extract_course_details (fun s => s) [] sample_course_soup (py "CS") (py "123") = Some d
    /\ Permutation (map fst d) csv_keys
    /\ forall write_row, dict_writer_row write_row csv_keys d = write_row csv_keys d.
Proof.
  assert (E : extract_course_details (fun s => s) [] sample_course_soup (py "CS") (py "123")
              = Some (match extract_course_details (fun s => s) [] sample_course_soup
                              (py "CS") (py "123") with Some d => d | None => [] end))
    by (vm_compute; reflexivity).
  eexists. split; [exact E|].
  exact (course_details_csv_keys (fun s => s) [] sample_course_soup (py "CS") (py "123") _ E).
Defined.

Lemma course_details_units_witness :
  exists d,
    extract_course_details (fun s => s) [] sample_course_soup (py "CS") (py "123") = Some d
    /\ ((forall r, In r (detail_rows sample_course_soup) ->
           forall v, name_value_entry r <> Some (py "Units", v)) ->
          dict_get d (py "units_earned") = Some (PStr (py "0")))
    /\ (forall pre row post v,
          detail_rows sample_course_soup = pre ++ row :: post ->
          name_value_entry row = Some (py "Units", v) ->
          (forall r, In r post -> forall v', name_value_entry r <> Some (py "Units", v')) ->
          dict_get d (py "units_earned") = Some (PStr (py_strip v))).
Proof.
  assert (E : extract_course_details (fun s => s) [] sample_course_soup (py "CS") (py "123")
              = Some (match extract_course_details (fun s => s) [] sample_course_soup
                              (py "CS") (py "123") with Some d => d | None => [] end))
    by (vm_compute; reflexivity).
  eexists. split; [exact E|].
  exact (course_details_units (fun s => s) [] sample_course_soup (py "CS") (py "123") _ E).
Defined.

Lemma course_details_component_witness :
  exists d,
    extract_course_details (fun s => s) [] sample_course_soup (py "CS") (py "123") = Some d
    /\ (dict_get (name_value_map (detail_rows sample_course_soup)) (py "Components") = None ->
          dict_get d (py "component_code") = Some PNone)
    /\ (forall v, dict_get (name_value_map (detail_rows sample_course_soup)) (py "Components")
                  = Some v ->
          ~ In "\"%char v ->
          dict_get d (py "component_code") = Some (opt_str (dict_get COMPONENT_MAP (py_strip v)))).
Proof.
  assert (E : extract_course_details (fun s => s) [] sample_course_soup (py "CS") (py "123")
              = Some (match extract_course_details (fun s => s) [] sample_course_soup
                              (py "CS") (py "123") with Some d => d | None => [] end))
    by (vm_compute; reflexivity).
  eexists. split; [exact E|].
  exact (course_details_component (fun s => s) [] sample_course_soup (py "CS") (py "123") _ E).
Defined.

Lemma course_details_requirements_witness :
  exists d,
    extract_course_details (fun s => s) [] sample_course_soup (py "CS") (py "123") = Some d
    /\ let requirements_text :=
         get_str (name_value_map (enrollment_rows sample_course_soup)) (py "Requirement") [] in
       (requirements_text = [] ->
          dict_get d (py "all_requirements") = Some PNone
          /\ dict_get d (py "corequisites") = Some PNone
          /\ dict_get d (py "prerequisites") = Some PNone
          /\ dict_get d (py "anti_requirements") = Some PNone)
       /\ (requirements_text <> [] ->
           dict_get d (py "all_requirements") = Some (PStr requirements_text)).
Proof.
  assert (E : extract_course_details (fun s => s) [] sample_course_soup (py "CS") (py "123")
              = Some (match extract_course_details (fun s => s) [] sample_course_soup
                              (py "CS") (py "123") with Some d => d | None => [] end))
    by (vm_compute; reflexivity).
  eexists. split; [exact E|].
  exact (course_details_requirements (fun s => s) [] sample_course_soup (py "CS") (py "123") _ E).
Defined.

Lemma catalog_rows_csv_keys_witness :
  exists row,
    In row (scan_catalog (fun _ => Ok sample_search_page) (fun _ _ => Ok [])
              (fun html subject_code course_id =>
                 Ok (extract_course_details (fun s => s) []
                       ((fun _ => sample_course_soup) html) subject_code course_id))
              [(py "Computer Science", py "CS")])
    /\ Permutation (map fst row) csv_keys
    /\ (forall write_row, dict_writer_row write_row csv_keys row = write_row csv_keys row)
    /\ exists subject_name subject_code,
         In (subject_name, subject_code) [(py "Computer Science", py "CS")]
         /\ dict_get row (py "subject") = Some (PStr subject_code).
Proof.
  assert (H : In (match scan_catalog (fun _ => Ok sample_search_page) (fun _ _ => Ok [])
                          (fun html subject_code course_id =>
                             Ok (extract_course_details (fun s => s) []
                                   ((fun _ => sample_course_soup) html) subject_code course_id))
                          [(py "Computer Science", py "CS")] with
                  | row :: _ => row
                  | [] => []
                  end)
                 (scan_catalog (fun _ => Ok sample_search_page) (fun _ _ => Ok [])
                    (fun html subject_code course_id =>
                       Ok (extract_course_details (fun s => s) []
                             ((fun _ => sample_course_soup) html) subject_code course_id))
                    [(py "Computer Science", py "CS")]))
    by (vm_compute; left; reflexivity).
  eexists. split; [exact H|].
  exact (catalog_rows_csv_keys _ _ (fun _ => sample_course_soup) (fun s => s) [] _ _ H).
Defined.

Lemma class_details_last_row_witness :
  exists d,
    extract_class_details (fun s => if str_eqb s (py "3") then Ok (PInt 3) else Raise ValueError)
      (mkSoup None (Some [[py "School:"; py "School of Engineering"]; [py "Hours:"; py "3"];
                          [py "Hours:"; py "TBA"]])) = Ok d
    /\ forall label key conv,
       In (label, key, conv)
         [(py "School", py "school_code", fun v => opt_str (map_get SCHOOL_MAP (Some v)));
          (py "Career", py "career_code", fun v => opt_str (map_get CAREER_MAP (Some v)));
          (py "Component", py "component_code", fun v => opt_str (map_get COMPONENT_MAP (Some v)));
          (py "Hours", py "units_earned",
           fun v => match (if str_eqb v (py "3") then Ok (PInt 3) else Raise ValueError) with
                    | Ok x => x
                    | Raise _ => PNone
                    end)] ->
       ((forall r, In r [[py "School:"; py "School of Engineering"]; [py "Hours:"; py "3"];
                         [py "Hours:"; py "TBA"]] ->
           forall a b c, r = a :: b :: c -> remove_colons a <> label) ->
          dict_get d key = Some PNone)
       /\ (forall pre a b c post,
             [[py "School:"; py "School of Engineering"]; [py "Hours:"; py "3"];
              [py "Hours:"; py "TBA"]] = pre ++ (a :: b :: c) :: post ->
             remove_colons a = label ->
             (forall r, In r post -> forall a' b' c', r = a' :: b' :: c' ->
                remove_colons a' <> label) ->
             dict_get d key = Some (conv b)).
Proof.
  apply (class_details_last_row
           (fun s => if str_eqb s (py "3") then Ok (PInt 3) else Raise ValueError)
           (mkSoup None (Some [[py "School:"; py "School of Engineering"]; [py "Hours:"; py "3"];
                               [py "Hours:"; py "TBA"]]))).
  - intros s e. destruct (str_eqb s (py "3")); congruence.
  - reflexivity.
Defined.


